(** * TubeSync background tasks ([sync/tasks.py]): a shallow embedding

    The task module of TubeSync is embedded function by function.  Python
    values get the types the code uses them at, exceptions are explicit
    results, the Django tables are finite maps keyed by primary key, and the
    calls that leave the module are parameters: the extractor, the
    downloader, the file system and the clock are the fields of [Externals],
    and [json.loads], [uuid.UUID] and [has_error] of [background_task] are
    variables of the sections that use them.  Logging is left out: it
    changes no state that the module reads back. *)

From Stdlib Require Import ZArith String Ascii List Bool Lia.
From stdpp Require Import gmap strings list fin_maps.

Set Warnings "-register-all".

Local Open Scope string_scope.
Local Open Scope list_scope.

(** ** Exceptions and results *)

Inductive exn : Type :=
  | TypeError
  | ValueError
  | AttributeError
  | KeyError
  | IndexError
  | DoesNotExist
  | MultipleObjectsReturned
  | NoMediaException
  | DownloadFailedException
  | OtherError (name : string).

Inductive result (A : Type) : Type :=
  | Ok (a : A)
  | Raise (e : exn).

Arguments Ok {A} a.
Arguments Raise {A} e.

Definition rbind {A B : Type} (r : result A) (k : A -> result B) : result B :=
  match r with
  | Ok a => k a
  | Raise e => Raise e
  end.

Declare Scope result_scope.
Delimit Scope result_scope with result.
Notation "x <~ r ; k" := (rbind r (fun x => k))
  (at level 100, r at next level, right associativity) : result_scope.

(** ** Python [str] and [list] primitives

    A [str] is a Rocq [string] whose characters are read as the code points
    below 256. *)

(** The line feed, the separator of [split('\n')]. *)
Definition LF : ascii := "010"%char.

Module PyStr.

(** [c.isspace()] on the code points below 256. *)
Definition isspace (c : ascii) : bool :=
  let n := nat_of_ascii c in
  ((9 <=? n)%nat && (n <=? 13)%nat) || ((28 <=? n)%nat && (n <=? 32)%nat)
  || (n =? 133)%nat || (n =? 160)%nat.

(** [s.lstrip()] *)
Fixpoint lstrip (s : string) : string :=
  match s with
  | EmptyString => EmptyString
  | String c s' => if isspace c then lstrip s' else s
  end.

(** [s.rstrip()] *)
Fixpoint rstrip (s : string) : string :=
  match s with
  | EmptyString => EmptyString
  | String c s' =>
      match rstrip s' with
      | EmptyString => if isspace c then EmptyString else String c EmptyString
      | r => String c r
      end
  end.

(** [s.strip()] *)
Definition strip (s : string) : string := lstrip (rstrip s).

(** [c in s] for a one-character [c]. *)
Fixpoint contains (c : ascii) (s : string) : bool :=
  match s with
  | EmptyString => false
  | String a s' => Ascii.eqb a c || contains c s'
  end.

Definition cons_head (a : ascii) (l : list string) : list string :=
  match l with
  | [] => [String a EmptyString]
  | h :: t => String a h :: t
  end.

(** [s.split(c)] for a one-character separator [c]. *)
Fixpoint split (c : ascii) (s : string) : list string :=
  match s with
  | EmptyString => [EmptyString]
  | String a s' =>
      if Ascii.eqb a c then EmptyString :: split c s'
      else cons_head a (split c s')
  end.

(** [s.split(c, maxsplit)] for a one-character separator [c]. *)
Fixpoint splitn (c : ascii) (s : string) (maxsplit : nat) {struct s}
  : list string :=
  match maxsplit with
  | O => [s]
  | S n =>
      match s with
      | EmptyString => [EmptyString]
      | String a s' =>
          if Ascii.eqb a c then EmptyString :: splitn c s' n
          else cons_head a (splitn c s' maxsplit)
      end
  end.

(** [bool(s)] *)
Definition truthy (s : string) : bool :=
  match s with
  | EmptyString => false
  | String _ _ => true
  end.

(** [bool(x)] for [x] a [str] or [None]. *)
Definition truthy_opt (o : option string) : bool :=
  match o with
  | Some s => truthy s
  | None => false
  end.

(** ** Words for the statements about strings *)

(** A string of white space only. *)
Fixpoint blank (s : string) : bool :=
  match s with
  | EmptyString => true
  | String c s' => isspace c && blank s'
  end.

(** [l] with [b] appended to its last piece. *)
Fixpoint app_last (l : list string) (b : string) : list string :=
  match l with
  | [] => []
  | [h] => [h +:+ b]
  | h :: t => h :: app_last t b
  end.

(** The trace up to its last line: empty, or ended by a line feed. *)
Definition line_start (pre : string) : Prop :=
  pre = "" \/ exists p, pre = p +:+ String LF "".

End PyStr.

(** [l[i]] on a Python list, negative indices counting from the end. *)
Definition py_index {A : Type} (l : list A) (i : Z) : result A :=
  let n := Z.of_nat (length l) in
  let j := (if i <? 0 then n + i else i)%Z in
  if ((j <? 0) || (n <=? j))%Z then Raise IndexError
  else match nth_error l (Z.to_nat j) with
       | Some a => Ok a
       | None => Raise IndexError
       end.

(** ** Tasks of [background_task]

    [Task] and [CompletedTask] share the columns the module reads. *)

Record Task : Type := mkTask {
  task_name : string;
  task_params : string;
  queue : string;
  priority : Z;
  verbose_name : string;
  run_at : Z;
  failed_at : option Z;
  last_error : string
}.

(** ** [get_error_message] *)

Section ErrorMessage.

(** [task.has_error()] belongs to [background_task]. *)
Variable has_error : Task -> bool.

Definition get_error_message (task : Task) : result string :=
  if negb (has_error task) then Ok ""
  else
    let stacktrace_lines := PyStr.split LF (PyStr.strip (last_error task)) in
    if (length stacktrace_lines =? 0)%nat then Ok ""
    else
      (line <~ py_index stacktrace_lines (-1);
       let error_message := PyStr.strip line in
       if negb (PyStr.contains ":" error_message) then Ok ""
       else
         (rest <~ py_index (PyStr.splitn ":" error_message 1) 1;
          Ok (PyStr.strip rest)))%result.

End ErrorMessage.

(** The error message the function works on. *)
Definition error_line (task : Task) : string :=
  PyStr.strip
    (List.last (PyStr.split LF (PyStr.strip (last_error task))) "").

(** [has_error] as [background_task] writes it: [bool(self.last_error)]. *)
Definition bg_has_error (task : Task) : bool :=
  PyStr.truthy (last_error task).

(** ** [hashlib.sha1] and the text encodings [get_hash] goes through *)

Module Hex.

Definition digit (n : Z) : ascii :=
  ascii_of_N (Z.to_N (if n <? 10 then 48 + n else 87 + n)%Z).

(** [n] written with [k] lower-case hexadecimal digits, as ['%0kx']. *)
Fixpoint fixed (k : nat) (n : Z) : string :=
  match k with
  | O => EmptyString
  | S k' => fixed k' (Z.shiftr n 4) +:+ String (digit (Z.land n 15)) EmptyString
  end.

End Hex.

Module SHA1.

Local Open Scope Z_scope.

Definition mask32 (x : Z) : Z := Z.land x 4294967295.

Definition rotl (n x : Z) : Z :=
  Z.lor (mask32 (Z.shiftl x n)) (Z.shiftr x (32 - n)).

Definition add32 (x y : Z) : Z := mask32 (x + y).

(** Big-endian bytes of a word of [k] bytes. *)
Fixpoint be_bytes (k : nat) (x : Z) : list Z :=
  match k with
  | O => []
  | S k' => be_bytes k' (Z.shiftr x 8) ++ [Z.land x 255]
  end.

Definition be_word (bs : list Z) : Z :=
  fold_left (fun acc b => Z.lor (Z.shiftl acc 8) b) bs 0.

(** The message followed by the bit 1, zeros up to 56 modulo 64 bytes, and
    the bit length on 8 bytes. *)
Definition pad (msg : list Z) : list Z :=
  let len := Z.of_nat (length msg) in
  let zeros := Z.to_nat ((55 - len) mod 64) in
  msg ++ [128] ++ repeat 0 zeros ++ be_bytes 8 (8 * len).

Fixpoint words (n : nat) (bs : list Z) : list Z :=
  match n with
  | O => []
  | S n' => be_word (firstn 4 bs) :: words n' (skipn 4 bs)
  end.

(** The message schedule, most recent word first. *)
Fixpoint expand (n : nat) (w : list Z) : list Z :=
  match n with
  | O => w
  | S n' =>
      let x := Z.lxor (Z.lxor (nth 2 w 0) (nth 7 w 0))
                      (Z.lxor (nth 13 w 0) (nth 15 w 0)) in
      expand n' (rotl 1 x :: w)
  end.

Definition schedule (block : list Z) : list Z :=
  rev (expand 64 (rev (words 16 block))).

Record state : Type := mkState { h0 : Z; h1 : Z; h2 : Z; h3 : Z; h4 : Z }.

Definition init : state :=
  mkState 1732584193 4023233417 2562383102 271733878 3285377520.

Definition f (t : nat) (b c d : Z) : Z :=
  if (t <? 20)%nat then Z.lor (Z.land b c) (Z.land (Z.lxor b 4294967295) d)
  else if (t <? 40)%nat then Z.lxor (Z.lxor b c) d
  else if (t <? 60)%nat then
    Z.lor (Z.lor (Z.land b c) (Z.land b d)) (Z.land c d)
  else Z.lxor (Z.lxor b c) d.

Definition k (t : nat) : Z :=
  if (t <? 20)%nat then 1518500249
  else if (t <? 40)%nat then 1859775393
  else if (t <? 60)%nat then 2400959708
  else 3395469782.

Definition round (t : nat) (wt : Z) (s : state) : state :=
  let temp :=
    add32 (add32 (add32 (add32 (rotl 5 (h0 s)) (f t (h1 s) (h2 s) (h3 s)))
                        (h4 s)) (k t)) wt in
  mkState temp (h0 s) (rotl 30 (h1 s)) (h2 s) (h3 s).

Fixpoint rounds (t : nat) (ws : list Z) (s : state) : state :=
  match ws with
  | [] => s
  | wt :: ws' => rounds (S t) ws' (round t wt s)
  end.

Definition compress (s : state) (block : list Z) : state :=
  let r := rounds 0 (schedule block) s in
  mkState (add32 (h0 s) (h0 r)) (add32 (h1 s) (h1 r)) (add32 (h2 s) (h2 r))
          (add32 (h3 s) (h3 r)) (add32 (h4 s) (h4 r)).

Fixpoint blocks (n : nat) (bs : list Z) (s : state) : state :=
  match n with
  | O => s
  | S n' => blocks n' (skipn 64 bs) (compress s (firstn 64 bs))
  end.

Definition digest (msg : list Z) : state :=
  let p := pad msg in
  blocks (length p / 64) p init.

(** [sha1(msg).hexdigest()] *)
Definition hexdigest (msg : list Z) : string :=
  let s := digest msg in
  Hex.fixed 8 (h0 s) +:+ Hex.fixed 8 (h1 s) +:+ Hex.fixed 8 (h2 s)
  +:+ Hex.fixed 8 (h3 s) +:+ Hex.fixed 8 (h4 s).

End SHA1.

(** [s.encode('utf-8')] on code points below 256. *)
Fixpoint encode_utf8 (s : string) : list Z :=
  match s with
  | EmptyString => []
  | String c s' =>
      let n := Z.of_N (N_of_ascii c) in
      if (n <? 128)%Z then n :: encode_utf8 s'
      else Z.lor 192 (Z.shiftr n 6) :: Z.lor 128 (Z.land n 63) :: encode_utf8 s'
  end.

Module Json.

Definition DQUOTE : ascii := "034"%char.

(** One character of a string under [json.dumps] (with [ensure_ascii]). *)
Definition escape_char (c : ascii) : string :=
  let n := Z.of_N (N_of_ascii c) in
  if (n =? 34)%Z then "\" +:+ String c EmptyString
  else if (n =? 92)%Z then "\\"
  else if (n =? 10)%Z then "\n"
  else if (n =? 13)%Z then "\r"
  else if (n =? 9)%Z then "\t"
  else if (n =? 8)%Z then "\b"
  else if (n =? 12)%Z then "\f"
  else if ((32 <=? n) && (n <=? 126))%Z then String c EmptyString
  else "\u" +:+ Hex.fixed 4 n.

Fixpoint escape (s : string) : string :=
  match s with
  | EmptyString => EmptyString
  | String c s' => escape_char c +:+ escape s'
  end.

(** [json.dumps(s)] for a [str]. *)
Definition dumps_str (s : string) : string :=
  String DQUOTE (escape s) +:+ String DQUOTE EmptyString.

(** [json.dumps(((s,), {}), sort_keys=True)]: a list holding the list of
    the one positional argument and the empty dictionary of keyword
    arguments, which has no keys to sort. *)
Definition dumps_args (s : string) : string :=
  "[[" +:+ dumps_str s +:+ "], {}]".

End Json.

(** ** [get_hash] *)

Section GetHash.

(** The type of the [pk] argument and its [str]. *)
Context {PK : Type}.
Variable str : PK -> string.

Definition get_hash (task_name : string) (pk : PK) : string :=
  let task_params := Json.dumps_args (str pk) in
  SHA1.hexdigest (encode_utf8 (task_name +:+ task_params)).

End GetHash.

(** [str(u)] for a [uuid.UUID], kept as its 128-bit integer. *)
Definition str_uuid (u : N) : string :=
  let n := Z.of_N u in
  Hex.fixed 8 (Z.shiftr n 96) +:+ "-" +:+ Hex.fixed 4 (Z.shiftr n 80) +:+ "-"
  +:+ Hex.fixed 4 (Z.shiftr n 64) +:+ "-" +:+ Hex.fixed 4 (Z.shiftr n 48)
  +:+ "-" +:+ Hex.fixed 12 n.

(** ** The catalog *)

Module Source.

(** A row of [sync.models.Source]: the columns [tasks.py] reads or writes
    (the primary key is the key of the table). *)
Record t : Type := mk {
  key_field : string;
  has_failed : bool;
  last_crawl : option Z;
  delete_old_media : bool;
  days_to_keep : Z;
  delete_removed_media : bool;
  download_media : bool;
  download_cap_date : option Z;
  copy_thumbnails : bool;
  write_nfo : bool
}.

Definition set_has_failed (v : bool) (x : t) : t :=
  mk (x.(key_field)) v (x.(last_crawl)) (x.(delete_old_media))
    (x.(days_to_keep)) (x.(delete_removed_media)) (x.(download_media))
    (x.(download_cap_date)) (x.(copy_thumbnails)) (x.(write_nfo)).

Definition set_last_crawl (v : option Z) (x : t) : t :=
  mk (x.(key_field)) (x.(has_failed)) v (x.(delete_old_media))
    (x.(days_to_keep)) (x.(delete_removed_media)) (x.(download_media))
    (x.(download_cap_date)) (x.(copy_thumbnails)) (x.(write_nfo)).

End Source.

Module Media.

(** A row of [sync.models.Media].  [media_file] and [thumb] are the names of
    the file fields, empty when no file is attached. *)
Record t : Type := mk {
  source : N;
  key : string;
  skip : bool;
  manual_skip : bool;
  can_download : bool;
  downloaded : bool;
  media_file : string;
  thumb : string;
  metadata : option string;
  published : option Z;
  download_date : option Z;
  downloaded_filesize : option Z;
  downloaded_container : option string;
  downloaded_format : option string;
  downloaded_height : option Z;
  downloaded_width : option Z;
  downloaded_audio_codec : option string;
  downloaded_video_codec : option string;
  downloaded_fps : option Z;
  downloaded_hdr : bool
}.

Definition set_source (v : N) (x : t) : t :=
  mk v (x.(key)) (x.(skip)) (x.(manual_skip)) (x.(can_download))
    (x.(downloaded)) (x.(media_file)) (x.(thumb)) (x.(metadata))
    (x.(published)) (x.(download_date)) (x.(downloaded_filesize))
    (x.(downloaded_container)) (x.(downloaded_format)) (x.(downloaded_height))
    (x.(downloaded_width)) (x.(downloaded_audio_codec))
    (x.(downloaded_video_codec)) (x.(downloaded_fps)) (x.(downloaded_hdr)).

Definition set_skip (v : bool) (x : t) : t :=
  mk (x.(source)) (x.(key)) v (x.(manual_skip)) (x.(can_download))
    (x.(downloaded)) (x.(media_file)) (x.(thumb)) (x.(metadata))
    (x.(published)) (x.(download_date)) (x.(downloaded_filesize))
    (x.(downloaded_container)) (x.(downloaded_format)) (x.(downloaded_height))
    (x.(downloaded_width)) (x.(downloaded_audio_codec))
    (x.(downloaded_video_codec)) (x.(downloaded_fps)) (x.(downloaded_hdr)).

Definition set_can_download (v : bool) (x : t) : t :=
  mk (x.(source)) (x.(key)) (x.(skip)) (x.(manual_skip)) v (x.(downloaded))
    (x.(media_file)) (x.(thumb)) (x.(metadata)) (x.(published))
    (x.(download_date)) (x.(downloaded_filesize)) (x.(downloaded_container))
    (x.(downloaded_format)) (x.(downloaded_height)) (x.(downloaded_width))
    (x.(downloaded_audio_codec)) (x.(downloaded_video_codec))
    (x.(downloaded_fps)) (x.(downloaded_hdr)).

Definition set_downloaded (v : bool) (x : t) : t :=
  mk (x.(source)) (x.(key)) (x.(skip)) (x.(manual_skip)) (x.(can_download)) v
    (x.(media_file)) (x.(thumb)) (x.(metadata)) (x.(published))
    (x.(download_date)) (x.(downloaded_filesize)) (x.(downloaded_container))
    (x.(downloaded_format)) (x.(downloaded_height)) (x.(downloaded_width))
    (x.(downloaded_audio_codec)) (x.(downloaded_video_codec))
    (x.(downloaded_fps)) (x.(downloaded_hdr)).

Definition set_media_file (v : string) (x : t) : t :=
  mk (x.(source)) (x.(key)) (x.(skip)) (x.(manual_skip)) (x.(can_download))
    (x.(downloaded)) v (x.(thumb)) (x.(metadata)) (x.(published))
    (x.(download_date)) (x.(downloaded_filesize)) (x.(downloaded_container))
    (x.(downloaded_format)) (x.(downloaded_height)) (x.(downloaded_width))
    (x.(downloaded_audio_codec)) (x.(downloaded_video_codec))
    (x.(downloaded_fps)) (x.(downloaded_hdr)).

Definition set_metadata (v : option string) (x : t) : t :=
  mk (x.(source)) (x.(key)) (x.(skip)) (x.(manual_skip)) (x.(can_download))
    (x.(downloaded)) (x.(media_file)) (x.(thumb)) v (x.(published))
    (x.(download_date)) (x.(downloaded_filesize)) (x.(downloaded_container))
    (x.(downloaded_format)) (x.(downloaded_height)) (x.(downloaded_width))
    (x.(downloaded_audio_codec)) (x.(downloaded_video_codec))
    (x.(downloaded_fps)) (x.(downloaded_hdr)).

Definition set_published (v : option Z) (x : t) : t :=
  mk (x.(source)) (x.(key)) (x.(skip)) (x.(manual_skip)) (x.(can_download))
    (x.(downloaded)) (x.(media_file)) (x.(thumb)) (x.(metadata)) v
    (x.(download_date)) (x.(downloaded_filesize)) (x.(downloaded_container))
    (x.(downloaded_format)) (x.(downloaded_height)) (x.(downloaded_width))
    (x.(downloaded_audio_codec)) (x.(downloaded_video_codec))
    (x.(downloaded_fps)) (x.(downloaded_hdr)).

Definition set_download_date (v : option Z) (x : t) : t :=
  mk (x.(source)) (x.(key)) (x.(skip)) (x.(manual_skip)) (x.(can_download))
    (x.(downloaded)) (x.(media_file)) (x.(thumb)) (x.(metadata))
    (x.(published)) v (x.(downloaded_filesize)) (x.(downloaded_container))
    (x.(downloaded_format)) (x.(downloaded_height)) (x.(downloaded_width))
    (x.(downloaded_audio_codec)) (x.(downloaded_video_codec))
    (x.(downloaded_fps)) (x.(downloaded_hdr)).

Definition set_downloaded_filesize (v : option Z) (x : t) : t :=
  mk (x.(source)) (x.(key)) (x.(skip)) (x.(manual_skip)) (x.(can_download))
    (x.(downloaded)) (x.(media_file)) (x.(thumb)) (x.(metadata))
    (x.(published)) (x.(download_date)) v (x.(downloaded_container))
    (x.(downloaded_format)) (x.(downloaded_height)) (x.(downloaded_width))
    (x.(downloaded_audio_codec)) (x.(downloaded_video_codec))
    (x.(downloaded_fps)) (x.(downloaded_hdr)).

Definition set_downloaded_container (v : option string) (x : t) : t :=
  mk (x.(source)) (x.(key)) (x.(skip)) (x.(manual_skip)) (x.(can_download))
    (x.(downloaded)) (x.(media_file)) (x.(thumb)) (x.(metadata))
    (x.(published)) (x.(download_date)) (x.(downloaded_filesize)) v
    (x.(downloaded_format)) (x.(downloaded_height)) (x.(downloaded_width))
    (x.(downloaded_audio_codec)) (x.(downloaded_video_codec))
    (x.(downloaded_fps)) (x.(downloaded_hdr)).

Definition set_downloaded_format (v : option string) (x : t) : t :=
  mk (x.(source)) (x.(key)) (x.(skip)) (x.(manual_skip)) (x.(can_download))
    (x.(downloaded)) (x.(media_file)) (x.(thumb)) (x.(metadata))
    (x.(published)) (x.(download_date)) (x.(downloaded_filesize))
    (x.(downloaded_container)) v (x.(downloaded_height))
    (x.(downloaded_width)) (x.(downloaded_audio_codec))
    (x.(downloaded_video_codec)) (x.(downloaded_fps)) (x.(downloaded_hdr)).

Definition set_downloaded_height (v : option Z) (x : t) : t :=
  mk (x.(source)) (x.(key)) (x.(skip)) (x.(manual_skip)) (x.(can_download))
    (x.(downloaded)) (x.(media_file)) (x.(thumb)) (x.(metadata))
    (x.(published)) (x.(download_date)) (x.(downloaded_filesize))
    (x.(downloaded_container)) (x.(downloaded_format)) v
    (x.(downloaded_width)) (x.(downloaded_audio_codec))
    (x.(downloaded_video_codec)) (x.(downloaded_fps)) (x.(downloaded_hdr)).

Definition set_downloaded_width (v : option Z) (x : t) : t :=
  mk (x.(source)) (x.(key)) (x.(skip)) (x.(manual_skip)) (x.(can_download))
    (x.(downloaded)) (x.(media_file)) (x.(thumb)) (x.(metadata))
    (x.(published)) (x.(download_date)) (x.(downloaded_filesize))
    (x.(downloaded_container)) (x.(downloaded_format)) (x.(downloaded_height))
    v (x.(downloaded_audio_codec)) (x.(downloaded_video_codec))
    (x.(downloaded_fps)) (x.(downloaded_hdr)).

Definition set_downloaded_audio_codec (v : option string) (x : t) : t :=
  mk (x.(source)) (x.(key)) (x.(skip)) (x.(manual_skip)) (x.(can_download))
    (x.(downloaded)) (x.(media_file)) (x.(thumb)) (x.(metadata))
    (x.(published)) (x.(download_date)) (x.(downloaded_filesize))
    (x.(downloaded_container)) (x.(downloaded_format)) (x.(downloaded_height))
    (x.(downloaded_width)) v (x.(downloaded_video_codec)) (x.(downloaded_fps))
    (x.(downloaded_hdr)).

Definition set_downloaded_video_codec (v : option string) (x : t) : t :=
  mk (x.(source)) (x.(key)) (x.(skip)) (x.(manual_skip)) (x.(can_download))
    (x.(downloaded)) (x.(media_file)) (x.(thumb)) (x.(metadata))
    (x.(published)) (x.(download_date)) (x.(downloaded_filesize))
    (x.(downloaded_container)) (x.(downloaded_format)) (x.(downloaded_height))
    (x.(downloaded_width)) (x.(downloaded_audio_codec)) v (x.(downloaded_fps))
    (x.(downloaded_hdr)).

Definition set_downloaded_fps (v : option Z) (x : t) : t :=
  mk (x.(source)) (x.(key)) (x.(skip)) (x.(manual_skip)) (x.(can_download))
    (x.(downloaded)) (x.(media_file)) (x.(thumb)) (x.(metadata))
    (x.(published)) (x.(download_date)) (x.(downloaded_filesize))
    (x.(downloaded_container)) (x.(downloaded_format)) (x.(downloaded_height))
    (x.(downloaded_width)) (x.(downloaded_audio_codec))
    (x.(downloaded_video_codec)) v (x.(downloaded_hdr)).

Definition set_downloaded_hdr (v : bool) (x : t) : t :=
  mk (x.(source)) (x.(key)) (x.(skip)) (x.(manual_skip)) (x.(can_download))
    (x.(downloaded)) (x.(media_file)) (x.(thumb)) (x.(metadata))
    (x.(published)) (x.(download_date)) (x.(downloaded_filesize))
    (x.(downloaded_container)) (x.(downloaded_format)) (x.(downloaded_height))
    (x.(downloaded_width)) (x.(downloaded_audio_codec))
    (x.(downloaded_video_codec)) (x.(downloaded_fps)) v.

End Media.

(** A processed format of a media item, as [get_format_by_code] hands it
    out: the entries of the dictionary that [download_media] reads. *)
Record Format : Type := mkFormat {
  format : string;
  height : Z;
  width : Z;
  vcodec : option string;
  acodec : option string;
  fps : Z;
  is_hdr : bool
}.

(** An item of the enumeration of a source: a dictionary, of which the
    module reads string entries only. *)
Abbreviation video := (gmap string string).

(** What the module does to the outside, in the order it does it. *)
Inductive effect : Type :=
  | SaveSource (pk : N) (row : Source.t)
  | SaveMedia (pk : N) (row : Media.t)
  | DeleteMedia (pk : N)
  | DeleteCompletedTasks (before : Z)
  | CallIndexMedia (pk : N)
  | CallIndexMetadata (pk : N)
  | CallDownloadMedia (pk : N)
  | CopyFile (src dst : string)
  | WriteTextFile (path content : string)
  | ScheduleTask (name params : string).

(** The tables, the clock reads and identifiers drawn so far, and the trace
    of effects. *)
Record World : Type := mkWorld {
  db_sources : gmap N Source.t;
  db_media : gmap N Media.t;
  db_mediaservers : gmap N string;
  db_tasks : list Task;
  db_completed : list Task;
  ticks : nat;
  drawn : nat;
  effects : list effect
}.

Definition with_sources (v : gmap N Source.t) (w : World) : World :=
  mkWorld v (db_media w) (db_mediaservers w) (db_tasks w) (db_completed w)
    (ticks w) (drawn w) (effects w).

Definition with_media (v : gmap N Media.t) (w : World) : World :=
  mkWorld (db_sources w) v (db_mediaservers w) (db_tasks w) (db_completed w)
    (ticks w) (drawn w) (effects w).

Definition with_tasks (v : list Task) (w : World) : World :=
  mkWorld (db_sources w) (db_media w) (db_mediaservers w) v (db_completed w)
    (ticks w) (drawn w) (effects w).

Definition with_completed (v : list Task) (w : World) : World :=
  mkWorld (db_sources w) (db_media w) (db_mediaservers w) (db_tasks w) v
    (ticks w) (drawn w) (effects w).

Definition with_ticks (v : nat) (w : World) : World :=
  mkWorld (db_sources w) (db_media w) (db_mediaservers w) (db_tasks w)
    (db_completed w) v (drawn w) (effects w).

Definition with_drawn (v : nat) (w : World) : World :=
  mkWorld (db_sources w) (db_media w) (db_mediaservers w) (db_tasks w)
    (db_completed w) (ticks w) v (effects w).

Definition with_effects (v : list effect) (w : World) : World :=
  mkWorld (db_sources w) (db_media w) (db_mediaservers w) (db_tasks w)
    (db_completed w) (ticks w) (drawn w) v.

(** ** The monad of the task functions: state and exceptions *)

Definition M (A : Type) : Type := World -> result A * World.

Definition ret {A : Type} (a : A) : M A := fun w => (Ok a, w).

Definition raise {A : Type} (e : exn) : M A := fun w => (Raise e, w).

Definition bind {A B : Type} (m : M A) (k : A -> M B) : M B :=
  fun w =>
    match m w with
    | (Ok a, w') => k a w'
    | (Raise e, w') => (Raise e, w')
    end.

Definition get : M World := fun w => (Ok w, w).

Definition modify (g : World -> World) : M unit := fun w => (Ok tt, g w).

Definition lift {A : Type} (r : result A) : M A := fun w => (r, w).

Definition emit (e : effect) : M unit :=
  modify (fun w => with_effects (effects w ++ [e]) w).

Declare Scope task_scope.
Delimit Scope task_scope with task.
Notation "x <- m ;; k" := (bind m (fun x => k))
  (at level 100, m at next level, right associativity) : task_scope.
Notation "m ;; k" := (bind m (fun _ => k))
  (at level 100, right associativity) : task_scope.

(** [for x in l: body(x)] *)
Fixpoint for_each {A : Type} (l : list A) (body : A -> M unit) : M unit :=
  match l with
  | [] => ret tt
  | x :: l' => bind (body x) (fun _ => for_each l' body)
  end.

(** [timedelta(days=n)], in microseconds. *)
Definition timedelta_days (n : Z) : Z := (n * 86400000000)%Z.

(** ** [map_task_to_instance] *)

(** The values [json.loads] returns. *)
Inductive json : Type :=
  | JNull
  | JBool (b : bool)
  | JInt (n : Z)
  | JFloat (literal : string)
  | JStr (s : string)
  | JList (l : list json)
  | JDict (d : list (string * json)).

(** The model classes that tasks are mapped to. *)
Inductive model : Type := SourceModel | MediaModel.

Inductive instance : Type :=
  | SourceInstance (pk : N) (row : Source.t)
  | MediaInstance (pk : N) (row : Media.t).

Fixpoint chars (s : string) : list json :=
  match s with
  | EmptyString => []
  | String c s' => JStr (String c EmptyString) :: chars s'
  end.

(** [len(v)] *)
Definition py_len (v : json) : result nat :=
  match v with
  | JStr s => Ok (String.length s)
  | JList l => Ok (length l)
  | JDict d => Ok (length d)
  | _ => Raise TypeError
  end.

(** The items [v] yields when iterated: the characters of a string, the
    elements of a list, the keys of a dictionary. *)
Definition py_iter (v : json) : result (list json) :=
  match v with
  | JStr s => Ok (chars s)
  | JList l => Ok l
  | JDict d => Ok (map (fun kv => JStr (fst kv)) d)
  | _ => Raise TypeError
  end.

(** [a, b = v] *)
Definition unpack2 (v : json) : result (json * json) :=
  (items <~ py_iter v;
   match items with
   | [a; b] => Ok (a, b)
   | _ => Raise ValueError
   end)%result.

(** [v[0]]; the keys of a decoded dictionary are strings, never [0]. *)
Definition getitem0 (v : json) : result json :=
  match v with
  | JStr s => py_index (chars s) 0
  | JList l => py_index l 0
  | JDict _ => Raise KeyError
  | _ => Raise TypeError
  end.

(** [except (TypeError, ValueError, AttributeError)] *)
Definition caught (e : exn) : bool :=
  match e with
  | TypeError | ValueError | AttributeError => true
  | _ => false
  end.

Definition TASK_MAP (task_func : string) : option model :=
  if String.eqb task_func "sync.tasks.index_source_task" then Some SourceModel
  else if String.eqb task_func "sync.tasks.check_source_directory_exists"
  then Some SourceModel
  else if String.eqb task_func "sync.tasks.download_media_thumbnail"
  then Some MediaModel
  else if String.eqb task_func "sync.tasks.download_media" then Some MediaModel
  else None.

Definition MODEL_URL_MAP (m : model) : option string :=
  match m with
  | SourceModel => Some "sync:source"
  | MediaModel => Some "sync:media-item"
  end.

(** [model.objects.get(pk=pk)], [None] standing for [model.DoesNotExist]. *)
Definition objects_get (w : World) (m : model) (pk : N) : option instance :=
  match m with
  | SourceModel => SourceInstance pk <$> db_sources w !! pk
  | MediaModel => MediaInstance pk <$> db_media w !! pk
  end.

Section MapTask.

(** [json.loads] on a [str], and [uuid.UUID(hex)] on a [str] ([None] when it
    raises its [ValueError]). *)
Variable json_loads : string -> result json.
Variable uuid_of_str : string -> option N.

(** [uuid.UUID(v)]: without a [str] the constructor fails on [None] with a
    [TypeError] and on anything else at [hex.replace]. *)
Definition UUID (v : json) : result N :=
  match v with
  | JStr s =>
      match uuid_of_str s with
      | Some u => Ok u
      | None => Raise ValueError
      end
  | JNull => Raise TypeError
  | _ => Raise AttributeError
  end.

Definition map_task_to_instance (w : World) (task : Task)
  : result (option instance * option string) :=
  let task_func := task_name task in
  let task_args_str := task_params task in
  match TASK_MAP task_func with
  | None => Ok (None, None)
  | Some model =>
      match MODEL_URL_MAP model with
      | None => Ok (None, None)
      | Some url =>
          if negb (PyStr.truthy url) then Ok (None, None)
          else
            match json_loads task_args_str with
            | Raise e => if caught e then Ok (None, None) else Raise e
            | Ok task_args =>
                (n <~ py_len task_args;
                 if negb (n =? 2)%nat then Ok (None, None)
                 else
                   (p <~ unpack2 task_args;
                    let args := fst p in
                    m <~ py_len args;
                    if (m =? 0)%nat then Ok (None, None)
                    else
                      (instance_uuid_str <~ getitem0 args;
                       match UUID instance_uuid_str with
                       | Raise e =>
                           if caught e then Ok (None, None) else Raise e
                       | Ok instance_uuid =>
                           match objects_get w model instance_uuid with
                           | Some instance => Ok (Some instance, Some url)
                           | None => Ok (None, None)
                           end
                       end)))%result
            end
      end
  end.

End MapTask.

(** ** What the module calls outside itself *)

Record Externals : Type := mkExternals {
  (** [timezone.now()] at its n-th read *)
  now : nat -> Z;
  (** the n-th primary key drawn for a new row ([uuid.uuid4]) *)
  uuid4 : nat -> N;
  (** [getattr(settings, 'COMPLETED_TASKS_DAYS_TO_KEEP', ...)] *)
  COMPLETED_TASKS_DAYS_TO_KEEP : option Z;
  (** [source.index_media()] *)
  index_media : N -> Source.t -> result (option (list video));
  (** [json.dumps(media.index_metadata(), default=json_serial)] *)
  index_metadata : N -> Media.t -> result string;
  (** [media.upload_date] *)
  upload_date : Media.t -> option Z;
  (** [timezone.make_aware] *)
  make_aware : Z -> Z;
  (** [media.get_format_str()], [None] for a value that is not a [str] *)
  get_format_str : Source.t -> Media.t -> option string;
  (** [media.get_format_by_code(code)], [None] when it returns no format *)
  get_format_by_code : Media.t -> string -> option Format;
  (** [media.filepath] *)
  filepath : Source.t -> Media.t -> string;
  (** [str(media.source.type_directory_path / media.filename)] *)
  media_file_name : Source.t -> Media.t -> string;
  (** [media.download_media()] *)
  run_download : N -> Source.t -> Media.t -> result (string * string);
  (** [os.path.exists] and [os.path.getsize] once the downloader is back *)
  path_exists : string -> bool;
  getsize : string -> Z;
  (** [media.thumb.path], [media.thumbpath], [media.nfopath], [media.nfoxml] *)
  thumb_path : Media.t -> string;
  thumbpath : Source.t -> Media.t -> string;
  nfopath : Source.t -> Media.t -> string;
  nfoxml : Source.t -> Media.t -> string
}.

(** ** The task functions *)

Section Tasks.

Variable ext : Externals.

Local Open Scope task_scope.

(** [timezone.now()] *)
Definition timezone_now : M Z :=
  fun w => (Ok (now ext (ticks w)), with_ticks (S (ticks w)) w).

(** [source.save()] *)
Definition source_save (pk : N) (row : Source.t) : M unit :=
  emit (SaveSource pk row) ;;
  modify (fun w => with_sources (<[pk:=row]> (db_sources w)) w).

(** [media.save()] *)
Definition media_save (pk : N) (row : Media.t) : M unit :=
  emit (SaveMedia pk row) ;;
  modify (fun w => with_media (<[pk:=row]> (db_media w)) w).

(** [media.delete()]; the files go with the row. *)
Definition media_delete (pk : N) : M unit :=
  emit (DeleteMedia pk) ;;
  modify (fun w => with_media (delete pk (db_media w)) w).

(** [media.source]: the row the foreign key names. *)
Definition media_source (media : Media.t) : M Source.t :=
  w <- get ;;
  match db_sources w !! Media.source media with
  | Some source => ret source
  | None => raise DoesNotExist
  end.

Definition cleanup_completed_tasks : M unit :=
  let days_to_keep := default 30%Z (COMPLETED_TASKS_DAYS_TO_KEEP ext) in
  t <- timezone_now ;;
  let delta := (t - timedelta_days days_to_keep)%Z in
  emit (DeleteCompletedTasks delta) ;;
  modify (fun w =>
    with_completed
      (List.filter (fun c => negb (run_at c <? delta)%Z) (db_completed w)) w).

(** [Source.objects.filter(delete_old_media=True, days_to_keep__gt=0)] *)
Definition expiring (s : N * Source.t) : bool :=
  Source.delete_old_media (snd s) && (0 <? Source.days_to_keep (snd s))%Z.

(** [download_date__lt=delta]; a null date matches no comparison. *)
Definition date_lt (d : option Z) (delta : Z) : bool :=
  match d with
  | Some t => (t <? delta)%Z
  | None => false
  end.

(** [source.media_source.filter(downloaded=True, download_date__lt=delta)] *)
Definition expired (source_id : N) (delta : Z) (m : N * Media.t) : bool :=
  (Media.source (snd m) =? source_id)%N && Media.downloaded (snd m)
  && date_lt (Media.download_date (snd m)) delta.

Definition cleanup_old_media : M unit :=
  w <- get ;;
  for_each (List.filter expiring (map_to_list (db_sources w)))
    (fun source =>
       t <- timezone_now ;;
       let delta := (t - timedelta_days (Source.days_to_keep (snd source)))%Z in
       w' <- get ;;
       for_each (List.filter (expired (fst source) delta)
                   (map_to_list (db_media w')))
         (fun media => media_delete (fst media))).

(** [[video['id'] for video in videos if video['id'] == key]] *)
Fixpoint matching_source_item (videos : list video) (key : string)
  : result (list string) :=
  match videos with
  | [] => Ok []
  | v :: videos' =>
      match v !! "id" with
      | None => Raise KeyError
      | Some i =>
          (rest <~ matching_source_item videos' key;
           Ok (if String.eqb i key then i :: rest else rest))%result
      end
  end.

(** [Media.objects.filter(source=source, downloaded=True)] *)
Definition downloaded_of (source_id : N) (m : N * Media.t) : bool :=
  (Media.source (snd m) =? source_id)%N && Media.downloaded (snd m).

Definition cleanup_removed_media (source : N * Source.t) (videos : list video)
  : M unit :=
  w <- get ;;
  let media_objects :=
    List.filter (downloaded_of (fst source)) (map_to_list (db_media w)) in
  for_each media_objects
    (fun item =>
       matching <- lift (matching_source_item videos (Media.key (snd item))) ;;
       match matching with
       | [] => media_delete (fst item)
       | _ :: _ => ret tt
       end).

(** [Media(key=key)] with [source] assigned: a row that nothing has been
    fetched or downloaded for. *)
Definition new_media (source_id : N) (key : string) : Media.t :=
  Media.mk source_id key false false false false "" "" None None None None
    None None None None None None None false.

(** [Media.objects.get(key=key, source=source)], [None] standing for
    [Media.DoesNotExist]. *)
Definition media_get (w : World) (key : string) (source_id : N)
  : result (option (N * Media.t)) :=
  match List.filter
          (fun m => String.eqb (Media.key (snd m)) key
                    && (Media.source (snd m) =? source_id)%N)
          (map_to_list (db_media w)) with
  | [] => Ok None
  | [m] => Ok (Some m)
  | _ => Raise MultipleObjectsReturned
  end.

(** The body of [for video in videos] in [index_source_task]. *)
Definition index_video (source : N * Source.t) (v : video) : M unit :=
  match v !! Source.key_field (snd source) with
  | None => ret tt
  | Some key =>
      if negb (PyStr.truthy key) then ret tt
      else
        w <- get ;;
        found <- lift (media_get w key (fst source)) ;;
        match found with
        | Some media =>
            media_save (fst media) (Media.set_source (fst source) (snd media))
        | None =>
            let pk := uuid4 ext (drawn w) in
            modify (with_drawn (S (drawn w))) ;;
            match db_media w !! pk with
            | Some _ => ret tt
            | None => media_save pk (new_media (fst source) key)
            end
        end
  end.

Definition index_source_task (source_id : N) : M unit :=
  w <- get ;;
  match db_sources w !! source_id with
  | None => ret tt
  | Some row =>
      let source := Source.set_has_failed false row in
      source_save source_id source ;;
      emit (CallIndexMedia source_id) ;;
      videos <- lift (index_media ext source_id source) ;;
      match videos with
      | None | Some [] => raise NoMediaException
      | Some videos =>
          t <- timezone_now ;;
          let source := Source.set_last_crawl (Some t) source in
          source_save source_id source ;;
          for_each videos (index_video (source_id, source)) ;;
          cleanup_completed_tasks ;;
          cleanup_old_media ;;
          if Source.delete_removed_media source
          then cleanup_removed_media (source_id, source) videos
          else ret tt
      end
  end.

Definition download_media_metadata (media_id : N) : M unit :=
  w <- get ;;
  match db_media w !! media_id with
  | None => ret tt
  | Some media =>
      if Media.manual_skip media then ret tt
      else
        source <- media_source media ;;
        emit (CallIndexMetadata media_id) ;;
        metadata <- lift (index_metadata ext media_id media) ;;
        let media := Media.set_metadata (Some metadata) media in
        let media :=
          match upload_date ext media with
          | Some d => Media.set_published (Some (make_aware ext d)) media
          | None => Media.set_skip true media
          end in
        (* the download cap date of the source *)
        let max_cap_age := Source.download_cap_date source in
        let media :=
          match Media.published media, max_cap_age with
          | Some published, Some cap =>
              if (published <? cap)%Z then Media.set_skip true media else media
          | _, _ => media
          end in
        (* the cut-off of the source *)
        media <-
          (if Source.delete_old_media source
              && (0 <? Source.days_to_keep source)%Z
           then
             match Media.published media with
             | None => ret (Media.set_skip true media)
             | Some published =>
                 t <- timezone_now ;;
                 let delta :=
                   (t - timedelta_days (Source.days_to_keep source))%Z in
                 ret (if (published <? delta)%Z
                      then Media.set_skip true media else media)
             end
           else ret media) ;;
        let media :=
          if negb (Media.skip media)
          then Media.set_can_download
                 (PyStr.truthy_opt (get_format_str ext source media)) media
          else media in
        media_save media_id media
  end.

(** Lines 362 to 389 of [download_media]: the fields read off the format
    string the downloader returned.  Subscripting the value that
    [get_format_by_code] gives for a code without a format raises. *)
Definition subscript (f : option Format) : result Format :=
  match f with
  | Some x => Ok x
  | None => Raise TypeError
  end.

Definition set_downloaded_formats (format_str container : string)
  (media : Media.t) : result Media.t :=
  (if PyStr.contains "+" format_str then
     match PyStr.split "+" format_str with
     | [vformat_code; aformat_code] =>
         let aformat := get_format_by_code ext media aformat_code in
         let vformat := get_format_by_code ext media vformat_code in
         vf <~ subscript vformat;
         let media := Media.set_downloaded_format (Some (format vf)) media in
         let media := Media.set_downloaded_height (Some (height vf)) media in
         let media := Media.set_downloaded_width (Some (width vf)) media in
         af <~ subscript aformat;
         let media := Media.set_downloaded_audio_codec (acodec af) media in
         let media := Media.set_downloaded_video_codec (vcodec vf) media in
         let media := Media.set_downloaded_container (Some container) media in
         let media := Media.set_downloaded_fps (Some (fps vf)) media in
         Ok (Media.set_downloaded_hdr (is_hdr vf) media)
     | _ => Raise ValueError
     end
   else
     let cformat_code := format_str in
     let cformat := get_format_by_code ext media cformat_code in
     cf <~ subscript cformat;
     let media := Media.set_downloaded_audio_codec (acodec cf) media in
     if PyStr.truthy_opt (vcodec cf) then
       let media := Media.set_downloaded_format (Some (format cf)) media in
       let media := Media.set_downloaded_height (Some (height cf)) media in
       let media := Media.set_downloaded_width (Some (width cf)) media in
       let media := Media.set_downloaded_video_codec (vcodec cf) media in
       let media := Media.set_downloaded_fps (Some (fps cf)) media in
       Ok (Media.set_downloaded_hdr (is_hdr cf) media)
     else Ok (Media.set_downloaded_format (Some "audio") media))%result.

(** ['Request media server rescan for "{}"'.format(mediaserver)] *)
Definition rescan_verbose_name (mediaserver : string) : string :=
  "Request media server rescan for " +:+ String Json.DQUOTE mediaserver
  +:+ String Json.DQUOTE EmptyString.

(** [rescan_media_server(str(pk), queue=..., priority=0, verbose_name=...,
    remove_existing_tasks=True)]: [background_task] drops the pending tasks
    of the same name and parameters and queues the new one to run now. *)
Definition schedule_rescan (mediaserver : N * string) (queue : string)
  : M unit :=
  let name := "sync.tasks.rescan_media_server" in
  let params := Json.dumps_args (str_uuid (fst mediaserver)) in
  t <- timezone_now ;;
  emit (ScheduleTask name params) ;;
  modify (fun w =>
    with_tasks
      (List.filter
         (fun k => negb (String.eqb (task_name k) name
                         && String.eqb (task_params k) params))
         (db_tasks w)
       ++ [mkTask name params queue 0
             (rescan_verbose_name (snd mediaserver)) t None ""]) w).

(** [published <= max_cap_age] when both are set. *)
Definition capped (max_cap_age published : option Z) : bool :=
  match max_cap_age, published with
  | Some cap, Some p => (p <=? cap)%Z
  | _, _ => false
  end.

Definition download_media (media_id : N) : M unit :=
  w <- get ;;
  match db_media w !! media_id with
  | None => ret tt
  | Some media =>
      if Media.skip media then ret tt
      else if Media.downloaded media && PyStr.truthy (Media.media_file media)
      then ret tt
      else
        source <- media_source media ;;
        if negb (Source.download_media source) then ret tt
        else
          let max_cap_age := Source.download_cap_date source in
          let published := Media.published media in
          if capped max_cap_age published then ret tt
          else
            let filepath := filepath ext source media in
            emit (CallDownloadMedia media_id) ;;
            r <- lift (run_download ext media_id source media) ;;
            let format_str := fst r in
            let container := snd r in
            if path_exists ext filepath then
              let media :=
                Media.set_media_file (media_file_name ext source media) media in
              let media := Media.set_downloaded true media in
              t <- timezone_now ;;
              let media := Media.set_download_date (Some t) media in
              let media :=
                Media.set_downloaded_filesize (Some (getsize ext filepath))
                  media in
              let media :=
                Media.set_downloaded_container (Some container) media in
              media <- lift (set_downloaded_formats format_str container media) ;;
              media_save media_id media ;;
              (if Source.copy_thumbnails source
                  && PyStr.truthy (Media.thumb media)
               then emit (CopyFile (thumb_path ext media)
                            (thumbpath ext source media))
               else ret tt) ;;
              (if Source.write_nfo source
               then emit (WriteTextFile (nfopath ext source media)
                            (nfoxml ext source media))
               else ret tt) ;;
              w' <- get ;;
              for_each (map_to_list (db_mediaservers w'))
                (fun mediaserver =>
                   schedule_rescan mediaserver
                     (str_uuid (Media.source media)))
            else raise DownloadFailedException
  end.

End Tasks.

(** ** Words of the specification *)

(** [is_expired(media, source, now)]: the source of the row deletes old
    media, keeps them a positive number of days, and the row was downloaded
    before [now] minus that many days. *)
Definition is_expired (w : World) (t : Z) (m : Media.t) : Prop :=
  exists s,
    db_sources w !! Media.source m = Some s
    /\ Source.delete_old_media s = true
    /\ (0 < Source.days_to_keep s)%Z
    /\ Media.downloaded m = true
    /\ exists d, Media.download_date m = Some d
                 /\ (d < t - timedelta_days (Source.days_to_keep s))%Z.

(** [is_still_present(media, remote_item_list)]: the key of the row is the
    id of an enumerated item. *)
Definition is_still_present (m : Media.t) (videos : list video) : Prop :=
  exists v, v ∈ videos /\ v !! "id" = Some (Media.key m).

(** A computation that only adds to the trace of effects. *)
Definition extends {A : Type} (m : M A) : Prop :=
  forall w, exists l, effects (snd (m w)) = (effects w ++ l)%list.

(** A computation that never raises [e]. *)
Definition quiet (e : exn) {A : Type} (m : M A) : Prop :=
  forall w, fst (m w) <> Raise e.

(** The conditions under which [download_media] reaches the parsing of the
    format string: the row is there, none of the early returns applies, the
    downloader returned [(format_str, container)] and the file is on disk. *)
Definition download_runs (ext : Externals) (w : World) (media_id : N)
  (media : Media.t) (source : Source.t) (format_str container : string)
  : Prop :=
  db_media w !! media_id = Some media
  /\ Media.skip media = false
  /\ Media.downloaded media && PyStr.truthy (Media.media_file media) = false
  /\ db_sources w !! Media.source media = Some source
  /\ Source.download_media source = true
  /\ capped (Source.download_cap_date source) (Media.published media) = false
  /\ run_download ext media_id source media = Ok (format_str, container)
  /\ path_exists ext (filepath ext source media) = true.

(** ** A small catalog to run the functions on *)

Module Demo.

Local Open Scope Z_scope.

(** 2024-01-01 00:00:00 UTC, in microseconds. *)
Definition jan_2024 : Z := 1704067200000000.

(** 2023-06-01 00:00:00 UTC. *)
Definition jun_2023 : Z := 1685577600000000.

Definition today : Z := 1717200000000000.

Definition f137 : Format :=
  mkFormat "1080P" 1080 1920 (Some "AVC1") None 30 false.

Definition f140 : Format := mkFormat "AUDIO" 0 0 None (Some "M4A") 0 false.

Definition f22 : Format :=
  mkFormat "720P" 720 1280 (Some "AVC1") (Some "M4A") 30 false.

Definition formats (code : string) : option Format :=
  if String.eqb code "137" then Some f137
  else if String.eqb code "140" then Some f140
  else if String.eqb code "22" then Some f22
  else None.

(** Externals with a clock that stands still at [t], an enumeration
    [videos], an upload date [up] and a downloader answering [fmt]. *)
Definition externals (t : Z) (videos : option (list video)) (up : option Z)
  (fmt : string) : Externals :=
  mkExternals (fun _ => t) (fun n => (1000 + N.of_nat n)%N) None
    (fun _ _ => Ok videos) (fun _ _ => Ok "{}") (fun _ => up) (fun d => d)
    (fun _ _ => Some "22") (fun _ code => formats code)
    (fun _ m => "/downloads/" +:+ Media.key m +:+ ".mp4")
    (fun _ m => "video/" +:+ Media.key m +:+ ".mp4")
    (fun _ _ _ => Ok (fmt, "mp4"))
    (fun _ => true) (fun _ => 4096)
    (fun m => Media.thumb m) (fun _ m => "/downloads/" +:+ Media.key m +:+ ".jpg")
    (fun _ m => "/downloads/" +:+ Media.key m +:+ ".nfo") (fun _ _ => "<nfo/>").

Definition source (cap : option Z) (keep : Z) : Source.t :=
  Source.mk "id" true None (0 <? keep) keep true true cap false false.

Definition item (key : string) (downloaded : bool) (file : string)
  (published date : option Z) : Media.t :=
  Media.mk 1%N key false false false downloaded file "" None published date
    None None None None None None None None false.

Definition world (s : Source.t) (rows : list (N * Media.t)) : World :=
  mkWorld {[ 1%N := s ]} (list_to_map rows) ∅ [] [] 0 0 [].

(** A source keeping media seven days, with a row downloaded ten days ago
    and one downloaded three days ago. *)
Definition old_item : Media.t :=
  item "abc" true "video/abc.mp4" None (Some (today - timedelta_days 10)).

Definition fresh_item : Media.t :=
  item "abd" true "video/abd.mp4" None (Some (today - timedelta_days 3)).

Definition retention_world : World :=
  world (source None 7) [(10%N, old_item); (11%N, fresh_item)].

(** A source that tracks removals, with a row that was indexed and never
    downloaded, and two downloaded rows. *)
Definition unfetched_item : Media.t := item "abc" false "" None None.

Definition gone_item : Media.t :=
  item "gone" true "video/gone.mp4" None (Some today).

Definition kept_item : Media.t :=
  item "kept" true "video/kept.mp4" None (Some today).

Definition removal_world : World :=
  world (source None 0)
    [(10%N, unfetched_item); (12%N, gone_item); (13%N, kept_item)].

Definition vid (id : string) : video := {[ "id" := id ]}.

Definition failed_task (params trace : string) : Task :=
  mkTask "sync.tasks.download_media" params "" 0 "" 0 (Some 0) trace.

(** The two ways callers name a row: the [UUID] or its [str]. *)
Inductive pk : Type := PkUUID (u : N) | PkStr (s : string).

Definition str_pk (p : pk) : string :=
  match p with
  | PkUUID u => str_uuid u
  | PkStr s => s
  end.

(** A decoder that knows one document, the number 5. *)
Definition loads_five (s : string) : result json :=
  if String.eqb s "5" then Ok (JInt 5) else Raise ValueError.

End Demo.

(** ** Further words for statements *)

(** A lower-case hexadecimal digit. *)
Definition is_hex_digit (c : ascii) : bool :=
  let n := nat_of_ascii c in
  ((48 <=? n)%nat && (n <=? 57)%nat) || ((97 <=? n)%nat && (n <=? 102)%nat).

Fixpoint all_hex (s : string) : bool :=
  match s with
  | EmptyString => true
  | String c s' => is_hex_digit c && all_hex s'
  end.

(** The value of a hexadecimal digit. *)
Definition unhex (c : ascii) : option Z :=
  let n := Z.of_nat (nat_of_ascii c) in
  if ((48 <=? n) && (n <=? 57))%Z then Some (n - 48)%Z
  else if ((97 <=? n) && (n <=? 102))%Z then Some (n - 87)%Z
  else None.

(** One character read back from the front of an escaped string; a bare
    quote or a broken escape reads as nothing.  This is the inverse that
    shows [Json.escape] to lose nothing. *)
Definition unescape_char (s : string) : option (ascii * string) :=
  match s with
  | EmptyString => None
  | String c r =>
      if Ascii.eqb c "\" then
        match r with
        | EmptyString => None
        | String e r' =>
            if Ascii.eqb e Json.DQUOTE then Some (Json.DQUOTE, r')
            else if Ascii.eqb e "\" then Some ("\"%char, r')
            else if Ascii.eqb e "n" then Some ("010"%char, r')
            else if Ascii.eqb e "r" then Some ("013"%char, r')
            else if Ascii.eqb e "t" then Some ("009"%char, r')
            else if Ascii.eqb e "b" then Some ("008"%char, r')
            else if Ascii.eqb e "f" then Some ("012"%char, r')
            else if Ascii.eqb e "u" then
              match r' with
              | String a (String b (String c0 (String d r''))) =>
                  match unhex a, unhex b, unhex c0, unhex d with
                  | Some x3, Some x2, Some x1, Some x0 =>
                      Some (ascii_of_N
                              (Z.to_N (((x3 * 16 + x2) * 16 + x1) * 16 + x0)%Z),
                            r'')
                  | _, _, _, _ => None
                  end
              | _ => None
              end
            else None
        end
      else if Ascii.eqb c Json.DQUOTE then None
      else Some (c, r)
  end.

(** The decoders of a test bench that know the parameters written for the
    row with key 10: [json.loads] on that one document and [uuid.UUID] on
    that one text. *)
Definition loads_ten (s : string) : result json :=
  if String.eqb s (Json.dumps_args (str_uuid 10)) then
    Ok (JList [JList [JStr (str_uuid 10)]; JDict []])
  else Raise ValueError.

Definition uuid_ten (s : string) : option N :=
  if String.eqb s (str_uuid 10) then Some 10%N else None.

(** A computation whose final world stands in the relation [P] to the one
    it started from, whether it returns or raises. *)
Definition preserves (P : World -> World -> Prop) {A : Type} (m : M A) : Prop :=
  forall w, P w (snd (m w)).

(** Two worlds that agree on a component. *)
Definition agree {X : Type} (f : World -> X) (w w' : World) : Prop :=
  f w' = f w.

(** A world whose media rows are all rows of another, unchanged. *)
Definition media_within (w w' : World) : Prop :=
  forall k m, db_media w' !! k = Some m -> db_media w !! k = Some m.

(** The rows of a source that does not expire its media. *)
Definition not_expiring (w : World) (m : Media.t) : Prop :=
  forall s, db_sources w !! Media.source m = Some s ->
            Source.delete_old_media s = false \/ (Source.days_to_keep s <= 0)%Z.

(** The rows of the media table are told apart by their source and key:
    the pair is unique. *)
Definition unique_keys (w : World) : Prop :=
  forall k1 m1 k2 m2,
    db_media w !! k1 = Some m1 -> db_media w !! k2 = Some m2 ->
    Media.key m1 = Media.key m2 -> Media.source m1 = Media.source m2 ->
    k1 = k2.

(** An enumerated item that the index loop passes over: it has no entry
    under the key field of the source, or an empty one. *)
Definition keyless (source : N * Source.t) (v : video) : Prop :=
  v !! Source.key_field (snd source) = None
  \/ v !! Source.key_field (snd source) = Some "".

(** An enumerated item whose key is that of a row of the source. *)
Definition indexed (w : World) (source : N * Source.t) (v : video) : Prop :=
  exists k m,
    db_media w !! k = Some m
    /\ v !! Source.key_field (snd source) = Some (Media.key m)
    /\ Media.source m = fst source.

(** Whether [download_media_metadata] leaves a row marked [skip], from the
    row and source it read, the upload date the extractor gave and the
    instant [t] of the clock: it was marked already, or there is no upload
    date, or the publish date is before the cap date of the source, or the
    source expires its media and the publish date is unknown or before [t]
    minus the days to keep. *)
Definition metadata_skip (ext : Externals) (t : Z) (source : Source.t)
  (media : Media.t) (upload : option Z) : bool :=
  let published :=
    match upload with
    | Some d => Some (make_aware ext d)
    | None => Media.published media
    end in
  Media.skip media
  || match upload with Some _ => false | None => true end
  || match published, Source.download_cap_date source with
     | Some p, Some cap => (p <? cap)%Z
     | _, _ => false
     end
  || (Source.delete_old_media source && (0 <? Source.days_to_keep source)%Z
      && match published with
         | Some p => (p <? t - timedelta_days (Source.days_to_keep source))%Z
         | None => true
         end).

(** The row [download_media] holds when it comes to the format string: the
    file attached, marked downloaded at [t], with its size and container. *)
Definition staged_download (ext : Externals) (t : Z) (source : Source.t)
  (media : Media.t) (container : string) : Media.t :=
  Media.set_downloaded_container (Some container)
    (Media.set_downloaded_filesize
       (Some (getsize ext (filepath ext source media)))
       (Media.set_download_date (Some t)
          (Media.set_downloaded true
             (Media.set_media_file (media_file_name ext source media) media)))).

(** A pending task that asks for the rescan of the media server [pk]. *)
Definition is_rescan_for (pk : N) (k : Task) : bool :=
  String.eqb (task_name k) "sync.tasks.rescan_media_server"
  && String.eqb (task_params k) (Json.dumps_args (str_uuid pk)).

(** A catalog with a media server and a rescan of it already pending. *)
Definition servers_world : World :=
  mkWorld {[ 1%N := Demo.source None 0 ]} {[ 10%N := Demo.unfetched_item ]}
    {[ 7%N := "plex" ]}
    [mkTask "sync.tasks.rescan_media_server" (Json.dumps_args (str_uuid 7))
       "earlier" 0 "" 0 None ""]
    [] 0 0 [].

(** A lookup of formats that reads the row, as [media.get_format_by_code]
    does: a code names a format when it is one of the words of the metadata
    of the row. *)
Definition listed_format (m : Media.t) (code : string) : option Format :=
  match Media.metadata m with
  | Some text =>
      if existsb (String.eqb code) (PyStr.split " " text)
      then Demo.formats code
      else None
  | None => None
  end.

(** The externals of [Demo.externals] at [Demo.today], with the formats
    looked up in the row. *)
Definition reading_externals (fmt : string) : Externals :=
  mkExternals (fun _ => Demo.today) (fun n => (1000 + N.of_nat n)%N) None
    (fun _ _ => Ok None) (fun _ _ => Ok "{}") (fun _ => None) (fun d => d)
    (fun _ _ => Some "22") listed_format
    (fun _ m => "/downloads/" +:+ Media.key m +:+ ".mp4")
    (fun _ m => "video/" +:+ Media.key m +:+ ".mp4")
    (fun _ _ _ => Ok (fmt, "mp4"))
    (fun _ => true) (fun _ => 4096%Z)
    (fun m => Media.thumb m) (fun _ m => "/downloads/" +:+ Media.key m +:+ ".jpg")
    (fun _ m => "/downloads/" +:+ Media.key m +:+ ".nfo") (fun _ _ => "<nfo/>").

(** A row that was indexed and whose metadata lists the formats 137 and
    140, and not 22. *)
Definition listed_item : Media.t :=
  Media.set_metadata (Some "formats 137 140") Demo.unfetched_item.

(** * Properties *)

(** ** Strings *)

(** [simpl] may unfold the append of strings again. *)
#[local] Arguments String.append !s1 s2 : simpl nomatch.

Module PyStrFacts.

Import PyStr.

Lemma append_nil_r (s : string) : s +:+ "" = s.
Proof. induction s as [|c s IH]; simpl; congruence. Qed.

Lemma append_assoc (a b c : string) : (a +:+ b) +:+ c = a +:+ b +:+ c.
Proof. induction a as [|x a IH]; simpl; congruence. Qed.

Lemma contains_app (c : ascii) (a b : string) :
  contains c (a +:+ b) = contains c a || contains c b.
Proof.
  induction a as [|x a IH]; simpl; [reflexivity|].
  rewrite IH. apply orb_assoc.
Qed.

Lemma rstrip_cons_nonspace (c : ascii) (s : string) :
  isspace c = false -> rstrip (String c s) = String c (rstrip s).
Proof. intros Hc. simpl. rewrite Hc. destruct (rstrip s); reflexivity. Qed.

Lemma rstrip_app_nonspace (a : string) (c : ascii) (s : string) :
  isspace c = false ->
  rstrip (a +:+ String c s) = a +:+ String c (rstrip s).
Proof.
  intros Hc. induction a as [|x a IH].
  - apply rstrip_cons_nonspace, Hc.
  - change (rstrip (String x (a +:+ String c s))
            = String x (a +:+ String c (rstrip s))).
    simpl. rewrite IH. destruct a; reflexivity.
Qed.

Lemma lstrip_app_nonspace (a : string) (c : ascii) (s : string) :
  isspace c = false ->
  lstrip (a +:+ String c s) = lstrip a +:+ String c s.
Proof.
  intros Hc. induction a as [|x a IH]; simpl.
  - rewrite Hc. reflexivity.
  - destruct (isspace x); [exact IH | reflexivity].
Qed.

Lemma lstrip_idem (s : string) : lstrip (lstrip s) = lstrip s.
Proof.
  induction s as [|x s IH]; simpl; [reflexivity|].
  destruct (isspace x) eqn:Hx; [exact IH|]. simpl. rewrite Hx. reflexivity.
Qed.

Lemma rstrip_idem (s : string) : rstrip (rstrip s) = rstrip s.
Proof.
  induction s as [|x s IH]; simpl; [reflexivity|].
  destruct (rstrip s) as [|y r] eqn:Hr.
  - destruct (isspace x) eqn:Hx; simpl; [reflexivity|]. rewrite Hx. reflexivity.
  - change (rstrip (String x (String y r)) = String x (String y r)).
    change (rstrip (String x (String y r)))
      with (match rstrip (String y r) with
            | EmptyString =>
                if isspace x then EmptyString else String x EmptyString
            | q => String x q
            end).
    rewrite IH. reflexivity.
Qed.

Lemma rstrip_blank (s : string) : blank s = true -> rstrip s = "".
Proof.
  induction s as [|x s IH]; simpl; [reflexivity|].
  intros H. apply andb_true_iff in H as [Hx Hs].
  rewrite (IH Hs), Hx. reflexivity.
Qed.

(** White space at the end of the text does not count. *)
Lemma rstrip_app_blank (a b : string) :
  blank b = true -> rstrip (a +:+ b) = rstrip a.
Proof.
  intros Hb. induction a as [|x a IH]; simpl.
  - apply rstrip_blank, Hb.
  - rewrite IH. reflexivity.
Qed.

Lemma strip_app_blank (a b : string) :
  blank b = true -> strip (a +:+ b) = strip a.
Proof. intros Hb. unfold strip. rewrite (rstrip_app_blank _ _ Hb). reflexivity. Qed.

Lemma contains_lstrip (c : ascii) (s : string) :
  contains c s = false -> contains c (lstrip s) = false.
Proof.
  induction s as [|x s IH]; simpl; [reflexivity|].
  intros H. apply orb_false_elim in H as [Hx Hs].
  destruct (isspace x); [auto|]. simpl. rewrite Hx. exact Hs.
Qed.

Lemma contains_rstrip (c : ascii) (s : string) :
  contains c s = false -> contains c (rstrip s) = false.
Proof.
  induction s as [|x s IH]; simpl; [reflexivity|].
  intros H. apply orb_false_elim in H as [Hx Hs]. specialize (IH Hs).
  destruct (rstrip s) as [|y r].
  - destruct (isspace x); simpl; [reflexivity|]. rewrite Hx. reflexivity.
  - simpl. rewrite Hx. exact IH.
Qed.

Lemma contains_strip (c : ascii) (s : string) :
  contains c s = false -> contains c (strip s) = false.
Proof. intros H. apply contains_lstrip, contains_rstrip, H. Qed.

Lemma split_nonempty (c : ascii) (s : string) : split c s <> [].
Proof.
  induction s as [|x s IH]; simpl; [discriminate|].
  destruct (Ascii.eqb x c); [discriminate|].
  destruct (split c s); [contradiction | discriminate].
Qed.

Lemma split_without (c : ascii) (s : string) :
  contains c s = false -> split c s = [s].
Proof.
  induction s as [|x s IH]; simpl; [reflexivity|].
  intros H. apply orb_false_elim in H as [Hx Hs].
  rewrite Hx, (IH Hs). reflexivity.
Qed.

Lemma last_app_last (l : list string) (b : string) :
  l <> [] -> List.last (app_last l b) "" = List.last l "" +:+ b.
Proof.
  induction l as [|h t IH]; [contradiction|]. intros _.
  destruct t as [|g t]; [reflexivity|].
  specialize (IH ltac:(discriminate)).
  destruct t as [|k t]; [reflexivity | exact IH].
Qed.

Lemma split_app_without (c : ascii) (a b : string) :
  contains c b = false -> split c (a +:+ b) = app_last (split c a) b.
Proof.
  intros Hb. induction a as [|x a IH].
  - simpl. rewrite (split_without _ _ Hb). reflexivity.
  - simpl. rewrite IH. pose proof (split_nonempty c a) as Hne.
    destruct (Ascii.eqb x c).
    + destruct (split c a); [contradiction | reflexivity].
    + destruct (split c a) as [|h [|g t]]; [contradiction | reflexivity..].
Qed.

(** The last piece of a split takes along what follows without a
    separator. *)
Lemma last_split_app (c : ascii) (a b : string) :
  contains c b = false ->
  List.last (split c (a +:+ b)) "" = List.last (split c a) "" +:+ b.
Proof.
  intros Hb. rewrite (split_app_without _ _ _ Hb).
  apply last_app_last, split_nonempty.
Qed.

Lemma split_app_sep (c : ascii) (a b : string) :
  split c (a +:+ String c b) = (split c a ++ split c b)%list.
Proof.
  induction a as [|x a IH]; simpl.
  - rewrite Ascii.eqb_refl. reflexivity.
  - rewrite IH. destruct (Ascii.eqb x c); [reflexivity|].
    pose proof (split_nonempty c a) as Hne.
    destruct (split c a); [contradiction | reflexivity].
Qed.

Lemma last_split_sep (c : ascii) (a b : string) :
  contains c b = false -> List.last (split c (a +:+ String c b)) "" = b.
Proof.
  intros Hb. rewrite split_app_sep, (split_without _ _ Hb).
  apply last_last.
Qed.

Lemma splitn_once (c : ascii) (a b : string) :
  contains c a = false -> splitn c (a +:+ String c b) 1 = [a; b].
Proof.
  induction a as [|x a IH]; simpl.
  - intros _. rewrite Ascii.eqb_refl. destruct b; reflexivity.
  - intros H. apply orb_false_elim in H as [Hx Ha].
    rewrite Hx. specialize (IH Ha). simpl in IH. rewrite IH. reflexivity.
Qed.

Lemma py_index_last {A : Type} (l : list A) (d : A) :
  l <> [] -> py_index l (-1) = Ok (List.last l d).
Proof.
  intros Hne. destruct (exists_last Hne) as (l' & a & ->).
  unfold py_index. rewrite length_app, last_last. cbn [length].
  replace (Z.of_nat (length l' + 1)) with (Z.of_nat (length l') + 1)%Z by lia.
  change (-1 <? 0)%Z with true. cbv iota.
  replace (Z.of_nat (length l') + 1 + -1)%Z with (Z.of_nat (length l')) by lia.
  destruct (Z.ltb_spec (Z.of_nat (length l')) 0); [lia|].
  destruct (Z.leb_spec (Z.of_nat (length l') + 1) (Z.of_nat (length l')));
    [lia|].
  simpl. rewrite Nat2Z.id, nth_error_app2 by lia.
  rewrite Nat.sub_diag. reflexivity.
Qed.

Lemma py_index_head {A : Type} (x : A) (l : list A) :
  py_index (x :: l) 0 = Ok x.
Proof.
  unfold py_index. cbn [length]. rewrite Nat2Z.inj_succ.
  change (0 <? 0)%Z with false. cbv iota.
  destruct (Z.leb_spec (Z.succ (Z.of_nat (length l))) 0); [lia|].
  reflexivity.
Qed.

(** A line that is not blank has a first character that is not white
    space. *)
Lemma nonblank_split (s : string) :
  blank s = false ->
  exists a c b, s = a +:+ String c b /\ isspace c = false.
Proof.
  induction s as [|x s IH]; simpl; [discriminate|].
  destruct (isspace x) eqn:Hx.
  - intros Hs. destruct (IH Hs) as (a & c & b & -> & Hc).
    exists (String x a), c, b. split; [reflexivity | exact Hc].
  - intros _. exists "", x, s. split; [reflexivity | exact Hx].
Qed.

(** The last line after the leading white space of the text is gone keeps
    the line, up to its own leading white space. *)
Lemma lstrip_last_line (p a : string) :
  contains LF a = false ->
  lstrip (List.last (split LF (lstrip (p +:+ String LF a))) "") = lstrip a.
Proof.
  intros Ha. induction p as [|x p IH]; simpl.
  - rewrite (split_without _ _ (contains_lstrip _ _ Ha)). simpl.
    apply lstrip_idem.
  - destruct (isspace x); [exact IH|].
    change (String x (p +:+ String LF a)) with (String x p +:+ String LF a).
    rewrite (last_split_sep _ _ _ Ha). reflexivity.
Qed.

(** What [get_error_message] takes for the error message: the last line
    of the stripped trace, stripped. *)
Lemma error_message_of_trace (pre a : string) (c : ascii) (b : string) :
  line_start pre -> isspace c = false ->
  contains LF a = false -> contains LF b = false ->
  strip (List.last (split LF (strip (pre +:+ a +:+ String c b))) "")
  = lstrip a +:+ String c (rstrip b).
Proof.
  intros Hpre Hc Ha Hb.
  assert (Hcl : Ascii.eqb c LF = false).
  { destruct (Ascii.eqb_spec c LF) as [->|]; [discriminate | reflexivity]. }
  unfold strip at 2.
  rewrite <- append_assoc, rstrip_app_nonspace, lstrip_app_nonspace by exact Hc.
  rewrite last_split_app.
  2:{ simpl. rewrite Hcl. apply contains_rstrip, Hb. }
  unfold strip.
  rewrite rstrip_app_nonspace, lstrip_app_nonspace, rstrip_idem by exact Hc.
  f_equal. destruct Hpre as [->|[p ->]].
  - simpl. rewrite (split_without _ _ (contains_lstrip _ _ Ha)). simpl.
    apply lstrip_idem.
  - rewrite append_assoc. simpl. apply lstrip_last_line, Ha.
Qed.

End PyStrFacts.

(** ** [get_error_message] *)

Section ErrorMessageFacts.

Import PyStr PyStrFacts.

Variable has_error : Task -> bool.

Lemma contains_first (c : ascii) (s : string) :
  contains c s = true ->
  exists a b, s = a +:+ String c b /\ contains c a = false.
Proof.
  induction s as [|x s IH]; simpl; [discriminate|].
  destruct (Ascii.eqb_spec x c) as [->|Hx]; simpl.
  - intros _. exists "", s. split; reflexivity.
  - intros Hs. destruct (IH Hs) as (a & b & -> & Ha).
    exists (String x a), b. split; [reflexivity|]. simpl.
    destruct (Ascii.eqb_spec x c); [contradiction | exact Ha].
Qed.

Lemma get_error_message_no_colon (task : Task) :
  contains ":" (error_line task) = false ->
  get_error_message has_error task = Ok "".
Proof.
  intros H. unfold get_error_message.
  destruct (has_error task); [|reflexivity]. cbn [negb].
  pose proof (split_nonempty LF (strip (last_error task))) as Hne.
  destruct (split LF (strip (last_error task))) as [|h t] eqn:E;
    [contradiction|].
  cbn [length Nat.eqb]. rewrite (py_index_last _ "" Hne). cbn [rbind].
  unfold error_line in H. rewrite E in H. rewrite H. reflexivity.
Qed.

Lemma get_error_message_colon (task : Task) (a b : string) :
  has_error task = true ->
  error_line task = a +:+ String ":" b -> contains ":" a = false ->
  get_error_message has_error task = Ok (strip b).
Proof.
  intros Hf HE Ha. unfold get_error_message. rewrite Hf. cbn [negb].
  pose proof (split_nonempty LF (strip (last_error task))) as Hne.
  destruct (split LF (strip (last_error task))) as [|h t] eqn:E;
    [contradiction|].
  cbn [length Nat.eqb]. rewrite (py_index_last _ "" Hne). cbn [rbind].
  unfold error_line in HE. rewrite E in HE. rewrite HE.
  rewrite contains_app. simpl contains. rewrite orb_true_r. cbn [negb].
  rewrite (splitn_once _ _ _ Ha). reflexivity.
Qed.

Lemma get_error_message_total (task : Task) :
  exists s, get_error_message has_error task = Ok s.
Proof.
  destruct (has_error task) eqn:Hf.
  - destruct (contains ":" (error_line task)) eqn:Hc.
    + destruct (contains_first _ _ Hc) as (a & b & HE & Ha).
      exists (strip b). exact (get_error_message_colon _ _ _ Hf HE Ha).
    + exists "". apply get_error_message_no_colon, Hc.
  - exists "". unfold get_error_message. rewrite Hf. reflexivity.
Qed.

End ErrorMessageFacts.

(** C6.  [get_error_message] always returns a string.  It is empty when the
    task has no error, when the trace is empty, when the trace has no colon,
    and when the last line of the trace that is not blank has no colon.  For
    a failed task whose trace ends, up to white space, with a line
    [ty ++ ":" ++ msg], where [ty] holds no colon, the result is [msg]
    without the white space around it: the exception type and the colon are
    gone. *)
Theorem get_error_message_summary (has_error : Task -> bool) (task : Task) :
  (exists s, get_error_message has_error task = Ok s)
  /\ (has_error task = false -> get_error_message has_error task = Ok "")
  /\ (last_error task = "" -> get_error_message has_error task = Ok "")
  /\ (PyStr.contains ":" (last_error task) = false ->
      get_error_message has_error task = Ok "")
  /\ (forall pre line trail,
        last_error task = (pre +:+ line) +:+ trail ->
        PyStr.line_start pre -> PyStr.blank trail = true ->
        PyStr.blank line = false ->
        PyStr.contains LF line = false -> PyStr.contains ":" line = false ->
        get_error_message has_error task = Ok "")
  /\ (forall pre ty msg trail,
        has_error task = true ->
        last_error task = (pre +:+ ty +:+ String ":" msg) +:+ trail ->
        PyStr.line_start pre -> PyStr.blank trail = true ->
        PyStr.contains LF ty = false -> PyStr.contains ":" ty = false ->
        PyStr.contains LF msg = false ->
        get_error_message has_error task = Ok (PyStr.strip msg)).
Proof.
  assert (Hnone : PyStr.contains ":" (last_error task) = false ->
                  get_error_message has_error task = Ok "").
  { intros H. apply get_error_message_no_colon. unfold error_line.
    apply PyStrFacts.contains_strip.
    pose proof (PyStrFacts.contains_strip _ _ H) as Hs.
    generalize dependent (PyStr.strip (last_error task)). clear.
    intros s. induction s as [|x s IH]; simpl; [reflexivity|].
    intros Hs. apply orb_false_elim in Hs as [Hx Hs]. specialize (IH Hs).
    pose proof (PyStrFacts.split_nonempty LF s) as Hne.
    destruct (Ascii.eqb x LF).
    - destruct (PyStr.split LF s); [contradiction | exact IH].
    - destruct (PyStr.split LF s) as [|h [|g t]]; [contradiction|..].
      + simpl in *. rewrite Hx. exact IH.
      + exact IH. }
  split; [apply get_error_message_total|].
  split; [intros H; unfold get_error_message; rewrite H; reflexivity|].
  split; [intros H; apply Hnone; rewrite H; reflexivity|].
  split; [exact Hnone|].
  split.
  - intros pre line trail HT Hpre Htrail Hblank Hlf Hcolon.
    apply get_error_message_no_colon. unfold error_line.
    rewrite HT, (PyStrFacts.strip_app_blank _ _ Htrail).
    destruct (PyStrFacts.nonblank_split _ Hblank) as (a & c & b & -> & Hc).
    rewrite PyStrFacts.contains_app in Hlf, Hcolon.
    apply orb_false_elim in Hlf as [Hlfa Hlfb].
    apply orb_false_elim in Hcolon as [Hca Hcb].
    simpl in Hlfb, Hcb.
    apply orb_false_elim in Hlfb as [_ Hlfb].
    apply orb_false_elim in Hcb as [Hcc Hcb].
    rewrite (PyStrFacts.error_message_of_trace _ _ _ _ Hpre Hc Hlfa Hlfb).
    rewrite PyStrFacts.contains_app. simpl. rewrite Hcc.
    rewrite (PyStrFacts.contains_lstrip _ _ Hca).
    rewrite (PyStrFacts.contains_rstrip _ _ Hcb). reflexivity.
  - intros pre ty msg trail Hf HT Hpre Htrail Hlft Hct Hlfm.
    replace (PyStr.strip msg) with (PyStr.strip (PyStr.rstrip msg))
      by (unfold PyStr.strip; rewrite PyStrFacts.rstrip_idem; reflexivity).
    apply (get_error_message_colon has_error task (PyStr.lstrip ty)); auto.
    + unfold error_line.
      rewrite HT, (PyStrFacts.strip_app_blank _ _ Htrail).
      apply PyStrFacts.error_message_of_trace; auto.
    + apply PyStrFacts.contains_lstrip, Hct.
Qed.

(** The trace of the specification: a failed download with a full disk. *)
Lemma get_error_message_summary_witness :
  get_error_message bg_has_error
    (Demo.failed_task ""
       ("Traceback..." +:+ String LF "DownloadFailedException: disk full"))
  = Ok "disk full".
Proof.
  apply (proj2 (proj2 (proj2 (proj2 (proj2
           (get_error_message_summary bg_has_error
              (Demo.failed_task ""
                 ("Traceback..." +:+
                  String LF "DownloadFailedException: disk full")))))))
           ("Traceback..." +:+ String LF "") "DownloadFailedException"
           " disk full" "").
  - reflexivity.
  - reflexivity.
  - right. exists "Traceback...". reflexivity.
  - reflexivity.
  - reflexivity.
  - reflexivity.
  - reflexivity.
Defined.

(** A trace as [traceback.format_exc] ends it, with a line feed. *)
Example get_error_message_trailing_newline :
  get_error_message bg_has_error
    (Demo.failed_task ""
       ("Traceback (most recent call last):" +:+ String LF
        "  File tasks.py, line 417, in download_media" +:+ String LF
        "common.errors.DownloadFailedException: Failed to download media: x"
        +:+ String LF ""))
  = Ok "Failed to download media: x".
Proof. reflexivity. Qed.

(** ** [get_hash] *)

Example sha1_abc :
  SHA1.hexdigest (encode_utf8 "abc") = "a9993e364706816aba3e25717850c26c9cd0d89d".
Proof. vm_compute. reflexivity. Qed.

Example sha1_empty :
  SHA1.hexdigest [] = "da39a3ee5e6b4b0d3255bfef95601890afd80709".
Proof. vm_compute. reflexivity. Qed.

Example sha1_two_blocks :
  SHA1.hexdigest
    (encode_utf8 "abcdbcdecdefdefgefghfghighijhijkijkljklmklmnlmnomnopnopq")
  = "84983e441c3bd26ebaae4aa1f95129e5e54670f1".
Proof. vm_compute. reflexivity. Qed.

Example dumps_args_uuid :
  Json.dumps_args (str_uuid 5)
  = "[[" +:+ String Json.DQUOTE "00000000-0000-0000-0000-000000000005"
    +:+ String Json.DQUOTE "], {}]".
Proof. vm_compute. reflexivity. Qed.

(** The key and its text give one identifier. *)
Lemma get_hash_of_str {PK : Type} (str : PK -> string) (task_name : string)
  (pk1 pk2 : PK) :
  str pk1 = str pk2 -> get_hash str task_name pk1 = get_hash str task_name pk2.
Proof. intros H. unfold get_hash. rewrite H. reflexivity. Qed.

(** C8.  [get_hash] is a function of its two arguments alone, and of them it
    reads the task name and the serialized arguments only: calls that agree
    on both give the same identifier, which is the SHA-1 digest of the name
    followed by the serialization. *)
Theorem get_hash_deterministic {PK : Type} (str : PK -> string)
  (name1 name2 : string) (pk1 pk2 : PK) :
  name1 = name2 ->
  Json.dumps_args (str pk1) = Json.dumps_args (str pk2) ->
  get_hash str name1 pk1 = get_hash str name2 pk2
  /\ get_hash str name1 pk1
     = SHA1.hexdigest (encode_utf8 (name1 +:+ Json.dumps_args (str pk1))).
Proof.
  intros Hname Hargs. split; [|reflexivity].
  unfold get_hash. rewrite Hname, Hargs. reflexivity.
Qed.

Lemma get_hash_deterministic_witness :
  get_hash Demo.str_pk "sync.tasks.download_media" (Demo.PkUUID 5)
  = get_hash Demo.str_pk "sync.tasks.download_media"
      (Demo.PkStr "00000000-0000-0000-0000-000000000005").
Proof.
  apply (get_hash_deterministic Demo.str_pk "sync.tasks.download_media"
           "sync.tasks.download_media" (Demo.PkUUID 5)
           (Demo.PkStr "00000000-0000-0000-0000-000000000005")).
  - reflexivity.
  - vm_compute. reflexivity.
Defined.

(** ** [map_task_to_instance] *)

Section MapTaskFacts.

Variable json_loads : string -> result json.
Variable uuid_of_str : string -> option N.

(** When an instance comes back, the task name is a known one, the
    parameters decode, the first argument is the text of a key, and the row
    of that key is there. *)
Lemma map_task_to_instance_found (w : World) (task : Task) (i : instance)
  (u : option string) :
  map_task_to_instance json_loads uuid_of_str w task = Ok (Some i, u) ->
  exists model args s pk,
    TASK_MAP (task_name task) = Some model
    /\ u = MODEL_URL_MAP model
    /\ json_loads (task_params task) = Ok args
    /\ uuid_of_str s = Some pk
    /\ objects_get w model pk = Some i.
Proof.
  unfold map_task_to_instance.
  destruct (TASK_MAP (task_name task)) as [model|]; [|discriminate].
  destruct (MODEL_URL_MAP model) as [url|] eqn:Hurl; [|discriminate].
  destruct (negb (PyStr.truthy url)); [discriminate|].
  destruct (json_loads (task_params task)) as [args|e];
    [|destruct (caught e); discriminate].
  destruct (py_len args) as [n|]; [|discriminate]. cbn [rbind].
  destruct (negb (n =? 2)%nat); [discriminate|].
  destruct (unpack2 args) as [p|]; [|discriminate]. cbn [rbind].
  destruct (py_len (fst p)) as [m|]; [|discriminate]. cbn [rbind].
  destruct (m =? 0)%nat; [discriminate|].
  destruct (getitem0 (fst p)) as [v|]; [|discriminate]. cbn [rbind].
  destruct (UUID uuid_of_str v) as [pk|e] eqn:Hpk;
    [|destruct (caught e); discriminate].
  destruct (objects_get w model pk) as [i'|] eqn:Hget; [|discriminate].
  intros [= -> <-]. unfold UUID in Hpk.
  destruct v as [| | | |s| |]; try discriminate.
  destruct (uuid_of_str s) as [pk'|] eqn:Hs; [|discriminate].
  injection Hpk as ->. exists model, args, s, pk. auto.
Qed.

(** On parameters of the shape [background_task] writes, a list of two
    whose first element is a list that starts with a string, the function
    returns. *)
Lemma map_task_to_instance_well_shaped (w : World) (task : Task) (s : string)
  (rest : list json) (kwargs : json) :
  json_loads (task_params task) = Ok (JList [JList (JStr s :: rest); kwargs]) ->
  exists r, map_task_to_instance json_loads uuid_of_str w task = Ok r.
Proof.
  intros Hloads. unfold map_task_to_instance.
  destruct (TASK_MAP (task_name task)) as [model|]; [|eauto].
  destruct (MODEL_URL_MAP model) as [url|]; [|eauto].
  destruct (negb (PyStr.truthy url)); [eauto|].
  rewrite Hloads. cbn [py_len rbind length Nat.eqb negb unpack2 py_iter fst
                       getitem0].
  rewrite PyStrFacts.py_index_head. cbn.
  destruct (uuid_of_str s) as [pk|]; cbn.
  - destruct (objects_get w model pk); eexists; reflexivity.
  - eexists; reflexivity.
Qed.

End MapTaskFacts.

(** C4, where the code leaves it.  For a task of a known kind whose
    parameters are well-formed JSON of another shape, [map_task_to_instance]
    raises: a number has no [len], the same for a number in the place of the
    argument list, and a dictionary there that is not empty has no entry
    [0]. *)
Theorem map_task_to_instance_raises (json_loads : string -> result json)
  (uuid_of_str : string -> option N) (w : World) (task : Task) :
  TASK_MAP (task_name task) <> None ->
  (forall n, json_loads (task_params task) = Ok (JInt n) ->
     map_task_to_instance json_loads uuid_of_str w task = Raise TypeError)
  /\ (forall n kwargs,
        json_loads (task_params task) = Ok (JList [JInt n; kwargs]) ->
        map_task_to_instance json_loads uuid_of_str w task = Raise TypeError)
  /\ (forall entry d kwargs,
        json_loads (task_params task) = Ok (JList [JDict (entry :: d); kwargs]) ->
        map_task_to_instance json_loads uuid_of_str w task = Raise KeyError).
Proof.
  intros Hkind. unfold map_task_to_instance.
  destruct (TASK_MAP (task_name task)) as [model|]; [|contradiction].
  destruct model; cbn; repeat split; intros; rewrite H; reflexivity.
Qed.

Lemma map_task_to_instance_raises_witness :
  map_task_to_instance Demo.loads_five (fun _ => None)
    (Demo.world (Demo.source None 0) []) (Demo.failed_task "5" "")
  = Raise TypeError.
Proof.
  apply (proj1 (map_task_to_instance_raises Demo.loads_five (fun _ => None)
                  (Demo.world (Demo.source None 0) [])
                  (Demo.failed_task "5" "") ltac:(discriminate)) 5%Z).
  reflexivity.
Defined.

(** ** The monad of the task functions *)

Ltac mstep :=
  cbv beta delta [bind ret raise get modify lift emit media_delete media_save
                  source_save timezone_now] iota; cbn [fst snd].

Lemma bind_ok {A B : Type} (m : M A) (k : A -> M B) (w w' : World) (a : A) :
  m w = (Ok a, w') -> bind m k w = k a w'.
Proof. intros H. unfold bind. rewrite H. reflexivity. Qed.

(** A loop whose body keeps an invariant and never raises runs to its end
    and keeps the invariant. *)
Lemma for_each_invariant {A : Type} (I : World -> Prop) (body : A -> M unit)
  (l : list A) :
  (forall x w, x ∈ l -> I w -> exists w', body x w = (Ok tt, w') /\ I w') ->
  forall w, I w -> exists w', for_each l body w = (Ok tt, w') /\ I w'.
Proof.
  induction l as [|x l IH]; intros Hbody w Hw.
  - exists w. split; [reflexivity | exact Hw].
  - destruct (Hbody x w (list_elem_of_here _ _) Hw) as (w1 & H1 & HI1).
    destruct (IH (fun y w0 Hy => Hbody y w0 (list_elem_of_further _ _ _ Hy))
                w1 HI1) as (w2 & H2 & HI2).
    exists w2. split; [|exact HI2].
    cbn [for_each]. rewrite (bind_ok _ _ _ _ _ H1). exact H2.
Qed.

(** ** The sweeps *)

Section SweepFacts.

Variable ext : Externals.

(** The rows of a table that pass a test. *)
Lemma elem_of_filter_table {V : Type} (f : N * V -> bool) (t : gmap N V)
  (x : N * V) :
  x ∈ List.filter f (map_to_list t) <-> t !! fst x = Some (snd x) /\ f x = true.
Proof.
  rewrite list_elem_of_In, filter_In, <- list_elem_of_In.
  destruct x as [k v]. rewrite elem_of_map_to_list. reflexivity.
Qed.

(** Deleting the rows of [l] leaves the rows of the other keys. *)
Lemma delete_rows (l : list (N * Media.t)) (w : World) :
  exists w',
    for_each l (fun media => media_delete (fst media)) w = (Ok tt, w')
    /\ db_sources w' = db_sources w
    /\ (forall k, k ∈ l.*1 -> db_media w' !! k = None)
    /\ (forall k, k ∉ l.*1 -> db_media w' !! k = db_media w !! k).
Proof.
  revert w. induction l as [|[k0 m0] l IH]; intros w.
  - exists w. split; [reflexivity|]. split; [reflexivity|]. split.
    + intros k Hk. inversion Hk.
    + reflexivity.
  - cbn [for_each]. mstep.
    match goal with |- context [for_each l _ ?w1] =>
      destruct (IH w1) as (w' & Hrun & Hsrc & Hin & Hout) end.
    exists w'. split; [exact Hrun|]. split; [exact Hsrc|]. split.
    + intros k Hk. destruct (decide (k ∈ l.*1)) as [Hl|Hl]; [auto|].
      rewrite (Hout k Hl). cbn.
      apply elem_of_cons in Hk as [->|Hk]; [|contradiction].
      apply lookup_delete_eq.
    + intros k Hk. apply not_elem_of_cons in Hk as [Hne Hl].
      rewrite (Hout k Hl). cbn. apply lookup_delete_ne.
      intros ->. apply Hne. reflexivity.
Qed.


(** One round of the retention sweep, for the source [src], with the clock
    at [t]. *)
Lemma old_media_round (t : Z) (src : N * Source.t) (w : World) :
  (forall n, now ext n = t) ->
  exists w',
    (t0 <- timezone_now ext ;;
     let delta := (t0 - timedelta_days (Source.days_to_keep (snd src)))%Z in
     w0 <- get ;;
     for_each (List.filter (expired (fst src) delta) (map_to_list (db_media w0)))
       (fun media => media_delete (fst media)))%task w = (Ok tt, w')
    /\ db_sources w' = db_sources w
    /\ (forall k m,
          db_media w' !! k = Some m <->
          db_media w !! k = Some m
          /\ expired (fst src)
               (t - timedelta_days (Source.days_to_keep (snd src))) (k, m)
             = false).
Proof.
  intros Hclock.
  rewrite (bind_ok (timezone_now ext) _ w _ _ eq_refl).
  rewrite Hclock. cbv zeta.
  rewrite (bind_ok get _ _ _ _ eq_refl).
  set (delta := (t - timedelta_days (Source.days_to_keep (snd src)))%Z).
  set (w1 := with_ticks (S (ticks w)) w).
  destruct (delete_rows
              (List.filter (expired (fst src) delta) (map_to_list (db_media w1)))
              w1) as (w' & Hrun & Hsrc & Hin & Hout).
  exists w'. split; [exact Hrun|]. split; [exact Hsrc|].
  intros k m. split.
  - intros Hk.
    destruct (decide (k ∈ (List.filter (expired (fst src) delta)
                             (map_to_list (db_media w1))).*1)) as [Hd|Hd].
    + rewrite (Hin k Hd) in Hk. discriminate.
    + rewrite (Hout k Hd) in Hk. split; [exact Hk|].
      destruct (expired (fst src) delta (k, m)) eqn:He; [|reflexivity].
      exfalso. apply Hd. apply list_elem_of_fmap. exists (k, m).
      split; [reflexivity|]. apply elem_of_filter_table. auto.
  - intros [Hk He]. rewrite Hout; [exact Hk|].
    intros Hd. apply list_elem_of_fmap in Hd as ([k' m'] & -> & Hx).
    apply elem_of_filter_table in Hx as [Hk' He']. cbn in Hk', He'.
    change (db_media w1) with (db_media w) in Hk'.
    cbn in Hk. rewrite Hk in Hk'. injection Hk' as <-.
    cbn in He. congruence.
Qed.

(** The retention sweep over the sources [ls]. *)
Lemma old_media_rounds (t : Z) (ls : list (N * Source.t)) (w : World) :
  (forall n, now ext n = t) ->
  exists w',
    for_each ls
      (fun source =>
         t0 <- timezone_now ext ;;
         let delta :=
           (t0 - timedelta_days (Source.days_to_keep (snd source)))%Z in
         w0 <- get ;;
         for_each (List.filter (expired (fst source) delta)
                     (map_to_list (db_media w0)))
           (fun media => media_delete (fst media)))%task w = (Ok tt, w')
    /\ db_sources w' = db_sources w
    /\ (forall k m,
          db_media w' !! k = Some m <->
          db_media w !! k = Some m
          /\ forall src, src ∈ ls ->
               expired (fst src)
                 (t - timedelta_days (Source.days_to_keep (snd src))) (k, m)
               = false).
Proof.
  intros Hclock. revert w. induction ls as [|src ls IH]; intros w.
  - exists w. split; [reflexivity|]. split; [reflexivity|].
    intros k m. split; [|tauto]. intros H. split; [exact H|].
    intros src Hsrc. inversion Hsrc.
  - destruct (old_media_round t src w Hclock) as (w1 & Hrun1 & Hsrc1 & Hm1).
    destruct (IH w1) as (w2 & Hrun2 & Hsrc2 & Hm2).
    exists w2. split.
    { cbn [for_each]. rewrite (bind_ok _ _ _ _ _ Hrun1). exact Hrun2. }
    split; [congruence|].
    intros k m. rewrite Hm2, Hm1. split.
    + intros [[Hk He] Hls]. split; [exact Hk|].
      intros s Hs. apply elem_of_cons in Hs as [->|Hs]; auto.
    + intros [Hk Hls]. split; [split|].
      * exact Hk.
      * apply Hls. left.
      * intros s Hs. apply Hls. right. exact Hs.
Qed.

(** A row is expired exactly when one of the sources the sweep visits
    selects it. *)
Lemma is_expired_iff (w : World) (t : Z) (k : N) (m : Media.t) :
  is_expired w t m <->
  exists src,
    src ∈ List.filter expiring (map_to_list (db_sources w))
    /\ expired (fst src) (t - timedelta_days (Source.days_to_keep (snd src)))
         (k, m) = true.
Proof.
  unfold is_expired, expired, expiring, date_lt. cbn [fst snd]. split.
  - intros (s & Hs & Hdel & Hdays & Hdl & d & Hd & Hlt).
    exists (Media.source m, s). split.
    + apply elem_of_filter_table. cbn [fst snd]. split; [exact Hs|].
      rewrite Hdel. apply Z.ltb_lt in Hdays. rewrite Hdays. reflexivity.
    + cbn [fst snd]. rewrite N.eqb_refl, Hdl, Hd.
      apply Z.ltb_lt in Hlt. rewrite Hlt. reflexivity.
  - intros ([pk s] & Hin & He). cbn [fst snd] in He.
    apply elem_of_filter_table in Hin as [Hs Hexp]. cbn [fst snd] in Hs, Hexp.
    apply andb_true_iff in Hexp as [Hdel Hdays].
    apply andb_true_iff in He as [He Hlt].
    apply andb_true_iff in He as [Hpk Hdl].
    apply N.eqb_eq in Hpk. subst pk.
    destruct (Media.download_date m) as [d|] eqn:Hd; [|discriminate].
    exists s. repeat split; auto.
    + apply Z.ltb_lt, Hdays.
    + exists d. split; [reflexivity|]. apply Z.ltb_lt, Hlt.
Qed.

End SweepFacts.

(** C7.  With the clock at [t] throughout, the retention sweep succeeds,
    leaves the sources alone, and keeps exactly the media rows that are not
    expired: a row goes when its source deletes old media with a positive
    number of days to keep, and the row is downloaded with a download date
    before [t] minus those days.  With seven days to keep, a row downloaded
    ten days ago goes and one downloaded three days ago stays; rows of
    sources without expiry stay. *)
Theorem cleanup_old_media_purges (ext : Externals) (w : World) (t : Z) :
  (forall n, now ext n = t) ->
  exists w',
    cleanup_old_media ext w = (Ok tt, w')
    /\ db_sources w' = db_sources w
    /\ (forall k m,
          db_media w' !! k = Some m <->
          db_media w !! k = Some m /\ ~ is_expired w t m)
    /\ (forall k m s,
          db_media w !! k = Some m ->
          db_sources w !! Media.source m = Some s ->
          Source.delete_old_media s = true -> Source.days_to_keep s = 7%Z ->
          Media.downloaded m = true ->
          (Media.download_date m = Some (t - timedelta_days 10)%Z ->
           db_media w' !! k = None)
          /\ (Media.download_date m = Some (t - timedelta_days 3)%Z ->
              db_media w' !! k = Some m))
    /\ (forall k m s,
          db_media w !! k = Some m ->
          db_sources w !! Media.source m = Some s ->
          Source.delete_old_media s = false \/ (Source.days_to_keep s <= 0)%Z ->
          db_media w' !! k = Some m).
Proof.
  intros Hclock. unfold cleanup_old_media.
  rewrite (bind_ok get _ w _ _ eq_refl).
  destruct (old_media_rounds ext t
              (List.filter expiring (map_to_list (db_sources w))) w Hclock)
    as (w' & Hrun & Hsrc & Hm).
  assert (Hiff : forall k m,
             db_media w' !! k = Some m <->
             db_media w !! k = Some m /\ ~ is_expired w t m).
  { intros k m. rewrite Hm, (is_expired_iff w t k m). split.
    - intros [Hk Hall]. split; [exact Hk|]. intros (src & Hin & He).
      rewrite (Hall src Hin) in He. discriminate.
    - intros [Hk Hno]. split; [exact Hk|]. intros src Hin.
      destruct (expired _ _ _) eqn:He; [|reflexivity].
      exfalso. apply Hno. exists src. auto. }
  exists w'. split; [exact Hrun|]. split; [exact Hsrc|]. split; [exact Hiff|].
  split.
  - intros k m s Hk Hs Hdel Hdays Hdl. split; intros Hd.
    + destruct (db_media w' !! k) as [m'|] eqn:Hk'; [|reflexivity].
      apply Hiff in Hk' as [Hk' Hno]. rewrite Hk in Hk'. injection Hk' as <-.
      exfalso. apply Hno. exists s. rewrite Hdays.
      split; [exact Hs|]. split; [exact Hdel|]. split; [lia|].
      split; [exact Hdl|].
      exists (t - timedelta_days 10)%Z. split; [exact Hd|].
      unfold timedelta_days. lia.
    + apply Hiff. split; [exact Hk|].
      intros (s' & Hs' & _ & _ & _ & d & Hd' & Hlt).
      rewrite Hs in Hs'. injection Hs' as <-. rewrite Hd in Hd'.
      injection Hd' as <-. rewrite Hdays in Hlt. unfold timedelta_days in Hlt.
      lia.
  - intros k m s Hk Hs Hoff. apply Hiff. split; [exact Hk|].
    intros (s' & Hs' & Hdel & Hdays & _). rewrite Hs in Hs'.
    injection Hs' as <-. destruct Hoff as [Hoff|Hoff]; [congruence | lia].
Qed.

Lemma cleanup_old_media_purges_witness :
  exists w',
    cleanup_old_media (Demo.externals Demo.today None None "22")
      Demo.retention_world = (Ok tt, w')
    /\ db_media w' !! 10%N = None
    /\ db_media w' !! 11%N = Some Demo.fresh_item.
Proof.
  destruct (cleanup_old_media_purges
              (Demo.externals Demo.today None None "22")
              Demo.retention_world Demo.today (fun n => eq_refl))
    as (w' & Hrun & _ & _ & Hscene & _).
  exists w'. split; [exact Hrun|]. split.
  - apply (Hscene 10%N Demo.old_item (Demo.source None 7)); reflexivity.
  - apply (Hscene 11%N Demo.fresh_item (Demo.source None 7)); reflexivity.
Defined.

Section RemovedFacts.

(** The comprehension of [cleanup_removed_media] finds nothing exactly when
    the key is the id of no item; it needs every item to have an id. *)
Lemma matching_source_item_spec (videos : list video) (key : string) :
  (forall v, v ∈ videos -> is_Some (v !! "id")) ->
  exists l,
    matching_source_item videos key = Ok l
    /\ (l = [] <-> ~ exists v, v ∈ videos /\ v !! "id" = Some key).
Proof.
  induction videos as [|v videos IH]; intros Hids.
  - exists []. split; [reflexivity|]. split; [|reflexivity].
    intros _ (v & Hv & _). inversion Hv.
  - destruct (Hids v (list_elem_of_here _ _)) as [i Hi].
    destruct IH as (l & Hl & Hiff).
    { intros v' Hv'. apply Hids. right. exact Hv'. }
    cbn [matching_source_item]. rewrite Hi, Hl. cbn [rbind].
    destruct (String.eqb_spec i key) as [->|Hne].
    + exists (key :: l). split; [reflexivity|]. split; [discriminate|].
      intros Hno. exfalso. apply Hno. exists v. split; [left | exact Hi].
    + exists l. split; [reflexivity|]. rewrite Hiff. split.
      * intros Hno (v' & Hv' & Hid). apply elem_of_cons in Hv' as [->|Hv'].
        -- rewrite Hi in Hid. congruence.
        -- apply Hno. exists v'. auto.
      * intros Hno (v' & Hv' & Hid). apply Hno. exists v'.
        split; [right; exact Hv' | exact Hid].
Qed.

(** One round of the cleanup: the row stays when its key is enumerated and
    goes when it is not. *)
Lemma removed_round (videos : list video) (item : N * Media.t) (w : World) :
  (forall v, v ∈ videos -> is_Some (v !! "id")) ->
  exists w',
    (matching <- lift (matching_source_item videos (Media.key (snd item))) ;;
     match matching with
     | [] => media_delete (fst item)
     | _ :: _ => ret tt
     end)%task w = (Ok tt, w')
    /\ db_sources w' = db_sources w
    /\ ((is_still_present (snd item) videos /\ w' = w)
        \/ (~ is_still_present (snd item) videos
            /\ db_media w' = delete (fst item) (db_media w)
            /\ effects w' = effects w ++ [DeleteMedia (fst item)])).
Proof.
  intros Hids.
  destruct (matching_source_item_spec videos (Media.key (snd item)) Hids)
    as (found & Hfound & Hiff).
  unfold bind at 1, lift. rewrite Hfound. destruct found as [|i found].
  - eexists. split; [reflexivity|]. split; [reflexivity|]. right.
    split; [|split; reflexivity]. apply Hiff. reflexivity.
  - exists w. split; [reflexivity|]. split; [reflexivity|]. left.
    split; [|reflexivity].
    clear Hiff. revert i found Hfound. clear.
    induction videos as [|v videos IH]; intros i found H; [discriminate|].
    cbn [matching_source_item] in H.
    destruct (v !! "id") as [j|] eqn:Hj; [|discriminate].
    destruct (matching_source_item videos (Media.key (snd item)))
      as [rest|] eqn:Hrest; [|discriminate].
    cbn [rbind] in H. destruct (String.eqb_spec j (Media.key (snd item))) as [->|Hne].
    + exists v. split; [left | exact Hj].
    + injection H as ->. destruct (IH i found eq_refl) as (v' & Hv' & Hid).
      exists v'. split; [right; exact Hv' | exact Hid].
Qed.

(** The cleanup over the rows [l]. *)
Lemma removed_rows (videos : list video) (l : list (N * Media.t)) (w : World) :
  (forall v, v ∈ videos -> is_Some (v !! "id")) ->
  exists w',
    for_each l
      (fun item =>
         matching <- lift (matching_source_item videos (Media.key (snd item))) ;;
         match matching with
         | [] => media_delete (fst item)
         | _ :: _ => ret tt
         end)%task w = (Ok tt, w')
    /\ db_sources w' = db_sources w
    /\ (forall k m, (k, m) ∈ l -> ~ is_still_present m videos ->
          db_media w' !! k = None)
    /\ (forall k, (forall m, (k, m) ∈ l -> is_still_present m videos) ->
          db_media w' !! k = db_media w !! k)
    /\ (forall k, db_media w' !! k = None
                  \/ db_media w' !! k = db_media w !! k).
Proof.
  intros Hids. revert w. induction l as [|[k0 m0] l IH]; intros w.
  - exists w. split; [reflexivity|]. split; [reflexivity|]. split.
    + intros k m Hk. inversion Hk.
    + split; [reflexivity|]. right. reflexivity.
  - destruct (removed_round videos (k0, m0) w Hids)
      as (w1 & Hrun1 & Hsrc1 & Hcase).
    destruct (IH w1) as (w' & Hrun & Hsrc & Hin & Hout & Hmono).
    exists w'. split.
    { cbn [for_each]. rewrite (bind_ok _ _ _ _ _ Hrun1). exact Hrun. }
    split; [congruence|].
    cbn [fst snd] in Hcase.
    assert (Hstep : forall k,
               db_media w1 !! k = db_media w !! k
               \/ (k = k0 /\ ~ is_still_present m0 videos
                   /\ db_media w1 !! k = None)).
    { intros k. destruct Hcase as [[_ ->]|(Hno & Hdel & _)];
        [left; reflexivity|].
      rewrite Hdel. destruct (decide (k = k0)) as [->|Hne].
      - right. split; [reflexivity|]. split; [exact Hno|].
        apply lookup_delete_eq.
      - left. apply lookup_delete_ne. congruence. }
    split; [|split].
    + intros k m Hk Hno. apply elem_of_cons in Hk as [[= -> ->]|Hk].
      * destruct (Hmono k0) as [H|H]; [exact H|]. rewrite H.
        destruct (Hstep k0) as [_|(_ & _ & H0)]; [|exact H0].
        destruct Hcase as [[Hyes _]|(_ & Hdel & _)]; [contradiction|].
        rewrite Hdel. apply lookup_delete_eq.
      * exact (Hin k m Hk Hno).
    + intros k Hall. rewrite Hout.
      * destruct (Hstep k) as [H|(-> & Hno & _)]; [exact H|].
        exfalso. apply Hno, (Hall m0). left.
      * intros m Hm. apply Hall. right. exact Hm.
    + intros k. destruct (Hmono k) as [H|H]; [left; exact H|]. rewrite H.
      destruct (Hstep k) as [H1|(_ & _ & H1)]; [right | left]; exact H1.
Qed.

(** The trace of the cleanup over the rows [l]: a call of [delete] for each
    row whose key is not enumerated, and nothing else. *)
Lemma removed_rows_trace (videos : list video) (l : list (N * Media.t)) :
  (forall v, v ∈ videos -> is_Some (v !! "id")) ->
  forall w w',
    for_each l
      (fun item =>
         matching <- lift (matching_source_item videos (Media.key (snd item))) ;;
         match matching with
         | [] => media_delete (fst item)
         | _ :: _ => ret tt
         end)%task w = (Ok tt, w') ->
    exists ks,
      effects w' = effects w ++ map DeleteMedia ks
      /\ (forall k, k ∈ ks <->
             exists m, (k, m) ∈ l /\ ~ is_still_present m videos).
Proof.
  intros Hids. induction l as [|[k0 m0] l IH]; intros w w' Hrun.
  - injection Hrun as <-. exists []. split; [symmetry; apply app_nil_r|].
    intros k. split; [intros Hk; inversion Hk|].
    intros (m & Hm & _). inversion Hm.
  - destruct (removed_round videos (k0, m0) w Hids)
      as (w1 & Hrun1 & _ & Hcase).
    cbn [for_each] in Hrun. rewrite (bind_ok _ _ _ _ _ Hrun1) in Hrun.
    destruct (IH w1 w' Hrun) as (ks & Htrace & Hks).
    cbn [fst snd] in Hcase. destruct Hcase as [[Hyes ->]|(Hno & _ & Hone)].
    + exists ks. split; [exact Htrace|]. intros k. rewrite Hks. split.
      * intros (m & Hm & Hgone). exists m. split; [right; exact Hm|exact Hgone].
      * intros (m & Hm & Hgone). exists m. split; [|exact Hgone].
        apply elem_of_cons in Hm as [[= -> ->]|Hm]; [contradiction|exact Hm].
    + exists (k0 :: ks). split.
      { rewrite Htrace, Hone, <- app_assoc. reflexivity. }
      intros k. rewrite elem_of_cons, Hks. split.
      * intros [->|(m & Hm & Hgone)].
        -- exists m0. split; [left|exact Hno].
        -- exists m. split; [right; exact Hm|exact Hgone].
      * intros (m & Hm & Hgone).
        apply elem_of_cons in Hm as [[= -> ->]|Hm]; [left; reflexivity|].
        right. exists m. split; assumption.
Qed.

End RemovedFacts.

(** C9, as the code has it.  When every enumerated item has an id, the
    cleanup of removed media succeeds, leaves the sources alone, and keeps
    exactly the media rows that are not downloaded rows of [source] whose
    key is missing from the enumeration: such a row is deleted, and a row
    whose key is enumerated, a row that is not downloaded and a row of another
    source are kept.  Each deleted row goes by a call of its [delete], the
    call that takes the files with it, and the trace of the cleanup holds
    nothing else. *)
Theorem cleanup_removed_media_purges (source : N * Source.t)
  (videos : list video) (w : World) :
  (forall v, v ∈ videos -> is_Some (v !! "id")) ->
  exists w',
    cleanup_removed_media source videos w = (Ok tt, w')
    /\ db_sources w' = db_sources w
    /\ (forall k m,
          db_media w' !! k = Some m <->
          db_media w !! k = Some m
          /\ ~ (Media.source m = fst source /\ Media.downloaded m = true
                /\ ~ is_still_present m videos))
    /\ (exists ks,
          effects w' = effects w ++ map DeleteMedia ks
          /\ (forall k,
                k ∈ ks <->
                exists m,
                  db_media w !! k = Some m
                  /\ Media.source m = fst source /\ Media.downloaded m = true
                  /\ ~ is_still_present m videos)).
Proof.
  intros Hids. unfold cleanup_removed_media.
  rewrite (bind_ok get _ w _ _ eq_refl). cbv zeta.
  destruct (removed_rows videos
              (List.filter (downloaded_of (fst source))
                 (map_to_list (db_media w))) w Hids)
    as (w' & Hrun & Hsrc & Hin & Hout & Hmono).
  exists w'. split; [exact Hrun|]. split; [exact Hsrc|].
  assert (Hl : forall k m,
             (k, m) ∈ List.filter (downloaded_of (fst source))
                        (map_to_list (db_media w)) <->
             db_media w !! k = Some m
             /\ Media.source m = fst source /\ Media.downloaded m = true).
  { intros k m. rewrite elem_of_filter_table. unfold downloaded_of.
    cbn [fst snd]. rewrite andb_true_iff, N.eqb_eq. tauto. }
  split.
  - intros k m. split.
    + intros Hk. assert (Hk0 : db_media w !! k = Some m).
      { destruct (Hmono k) as [H|H]; congruence. }
      split; [exact Hk0|]. intros (Hs & Hd & Hno).
      rewrite (Hin k m) in Hk; [discriminate | | exact Hno].
      apply Hl. auto.
    + intros [Hk Hkeep]. rewrite Hout; [exact Hk|].
      intros m' Hm'. apply Hl in Hm' as (Hk' & Hs & Hd).
      rewrite Hk in Hk'. injection Hk' as <-.
      destruct (removed_round videos (k, m) w Hids) as (w0 & _ & _ & Hcase).
      destruct Hcase as [[Hyes _]|[Hno _]]; [exact Hyes|].
      exfalso. apply Hkeep. auto.
  - destruct (removed_rows_trace videos _ Hids w w' Hrun)
      as (ks & Htrace & Hks).
    exists ks. split; [exact Htrace|]. intros k. rewrite Hks. split.
    + intros (m & Hm & Hgone). exists m. apply Hl in Hm. tauto.
    + intros (m & Hm & Hs & Hd & Hgone). exists m. split; [|exact Hgone].
      apply Hl. auto.
Qed.

Lemma cleanup_removed_media_purges_witness :
  exists w',
    cleanup_removed_media (1%N, Demo.source None 0) [Demo.vid "kept"]
      Demo.removal_world = (Ok tt, w')
    /\ db_media w' !! 12%N = None
    /\ db_media w' !! 13%N = Some Demo.kept_item
    /\ db_media w' !! 10%N = Some Demo.unfetched_item
    /\ DeleteMedia 12%N ∈ effects w'.
Proof.
  destruct (cleanup_removed_media_purges (1%N, Demo.source None 0)
              [Demo.vid "kept"] Demo.removal_world)
    as (w' & Hrun & _ & Hiff & ks & Htrace & Hks).
  { intros v Hv. apply list_elem_of_singleton in Hv as ->.
    exists "kept". reflexivity. }
  assert (Hgone : ~ is_still_present Demo.gone_item [Demo.vid "kept"]).
  { intros (v & Hv & Hid). apply list_elem_of_singleton in Hv as ->.
    discriminate Hid. }
  exists w'. split; [exact Hrun|]. split; [|split; [|split]].
  - destruct (db_media w' !! 12%N) as [m|] eqn:Hm; [|reflexivity].
    apply Hiff in Hm as [Hm Hkeep]. exfalso. apply Hkeep.
    injection Hm as <-. split; [reflexivity|]. split; [reflexivity|].
    exact Hgone.
  - apply Hiff. split; [reflexivity|]. intros (_ & _ & Hno). apply Hno.
    exists (Demo.vid "kept"). split; [left | reflexivity].
  - apply Hiff. split; [reflexivity|]. intros (_ & Hd & _). discriminate Hd.
  - rewrite Htrace. apply elem_of_app. right. apply list_elem_of_fmap.
    exists 12%N. split; [reflexivity|]. apply Hks. exists Demo.gone_item.
    split; [reflexivity|]. split; [reflexivity|]. split; [reflexivity|].
    exact Hgone.
Defined.

(** An indexed row that was never downloaded stays, though its source
    tracks removals and its key is gone from the enumeration. *)
Lemma cleanup_removed_media_keeps_unfetched :
  ~ (forall (source : N * Source.t) (videos : list video) (w : World)
       (k : N) (m : Media.t),
       Source.delete_removed_media (snd source) = true ->
       (forall v, v ∈ videos -> is_Some (v !! "id")) ->
       db_media w !! k = Some m -> Media.source m = fst source ->
       ~ is_still_present m videos ->
       db_media (snd (cleanup_removed_media source videos w)) !! k = None).
Proof.
  intros Hclaim.
  specialize (Hclaim (1%N, Demo.source None 0) [Demo.vid "kept"]
                Demo.removal_world 10%N Demo.unfetched_item).
  assert (Hgone : db_media
                    (snd (cleanup_removed_media (1%N, Demo.source None 0)
                            [Demo.vid "kept"] Demo.removal_world)) !! 10%N
                  = Some Demo.unfetched_item) by (vm_compute; reflexivity).
  rewrite Hclaim in Hgone; [discriminate|reflexivity| |reflexivity|reflexivity|].
  - intros v Hv. apply list_elem_of_singleton in Hv as ->.
    exists "kept". reflexivity.
  - intros (v & Hv & Hid). apply list_elem_of_singleton in Hv as ->.
    discriminate Hid.
Qed.

(** ** What every task function does to the trace, and what it raises *)

Create HintDb tasks.

Section Tame.

Context {A B : Type}.

Lemma extends_ret (a : A) : extends (ret a).
Proof. intros w. exists []. symmetry. apply app_nil_r. Qed.

Lemma extends_raise (e : exn) : extends (@raise A e).
Proof. intros w. exists []. symmetry. apply app_nil_r. Qed.

Lemma extends_lift (r : result A) : extends (lift r).
Proof. intros w. exists []. symmetry. apply app_nil_r. Qed.

Lemma extends_bind (m : M A) (k : A -> M B) :
  extends m -> (forall a, extends (k a)) -> extends (bind m k).
Proof.
  intros Hm Hk w. unfold bind. destruct (Hm w) as [l Hl].
  destruct (m w) as [[a|e] w1]; cbn [snd] in *.
  - destruct (Hk a w1) as [l' Hl']. exists (l ++ l').
    rewrite Hl', Hl. symmetry. apply app_assoc.
  - exists l. exact Hl.
Qed.

Lemma quiet_ret (e : exn) (a : A) : quiet e (ret a).
Proof. intros w. discriminate. Qed.

Lemma quiet_raise (e e' : exn) : e' <> e -> quiet e (@raise A e').
Proof. intros Hne w. cbn. congruence. Qed.

Lemma quiet_lift (e : exn) (r : result A) : r <> Raise e -> quiet e (lift r).
Proof. intros Hne w. exact Hne. Qed.

Lemma quiet_bind (e : exn) (m : M A) (k : A -> M B) :
  quiet e m -> (forall a, quiet e (k a)) -> quiet e (bind m k).
Proof.
  intros Hm Hk w. unfold bind. specialize (Hm w).
  destruct (m w) as [[a|e'] w1]; [apply Hk|].
  cbn in *. intros [= ->]. apply Hm. reflexivity.
Qed.

End Tame.

Lemma extends_for_each {A : Type} (l : list A) (body : A -> M unit) :
  (forall x, extends (body x)) -> extends (for_each l body).
Proof.
  intros Hbody. induction l as [|x l IH]; cbn [for_each].
  - apply extends_ret.
  - apply extends_bind; [apply Hbody | intros _; exact IH].
Qed.

Lemma quiet_for_each {A : Type} (e : exn) (l : list A) (body : A -> M unit) :
  (forall x, quiet e (body x)) -> quiet e (for_each l body).
Proof.
  intros Hbody. induction l as [|x l IH]; cbn [for_each].
  - apply quiet_ret.
  - apply quiet_bind; [apply Hbody | intros _; exact IH].
Qed.

Lemma extends_get : extends get.
Proof. intros w. exists []. symmetry. apply app_nil_r. Qed.

Lemma extends_emit (e : effect) : extends (emit e).
Proof. intros w. exists [e]. reflexivity. Qed.

Lemma extends_modify (g : World -> World) :
  (forall w, effects (g w) = effects w) -> extends (modify g).
Proof. intros Hg w. exists []. cbn. rewrite Hg. symmetry. apply app_nil_r. Qed.

Lemma quiet_get (e : exn) : quiet e get.
Proof. intros w. discriminate. Qed.

Lemma quiet_emit (e : exn) (x : effect) : quiet e (emit x).
Proof. intros w. discriminate. Qed.

Lemma quiet_modify (e : exn) (g : World -> World) : quiet e (modify g).
Proof. intros w. discriminate. Qed.

#[local] Hint Resolve extends_ret extends_raise extends_lift extends_get
  extends_emit quiet_ret quiet_get quiet_emit quiet_modify : tasks.

(** Take a computation apart along its binds, loops and branches. *)
Ltac tame :=
  repeat
    match goal with
    | |- extends (bind _ _) => apply extends_bind; [|intros ?]
    | |- quiet _ (bind _ _) => apply quiet_bind; [|intros ?]
    | |- extends (for_each _ _) => apply extends_for_each; intros ?
    | |- quiet _ (for_each _ _) => apply quiet_for_each; intros ?
    | |- extends (modify _) => apply extends_modify; intros ?; reflexivity
    | |- quiet _ (raise _) => apply quiet_raise; discriminate
    | |- extends (if ?b then _ else _) => destruct b
    | |- quiet _ (if ?b then _ else _) => destruct b
    | |- extends (match ?x with _ => _ end) => destruct x
    | |- quiet _ (match ?x with _ => _ end) => destruct x
    | |- extends _ => solve [auto with tasks]
    | |- quiet _ _ => solve [auto with tasks]
    end.

Section TaskTraces.

Variable ext : Externals.

Lemma extends_timezone_now : extends (timezone_now ext).
Proof. intros w. exists []. symmetry. apply app_nil_r. Qed.

Lemma quiet_timezone_now (e : exn) : quiet e (timezone_now ext).
Proof. intros w. discriminate. Qed.

Hint Resolve extends_timezone_now quiet_timezone_now : tasks.

Lemma extends_source_save (pk : N) (row : Source.t) :
  extends (source_save pk row).
Proof. unfold source_save. tame. Qed.

Lemma quiet_source_save (e : exn) (pk : N) (row : Source.t) :
  quiet e (source_save pk row).
Proof. unfold source_save. tame. Qed.

Lemma extends_media_save (pk : N) (row : Media.t) : extends (media_save pk row).
Proof. unfold media_save. tame. Qed.

Lemma quiet_media_save (e : exn) (pk : N) (row : Media.t) :
  quiet e (media_save pk row).
Proof. unfold media_save. tame. Qed.

Lemma extends_media_delete (pk : N) : extends (media_delete pk).
Proof. unfold media_delete. tame. Qed.

Lemma quiet_media_delete (e : exn) (pk : N) : quiet e (media_delete pk).
Proof. unfold media_delete. tame. Qed.

Hint Resolve extends_source_save quiet_source_save extends_media_save
  quiet_media_save extends_media_delete quiet_media_delete : tasks.

Lemma extends_cleanup_completed_tasks : extends (cleanup_completed_tasks ext).
Proof. unfold cleanup_completed_tasks. cbv zeta. tame. Qed.

Lemma quiet_cleanup_completed_tasks (e : exn) :
  quiet e (cleanup_completed_tasks ext).
Proof. unfold cleanup_completed_tasks. cbv zeta. tame. Qed.

Lemma extends_cleanup_old_media : extends (cleanup_old_media ext).
Proof. unfold cleanup_old_media. tame. Qed.

Lemma quiet_cleanup_old_media (e : exn) : quiet e (cleanup_old_media ext).
Proof. unfold cleanup_old_media. tame. Qed.

Lemma extends_cleanup_removed_media (source : N * Source.t)
  (videos : list video) : extends (cleanup_removed_media source videos).
Proof. unfold cleanup_removed_media. cbv zeta. tame. Qed.

(** The comprehension raises [KeyError] and nothing else. *)
Lemma matching_source_item_raises (videos : list video) (key : string)
  (e : exn) :
  matching_source_item videos key = Raise e -> e = KeyError.
Proof.
  induction videos as [|v videos IH]; cbn [matching_source_item];
    [discriminate|].
  destruct (v !! "id"); [|congruence].
  destruct (matching_source_item videos key); [discriminate|].
  cbn [rbind]. intros [= <-]. apply IH. reflexivity.
Qed.

Lemma quiet_cleanup_removed_media (source : N * Source.t)
  (videos : list video) :
  quiet NoMediaException (cleanup_removed_media source videos).
Proof.
  unfold cleanup_removed_media. cbv zeta. tame.
  apply quiet_lift. intros H. apply matching_source_item_raises in H.
  discriminate.
Qed.

Lemma extends_index_video (source : N * Source.t) (v : video) :
  extends (index_video ext source v).
Proof. unfold index_video. cbv zeta. tame. Qed.

Lemma quiet_index_video (source : N * Source.t) (v : video) :
  quiet NoMediaException (index_video ext source v).
Proof.
  unfold index_video. cbv zeta. tame.
  apply quiet_lift. unfold media_get.
  destruct (List.filter _ _) as [|? [|? ?]]; discriminate.
Qed.

End TaskTraces.

(** ** [index_source_task] *)

Section IndexFacts.

Variable ext : Externals.

Hint Resolve extends_timezone_now quiet_timezone_now extends_source_save
  quiet_source_save extends_media_save quiet_media_save extends_media_delete
  quiet_media_delete extends_cleanup_completed_tasks
  quiet_cleanup_completed_tasks extends_cleanup_old_media
  quiet_cleanup_old_media extends_cleanup_removed_media
  quiet_cleanup_removed_media extends_index_video quiet_index_video : tasks.

(** The world when the enumeration of the source has been asked for: the
    source saved with [has_failed] reset, and nothing else. *)
Lemma index_source_task_start (w : World) (source_id : N) (row : Source.t) :
  db_sources w !! source_id = Some row ->
  exists k,
    index_source_task ext source_id w
    = bind (lift (index_media ext source_id (Source.set_has_failed false row)))
        k
        (with_effects
           (effects w
            ++ [SaveSource source_id (Source.set_has_failed false row);
                CallIndexMedia source_id])
           (with_sources
              (<[source_id := Source.set_has_failed false row]> (db_sources w))
              w))
    /\ extends (bind (lift (index_media ext source_id
                              (Source.set_has_failed false row))) k)
    /\ (forall v l, quiet NoMediaException (k (Some (v :: l))))
    /\ (forall w', k None w' = (Raise NoMediaException, w'))
    /\ (forall w', k (Some []) w' = (Raise NoMediaException, w')).
Proof.
  intros Hrow. eexists. split; [|split; [|split; [|split]]].
  - unfold index_source_task.
    rewrite (bind_ok get _ w _ _ eq_refl). rewrite Hrow. cbv zeta.
    rewrite (bind_ok (source_save _ _) _ w _ _ eq_refl).
    rewrite (bind_ok (emit _) _ _ _ _ eq_refl).
    cbn [with_effects with_sources effects db_sources db_media
         db_mediaservers db_tasks db_completed ticks drawn].
    rewrite <- app_assoc. reflexivity.
  - tame.
  - intros v l. cbv beta iota. tame.
  - intros w'. reflexivity.
  - intros w'. reflexivity.
Qed.

End IndexFacts.

(** C5.  On a source that exists, an enumeration that returns nothing, or an
    empty list, makes [index_source_task] raise [NoMediaException]; by then
    the source has been saved with [has_failed] reset and the enumeration
    asked for, and that is all: no media row is created, updated or deleted,
    no completed task is purged, the clock is not read.  An enumeration that
    returns items never ends in [NoMediaException]. *)
Theorem index_source_task_no_media (ext : Externals) (w : World)
  (source_id : N) (row : Source.t) (videos : option (list video)) :
  db_sources w !! source_id = Some row ->
  index_media ext source_id (Source.set_has_failed false row) = Ok videos ->
  (videos = None \/ videos = Some [] ->
   exists w',
     index_source_task ext source_id w = (Raise NoMediaException, w')
     /\ effects w'
        = effects w
          ++ [SaveSource source_id (Source.set_has_failed false row);
              CallIndexMedia source_id]
     /\ db_media w' = db_media w
     /\ db_completed w' = db_completed w
     /\ db_tasks w' = db_tasks w
     /\ ticks w' = ticks w
     /\ drawn w' = drawn w)
  /\ (forall v l, videos = Some (v :: l) ->
        fst (index_source_task ext source_id w) <> Raise NoMediaException).
Proof.
  intros Hrow Hidx.
  destruct (index_source_task_start ext w source_id row Hrow)
    as (k & Hrun & _ & Hquiet & Hnone & Hnil).
  rewrite Hrun. split.
  - intros Hno. eexists. split.
    + unfold bind, lift. rewrite Hidx.
      destruct Hno as [->| ->]; [apply Hnone | apply Hnil].
    + repeat split.
  - intros v l ->. unfold bind, lift. rewrite Hidx. apply Hquiet.
Qed.

(** C10.  On a source that exists, the first things [index_source_task] does
    are to save the source with [has_failed] set to false and then to ask
    for the enumeration, whatever comes after.  When the enumeration returns
    nothing the task raises and the saved source still has [has_failed]
    false. *)
Theorem index_source_task_resets_has_failed (ext : Externals) (w : World)
  (source_id : N) (row : Source.t) :
  db_sources w !! source_id = Some row ->
  Source.has_failed (Source.set_has_failed false row) = false
  /\ (exists rest,
        effects (snd (index_source_task ext source_id w))
        = effects w
          ++ SaveSource source_id (Source.set_has_failed false row)
             :: CallIndexMedia source_id :: rest)
  /\ (index_media ext source_id (Source.set_has_failed false row) = Ok None
      \/ index_media ext source_id (Source.set_has_failed false row)
         = Ok (Some []) ->
      fst (index_source_task ext source_id w) = Raise NoMediaException
      /\ db_sources (snd (index_source_task ext source_id w)) !! source_id
         = Some (Source.set_has_failed false row)).
Proof.
  intros Hrow. split; [reflexivity|].
  destruct (index_source_task_start ext w source_id row Hrow)
    as (k & Hrun & Hext & _ & Hnone & Hnil).
  rewrite Hrun. split.
  - match goal with |- context [bind ?m k ?w1] =>
      destruct (Hext w1) as [rest Hrest] end.
    exists rest. rewrite Hrest. cbn [with_effects effects].
    rewrite <- app_assoc. reflexivity.
  - intros Hidx. unfold bind, lift.
    destruct Hidx as [-> | ->]; [rewrite Hnone | rewrite Hnil];
      (split; [reflexivity|]); cbn [snd with_effects with_sources db_sources];
      apply lookup_insert_eq.
Qed.

Lemma index_source_task_no_media_witness :
  exists w',
    index_source_task (Demo.externals Demo.today None None "22") 1%N
      (Demo.world (Demo.source None 0) [(10%N, Demo.unfetched_item)])
    = (Raise NoMediaException, w')
    /\ effects w'
       = [SaveSource 1%N (Source.set_has_failed false (Demo.source None 0));
          CallIndexMedia 1%N]
    /\ db_media w' !! 10%N = Some Demo.unfetched_item.
Proof.
  destruct (proj1 (index_source_task_no_media
                     (Demo.externals Demo.today None None "22")
                     (Demo.world (Demo.source None 0)
                        [(10%N, Demo.unfetched_item)])
                     1%N (Demo.source None 0) None eq_refl eq_refl)
              (or_introl eq_refl))
    as (w' & Hrun & Heff & Hmedia & _).
  exists w'. split; [exact Hrun|]. split; [exact Heff|].
  rewrite Hmedia. reflexivity.
Defined.

Lemma index_source_task_resets_has_failed_witness :
  Source.has_failed (Demo.source None 0) = true
  /\ fst (index_source_task (Demo.externals Demo.today None None "22") 1%N
            (Demo.world (Demo.source None 0) []))
     = Raise NoMediaException
  /\ db_sources
       (snd (index_source_task (Demo.externals Demo.today None None "22") 1%N
               (Demo.world (Demo.source None 0) []))) !! 1%N
     = Some (Source.set_has_failed false (Demo.source None 0)).
Proof.
  split; [reflexivity|].
  apply (proj2 (proj2 (index_source_task_resets_has_failed
                         (Demo.externals Demo.today None None "22")
                         (Demo.world (Demo.source None 0) [])
                         1%N (Demo.source None 0) eq_refl))).
  left. reflexivity.
Defined.

(** A run that finds the one item it already knows succeeds and adds no
    row. *)
Example index_source_task_nothing_new :
  let w := Demo.world (Demo.source None 0) [(10%N, Demo.unfetched_item)] in
  let r := index_source_task
             (Demo.externals Demo.today (Some [Demo.vid "abc"]) None "22")
             1%N w in
  fst r = Ok tt /\ db_media (snd r) = db_media w.
Proof. vm_compute. split; reflexivity. Qed.

(** ** [download_media] *)

(** C2, as the code has it.  [download_media] returns without raising and
    leaves the whole world as it was, the trace of effects included, when the
    media row is marked [skip], or is marked [downloaded] and has a media
    file, or its source no longer downloads media, or the source has a cap
    date and the publish date of the row is not after it. *)
Theorem download_media_precondition_noop (ext : Externals) (w : World)
  (media_id : N) (media : Media.t) :
  db_media w !! media_id = Some media ->
  Media.skip media = true
  \/ (Media.downloaded media = true /\ Media.media_file media <> "")
  \/ (exists source,
        db_sources w !! Media.source media = Some source
        /\ (Source.download_media source = false
            \/ exists cap p,
                 Source.download_cap_date source = Some cap
                 /\ Media.published media = Some p /\ (p <= cap)%Z)) ->
  download_media ext media_id w = (Ok tt, w).
Proof.
  intros Hmedia Hpre. unfold download_media.
  rewrite (bind_ok get _ w _ _ eq_refl). rewrite Hmedia.
  destruct (Media.skip media) eqn:Hskip; [reflexivity|].
  destruct (Media.downloaded media && PyStr.truthy (Media.media_file media))
    eqn:Hdone; [reflexivity|].
  destruct Hpre as [Hs|[[Hd Hfile]|(source & Hsource & Hoff)]].
  - discriminate.
  - rewrite Hd in Hdone. destruct (Media.media_file media);
      [contradiction | discriminate].
  - rewrite (bind_ok (media_source media) _ w w source).
    2:{ unfold media_source. rewrite (bind_ok get _ w _ _ eq_refl).
        rewrite Hsource. reflexivity. }
    destruct Hoff as [Hoff|(cap & p & Hcap & Hpub & Hle)].
    + rewrite Hoff. reflexivity.
    + destruct (Source.download_media source); [|reflexivity]. cbn [negb].
      cbv zeta. rewrite Hcap, Hpub. cbn [capped].
      apply Z.leb_le in Hle. rewrite Hle. reflexivity.
Qed.

Lemma download_media_precondition_noop_witness :
  download_media (Demo.externals Demo.today None None "22") 11%N
    Demo.retention_world
  = (Ok tt, Demo.retention_world).
Proof.
  apply (download_media_precondition_noop
           (Demo.externals Demo.today None None "22") Demo.retention_world
           11%N Demo.fresh_item eq_refl).
  right. left. split; [reflexivity | discriminate].
Defined.

(** A row marked [downloaded] that has no media file is downloaded again:
    the downloader is called and the row is saved with new fields. *)
Lemma download_media_downloaded_without_file :
  ~ (forall (ext : Externals) (w : World) (media_id : N) (media : Media.t),
       db_media w !! media_id = Some media ->
       Media.downloaded media = true ->
       download_media ext media_id w = (Ok tt, w)).
Proof.
  intros Hclaim.
  specialize (Hclaim (Demo.externals Demo.today None None "22")
                (Demo.world (Demo.source None 0)
                   [(10%N, Demo.item "abc" true "" None None)])
                10%N (Demo.item "abc" true "" None None) eq_refl eq_refl).
  apply (f_equal (fun r => length (effects (snd r)))) in Hclaim.
  vm_compute in Hclaim. discriminate.
Qed.

Section DownloadFacts.

Variable ext : Externals.

(** Queueing the rescans changes no media row and does not raise. *)
Lemma schedule_rescans (l : list (N * string)) (queue : string) (w : World) :
  exists w',
    for_each l (fun mediaserver => schedule_rescan ext mediaserver queue) w
    = (Ok tt, w')
    /\ db_media w' = db_media w.
Proof.
  apply (for_each_invariant (fun w0 => db_media w0 = db_media w));
    [|reflexivity].
  intros x w0 _ Hw0. eexists. split; [reflexivity|]. exact Hw0.
Qed.

(** Up to the parsing of the format string, which reads the row in hand
    (the row as read, with the file, the date, the size and the container
    written to it), and from there on: whatever row the parsing gives is the
    row that is saved. *)
Lemma download_media_start (w : World) (media_id : N) (media : Media.t)
  (source : Source.t) (format_str container : string) :
  download_runs ext w media_id media source format_str container ->
  exists k w1,
    download_media ext media_id w
    = bind (lift (set_downloaded_formats ext format_str container
                    (staged_download ext (now ext (ticks w)) source media
                       container)))
        k w1
    /\ (forall row w0,
          exists w', k row w0 = (Ok tt, w')
                     /\ db_media w' !! media_id = Some row).
Proof.
  intros (Hmedia & Hskip & Hdone & Hsource & Hon & Hcap & Hrun & Hfile).
  do 2 eexists. split.
  - unfold download_media.
    rewrite (bind_ok get _ w _ _ eq_refl). rewrite Hmedia, Hskip, Hdone.
    rewrite (bind_ok (media_source media) _ w w source).
    2:{ unfold media_source. rewrite (bind_ok get _ w _ _ eq_refl).
        rewrite Hsource. reflexivity. }
    rewrite Hon. cbn [negb]. cbv zeta. rewrite Hcap.
    rewrite (bind_ok (emit _) _ _ _ _ eq_refl).
    erewrite (bind_ok (lift (run_download ext media_id source media)) _ _ _
                (format_str, container));
      [|unfold lift; rewrite Hrun; reflexivity].
    rewrite Hfile.
    rewrite (bind_ok (timezone_now ext) _ _ _ _ eq_refl).
    cbn [fst snd ticks with_effects]. reflexivity.
  - intros row w0. cbv beta.
    rewrite (bind_ok (media_save media_id row) _ w0 _ _ eq_refl).
    match goal with |- context [bind (if ?c then _ else _) _ ?w1] =>
      rewrite (bind_ok (if c then _ else _) _ w1
                 (if c then with_effects
                              (effects w1
                               ++ [CopyFile (thumb_path ext row)
                                     (thumbpath ext source row)]) w1
                  else w1) tt) by (destruct c; reflexivity)
    end.
    match goal with |- context [bind (if ?c then _ else _) _ ?w1] =>
      rewrite (bind_ok (if c then _ else _) _ w1
                 (if c then with_effects
                              (effects w1
                               ++ [WriteTextFile (nfopath ext source row)
                                     (nfoxml ext source row)]) w1
                  else w1) tt) by (destruct c; reflexivity)
    end.
    rewrite (bind_ok get _ _ _ _ eq_refl).
    match goal with |- context [for_each ?l _ ?w1] =>
      destruct (schedule_rescans l (str_uuid (Media.source row)) w1)
        as (w' & Hloop & Hkeep)
    end.
    exists w'. split; [exact Hloop|]. rewrite Hkeep.
    destruct (Source.copy_thumbnails source && PyStr.truthy (Media.thumb row)),
      (Source.write_nfo source); cbn; apply lookup_insert_eq.
Qed.

(** A format string of two codes around one ['+']. *)
Lemma set_downloaded_formats_split (vcode acode container : string)
  (vf af : Format) (media : Media.t) :
  PyStr.contains "+" vcode = false -> PyStr.contains "+" acode = false ->
  get_format_by_code ext media vcode = Some vf ->
  get_format_by_code ext media acode = Some af ->
  exists row,
    set_downloaded_formats ext (vcode +:+ String "+" acode) container media
    = Ok row
    /\ Media.downloaded_format row = Some (format vf)
    /\ Media.downloaded_height row = Some (height vf)
    /\ Media.downloaded_width row = Some (width vf)
    /\ Media.downloaded_video_codec row = vcodec vf
    /\ Media.downloaded_fps row = Some (fps vf)
    /\ Media.downloaded_hdr row = is_hdr vf
    /\ Media.downloaded_audio_codec row = acodec af
    /\ Media.downloaded_container row = Some container.
Proof.
  intros Hv Ha Hvf Haf. unfold set_downloaded_formats.
  rewrite PyStrFacts.contains_app. simpl PyStr.contains at 2.
  rewrite orb_true_r.
  rewrite PyStrFacts.split_app_sep, (PyStrFacts.split_without _ _ Hv),
    (PyStrFacts.split_without _ _ Ha).
  cbn [app]. rewrite Hvf, Haf. cbn [subscript rbind].
  eexists. split; [reflexivity|]. repeat split.
Qed.

(** A format string of one code. *)
Lemma set_downloaded_formats_single (code container : string) (cf : Format)
  (media : Media.t) :
  PyStr.contains "+" code = false ->
  get_format_by_code ext media code = Some cf ->
  exists row,
    set_downloaded_formats ext code container media = Ok row
    /\ Media.downloaded_audio_codec row = acodec cf
    /\ Media.downloaded_container row = Media.downloaded_container media
    /\ (forall c, vcodec cf = Some c -> c <> "" ->
        Media.downloaded_format row = Some (format cf)
        /\ Media.downloaded_height row = Some (height cf)
        /\ Media.downloaded_width row = Some (width cf)
        /\ Media.downloaded_video_codec row = Some c
        /\ Media.downloaded_fps row = Some (fps cf)
        /\ Media.downloaded_hdr row = is_hdr cf)
    /\ (vcodec cf = None \/ vcodec cf = Some "" ->
        Media.downloaded_format row = Some "audio"
        /\ Media.downloaded_height row = Media.downloaded_height media
        /\ Media.downloaded_width row = Media.downloaded_width media
        /\ Media.downloaded_video_codec row
           = Media.downloaded_video_codec media
        /\ Media.downloaded_fps row = Media.downloaded_fps media
        /\ Media.downloaded_hdr row = Media.downloaded_hdr media).
Proof.
  intros Hc Hcf. unfold set_downloaded_formats. rewrite Hc. cbv zeta.
  rewrite Hcf. cbn [subscript rbind].
  destruct (vcodec cf) as [[|a c]|] eqn:Hv; cbn [PyStr.truthy_opt PyStr.truthy];
    eexists; (split; [reflexivity|]); (split; [reflexivity|]);
    (split; [reflexivity|]); split.
  - intros c [= <-] Hne. congruence.
  - intros _. repeat split.
  - intros c' [= <-] _. repeat split.
  - intros [H|H]; discriminate H.
  - intros c H. discriminate H.
  - intros _. repeat split.
Qed.

(** The row in hand differs from the row as read in the file, the download
    state and the container only. *)
Lemma staged_download_frame (t : Z) (source : Source.t) (media : Media.t)
  (container : string) :
  Media.downloaded_height (staged_download ext t source media container)
  = Media.downloaded_height media
  /\ Media.downloaded_width (staged_download ext t source media container)
     = Media.downloaded_width media
  /\ Media.downloaded_video_codec
       (staged_download ext t source media container)
     = Media.downloaded_video_codec media
  /\ Media.downloaded_fps (staged_download ext t source media container)
     = Media.downloaded_fps media
  /\ Media.downloaded_hdr (staged_download ext t source media container)
     = Media.downloaded_hdr media
  /\ Media.downloaded_container
       (staged_download ext t source media container)
     = Some container.
Proof. destruct media. repeat split. Qed.

End DownloadFacts.

(** C1.  When [download_media] gets past its early returns, the downloader
    returns [(format_str, container)] and the file is on disk, the stage
    succeeds and saves a row read off the format string.  The codes are
    looked up on the row in hand, which is the row as read with the file,
    the date, the size and the container written to it.  Two codes around a
    ['+']: the format, height, width, video codec, frame rate and HDR flag
    of the format of the first code, and the audio codec of the format of the
    second.  One code whose format has a video codec that is not empty: all
    of these and the audio codec from that format.  One code whose format
    has no video codec, or an empty one: its audio codec, and ["audio"] as
    the format, with the height, width, video codec, frame rate and HDR flag
    that the row had.  In every case the container is the one the
    downloader named. *)
Theorem download_media_parses_format (ext : Externals) (w : World)
  (media_id : N) (media : Media.t) (source : Source.t)
  (format_str container : string) :
  download_runs ext w media_id media source format_str container ->
  (forall vcode acode vf af,
     format_str = vcode +:+ String "+" acode ->
     PyStr.contains "+" vcode = false -> PyStr.contains "+" acode = false ->
     get_format_by_code ext
       (staged_download ext (now ext (ticks w)) source media container) vcode
     = Some vf ->
     get_format_by_code ext
       (staged_download ext (now ext (ticks w)) source media container) acode
     = Some af ->
     exists w' row,
       download_media ext media_id w = (Ok tt, w')
       /\ db_media w' !! media_id = Some row
       /\ Media.downloaded_format row = Some (format vf)
       /\ Media.downloaded_height row = Some (height vf)
       /\ Media.downloaded_width row = Some (width vf)
       /\ Media.downloaded_video_codec row = vcodec vf
       /\ Media.downloaded_fps row = Some (fps vf)
       /\ Media.downloaded_hdr row = is_hdr vf
       /\ Media.downloaded_audio_codec row = acodec af
       /\ Media.downloaded_container row = Some container)
  /\ (forall cf,
        PyStr.contains "+" format_str = false ->
        get_format_by_code ext
          (staged_download ext (now ext (ticks w)) source media container)
          format_str
        = Some cf ->
        exists w' row,
          download_media ext media_id w = (Ok tt, w')
          /\ db_media w' !! media_id = Some row
          /\ Media.downloaded_audio_codec row = acodec cf
          /\ Media.downloaded_container row = Some container
          /\ (forall c, vcodec cf = Some c -> c <> "" ->
              Media.downloaded_format row = Some (format cf)
              /\ Media.downloaded_height row = Some (height cf)
              /\ Media.downloaded_width row = Some (width cf)
              /\ Media.downloaded_video_codec row = Some c
              /\ Media.downloaded_fps row = Some (fps cf)
              /\ Media.downloaded_hdr row = is_hdr cf)
          /\ (vcodec cf = None \/ vcodec cf = Some "" ->
              Media.downloaded_format row = Some "audio"
              /\ Media.downloaded_height row = Media.downloaded_height media
              /\ Media.downloaded_width row = Media.downloaded_width media
              /\ Media.downloaded_video_codec row
                 = Media.downloaded_video_codec media
              /\ Media.downloaded_fps row = Media.downloaded_fps media
              /\ Media.downloaded_hdr row = Media.downloaded_hdr media)).
Proof.
  intros Hruns.
  destruct (download_media_start ext w media_id media source format_str
              container Hruns) as (k & w1 & Hstart & Hk).
  rewrite Hstart. split.
  - intros vcode acode vf af -> Hv Ha Hvf Haf.
    destruct (set_downloaded_formats_split ext vcode acode container vf af
                _ Hv Ha Hvf Haf)
      as (row & Hrow & Hfields).
    destruct (Hk row w1) as (w' & Hrun & Hsaved).
    exists w', row. split.
    { unfold bind at 1, lift. rewrite Hrow. exact Hrun. }
    split; [exact Hsaved|]. tauto.
  - intros cf Hc Hcf.
    destruct (set_downloaded_formats_single ext format_str container cf
                _ Hc Hcf)
      as (row & Hrow & Haudio & Hcont & Hvideo & Honly).
    destruct (Hk row w1) as (w' & Hrun & Hsaved).
    destruct (staged_download_frame ext (now ext (ticks w)) source media
                container) as (Hh & Hw & Hvc & Hfps & Hhdr & Hc0).
    exists w', row. split.
    { unfold bind at 1, lift. rewrite Hrow. exact Hrun. }
    split; [exact Hsaved|]. split; [exact Haudio|].
    split; [rewrite Hcont; exact Hc0|]. split; [exact Hvideo|].
    intros Hno.
    rewrite <- Hh, <- Hw, <- Hvc, <- Hfps, <- Hhdr. apply Honly, Hno.
Qed.

Lemma download_media_parses_format_witness :
  exists w' row,
    download_media (reading_externals "137+140") 10%N
      (Demo.world (Demo.source None 0) [(10%N, listed_item)])
    = (Ok tt, w')
    /\ db_media w' !! 10%N = Some row
    /\ Media.downloaded_format row = Some "1080P"
    /\ Media.downloaded_height row = Some 1080%Z
    /\ Media.downloaded_width row = Some 1920%Z
    /\ Media.downloaded_video_codec row = Some "AVC1"
    /\ Media.downloaded_audio_codec row = Some "M4A".
Proof.
  destruct (proj1 (download_media_parses_format
                     (reading_externals "137+140")
                     (Demo.world (Demo.source None 0) [(10%N, listed_item)])
                     10%N listed_item (Demo.source None 0)
                     "137+140" "mp4"
                     ltac:(repeat split))
              "137" "140" Demo.f137 Demo.f140 eq_refl eq_refl eq_refl
              eq_refl eq_refl)
    as (w' & row & Hrun & Hrow & Hf & Hh & Hw & Hv & _ & _ & Ha & _).
  exists w', row. auto 10.
Defined.

(** The lookup of that run reads the row: on a row whose metadata lists no
    format it finds nothing. *)
Example listed_format_reads_row :
  get_format_by_code (reading_externals "137+140") listed_item "137"
  = Some Demo.f137
  /\ get_format_by_code (reading_externals "137+140") Demo.unfetched_item
       "137" = None.
Proof. split; reflexivity. Qed.

(** The combined format 22 fills the video fields and the audio codec. *)
Example download_media_combined :
  let r := download_media (Demo.externals Demo.today None None "22") 10%N
             (Demo.world (Demo.source None 0) [(10%N, Demo.unfetched_item)]) in
  fst r = Ok tt
  /\ (Media.downloaded_format <$> db_media (snd r) !! 10%N) = Some (Some "720P")
  /\ (Media.downloaded_video_codec <$> db_media (snd r) !! 10%N)
     = Some (Some "AVC1")
  /\ (Media.downloaded_audio_codec <$> db_media (snd r) !! 10%N)
     = Some (Some "M4A").
Proof. vm_compute. repeat split. Qed.

(** The audio format 140 alone gives the format ["audio"]. *)
Example download_media_audio_only :
  let r := download_media (Demo.externals Demo.today None None "140") 10%N
             (Demo.world (Demo.source None 0) [(10%N, Demo.unfetched_item)]) in
  fst r = Ok tt
  /\ (Media.downloaded_format <$> db_media (snd r) !! 10%N)
     = Some (Some "audio")
  /\ (Media.downloaded_audio_codec <$> db_media (snd r) !! 10%N)
     = Some (Some "M4A").
Proof. vm_compute. repeat split. Qed.

(** More than one ['+'] does not unpack into two codes. *)
Example download_media_three_codes :
  fst (download_media (Demo.externals Demo.today None None "137+140+22") 10%N
         (Demo.world (Demo.source None 0) [(10%N, Demo.unfetched_item)]))
  = Raise ValueError.
Proof. vm_compute. reflexivity. Qed.

(** The file missing after the download is a failure of the attempt. *)
Lemma download_media_missing_file (ext : Externals) (w : World) (media_id : N)
  (media : Media.t) (source : Source.t) (r : string * string) :
  db_media w !! media_id = Some media ->
  Media.skip media = false ->
  Media.downloaded media && PyStr.truthy (Media.media_file media) = false ->
  db_sources w !! Media.source media = Some source ->
  Source.download_media source = true ->
  capped (Source.download_cap_date source) (Media.published media) = false ->
  run_download ext media_id source media = Ok r ->
  path_exists ext (filepath ext source media) = false ->
  fst (download_media ext media_id w) = Raise DownloadFailedException.
Proof.
  intros Hmedia Hskip Hdone Hsource Hon Hcap Hrun Hfile.
  unfold download_media.
  rewrite (bind_ok get _ w _ _ eq_refl). rewrite Hmedia, Hskip, Hdone.
  rewrite (bind_ok (media_source media) _ w w source).
  2:{ unfold media_source. rewrite (bind_ok get _ w _ _ eq_refl).
      rewrite Hsource. reflexivity. }
  rewrite Hon. cbn [negb]. cbv zeta. rewrite Hcap.
  rewrite (bind_ok (emit _) _ _ _ _ eq_refl).
  erewrite (bind_ok (lift (run_download ext media_id source media)) _ _ _ r);
    [|unfold lift; rewrite Hrun; reflexivity].
  rewrite Hfile. reflexivity.
Qed.

(** ** [download_media_metadata] *)

(** The cap-date decision of [download_media_metadata], for a source with a
    cap date and no retention window and an item with an upload date: the row
    is saved with that publish date, and it is marked [skip] when it already
    was or when the publish date is strictly before the cap date. *)
Lemma download_media_metadata_cap (ext : Externals) (w : World) (media_id : N)
  (media : Media.t) (source : Source.t) (metadata : string) (d cap : Z) :
  db_media w !! media_id = Some media ->
  Media.manual_skip media = false ->
  db_sources w !! Media.source media = Some source ->
  index_metadata ext media_id media = Ok metadata ->
  upload_date ext (Media.set_metadata (Some metadata) media) = Some d ->
  Source.download_cap_date source = Some cap ->
  Source.delete_old_media source = false ->
  exists w' row,
    download_media_metadata ext media_id w = (Ok tt, w')
    /\ db_media w' !! media_id = Some row
    /\ Media.published row = Some (make_aware ext d)
    /\ Media.skip row = Media.skip media || (make_aware ext d <? cap)%Z.
Proof.
  intros Hmedia Hmanual Hsource Hmeta Hup Hcap Hold.
  unfold download_media_metadata.
  rewrite (bind_ok get _ w _ _ eq_refl). rewrite Hmedia, Hmanual.
  rewrite (bind_ok (media_source media) _ w w source).
  2:{ unfold media_source. rewrite (bind_ok get _ w _ _ eq_refl).
      rewrite Hsource. reflexivity. }
  rewrite (bind_ok (emit _) _ _ _ _ eq_refl).
  erewrite (bind_ok (lift (index_metadata ext media_id media)) _ _ _ metadata);
    [|unfold lift; rewrite Hmeta; reflexivity].
  cbv zeta. rewrite Hup, Hcap, Hold. cbn [andb Media.published Media.set_published].
  rewrite (bind_ok (ret _) _ _ _ _ eq_refl).
  destruct (make_aware ext d <? cap)%Z; eexists; eexists;
    (split; [reflexivity|]); cbn;
    (split; [apply lookup_insert_eq|]);
    destruct (Media.skip media) eqn:Hs; cbn; rewrite ?Hs; split; reflexivity.
Qed.

(** The scenario of the specification: a cap date of 2024-01-01 and a
    publish date of 2023-06-01.  The row is marked [skip], [can_download]
    stays false, and [download_media] does nothing. *)
Example cap_date_scenario :
  let ext := Demo.externals Demo.today None (Some Demo.jun_2023) "22" in
  let w := Demo.world (Demo.source (Some Demo.jan_2024) 0)
             [(10%N, Demo.unfetched_item)] in
  let w1 := snd (download_media_metadata ext 10%N w) in
  (Media.skip <$> db_media w1 !! 10%N) = Some true
  /\ (Media.can_download <$> db_media w1 !! 10%N) = Some false
  /\ download_media ext 10%N w1 = (Ok tt, w1).
Proof. vm_compute. repeat split. Qed.

(** C3, where the code leaves it.  A media item published at the very
    instant of the cap date of its source satisfies the skip condition (cap
    date set, publish date known and not after the cap date), and
    [download_media] treats it so and does nothing; but
    [download_media_metadata] compares with [<], does not mark the row [skip]
    and sets [can_download]. *)
Theorem cap_date_boundary_not_skipped :
  let ext := Demo.externals Demo.today None (Some Demo.jan_2024) "22" in
  let w := Demo.world (Demo.source (Some Demo.jan_2024) 0)
             [(10%N, Demo.unfetched_item)] in
  let w1 := snd (download_media_metadata ext 10%N w) in
  fst (download_media_metadata ext 10%N w) = Ok tt
  /\ (Media.published <$> db_media w1 !! 10%N) = Some (Some Demo.jan_2024)
  /\ capped (Some Demo.jan_2024) (Some Demo.jan_2024) = true
  /\ (Media.skip <$> db_media w1 !! 10%N) = Some false
  /\ (Media.can_download <$> db_media w1 !! 10%N) = Some true
  /\ download_media ext 10%N w1 = (Ok tt, w1).
Proof. vm_compute. repeat split. Qed.

(** * Further properties *)

(** ** The error summary is one trimmed line *)

Module SummaryFacts.

Import PyStr PyStrFacts.

Lemma rstrip_lstrip (s : string) : rstrip (lstrip s) = lstrip (rstrip s).
Proof.
  induction s as [|x s IH]; [reflexivity|].
  cbn [lstrip]. destruct (isspace x) eqn:Hx.
  - rewrite IH. cbn [rstrip]. destruct (rstrip s) as [|y r]; cbn [lstrip].
    + rewrite Hx. reflexivity.
    + rewrite Hx. reflexivity.
  - rewrite (rstrip_cons_nonspace _ _ Hx). cbn [lstrip]. rewrite Hx.
    reflexivity.
Qed.

Lemma strip_idem (s : string) : strip (strip s) = strip s.
Proof.
  unfold strip. rewrite rstrip_lstrip, rstrip_idem, lstrip_idem. reflexivity.
Qed.

(** No piece of a split holds the separator. *)
Lemma split_pieces (c : ascii) (s p : string) :
  In p (split c s) -> contains c p = false.
Proof.
  revert p. induction s as [|x s IH]; intros p; cbn [split].
  - intros [<-|[]]. reflexivity.
  - destruct (Ascii.eqb x c) eqn:Hx.
    + intros [<-|Hp]; [reflexivity | apply IH, Hp].
    + pose proof (split_nonempty c s) as Hne.
      destruct (split c s) as [|h t]; [contradiction|]. cbn [cons_head].
      intros [<-|Hp].
      * cbn [contains]. rewrite Hx. apply IH. left. reflexivity.
      * apply IH. right. exact Hp.
Qed.

Lemma last_split_without (c : ascii) (s : string) :
  contains c (List.last (split c s) "") = false.
Proof.
  pose proof (split_nonempty c s) as Hne.
  destruct (exists_last Hne) as (l & p & Hl).
  rewrite Hl, last_last. apply (split_pieces c s). rewrite Hl.
  apply in_or_app. right. left. reflexivity.
Qed.

End SummaryFacts.

(** X1.  Whatever [get_error_message] returns is a single line with no
    white space around it. *)
Theorem get_error_message_trimmed (has_error : Task -> bool) (task : Task)
  (s : string) :
  get_error_message has_error task = Ok s ->
  PyStr.strip s = s /\ PyStr.contains LF s = false.
Proof.
  intros Hs.
  assert (Hempty : PyStr.strip "" = "" /\ PyStr.contains LF "" = false)
    by (split; reflexivity).
  destruct (has_error task) eqn:Hf.
  2:{ unfold get_error_message in Hs. rewrite Hf in Hs.
      injection Hs as <-. exact Hempty. }
  destruct (PyStr.contains ":" (error_line task)) eqn:Hc.
  - destruct (contains_first _ _ Hc) as (a & b & HE & Ha).
    rewrite (get_error_message_colon has_error task a b Hf HE Ha) in Hs.
    injection Hs as <-. split; [apply SummaryFacts.strip_idem|].
    apply PyStrFacts.contains_strip.
    assert (Hline : PyStr.contains LF (error_line task) = false).
    { unfold error_line. apply PyStrFacts.contains_strip.
      apply SummaryFacts.last_split_without. }
    rewrite HE, PyStrFacts.contains_app in Hline.
    apply orb_false_elim in Hline as [_ Hline]. cbn [PyStr.contains] in Hline.
    apply orb_false_elim in Hline as [_ Hline]. exact Hline.
  - rewrite (get_error_message_no_colon has_error task Hc) in Hs.
    injection Hs as <-. exact Hempty.
Qed.

Lemma get_error_message_trimmed_witness :
  PyStr.strip "disk full" = "disk full"
  /\ PyStr.contains LF "disk full" = false.
Proof.
  apply (get_error_message_trimmed bg_has_error
           (Demo.failed_task ""
              ("Traceback..." +:+ String LF "DownloadFailedException: disk full"))
           "disk full").
  reflexivity.
Defined.

(** ** The identifier of [get_hash] and the text it hashes *)

Module HashFacts.

Lemma length_append (a b : string) :
  String.length (a +:+ b) = (String.length a + String.length b)%nat.
Proof. induction a as [|x a IH]; simpl; congruence. Qed.

Lemma all_hex_app (a b : string) : all_hex (a +:+ b) = all_hex a && all_hex b.
Proof.
  induction a as [|x a IH]; simpl; [reflexivity|].
  rewrite IH. apply andb_assoc.
Qed.

Lemma land_15 (n : Z) : (0 <= Z.land n 15 < 16)%Z.
Proof.
  change 15%Z with (Z.ones 4). rewrite Z.land_ones by lia.
  apply Z.mod_pos_bound. reflexivity.
Qed.

Lemma digit_is_hex (n : Z) : (0 <= n < 16)%Z -> is_hex_digit (Hex.digit n) = true.
Proof.
  intros Hn.
  assert (H : exists i, (i < 16)%nat /\ n = Z.of_nat i).
  { exists (Z.to_nat n). split; lia. }
  destruct H as (i & Hi & ->).
  do 16 (destruct i as [|i]; [reflexivity|]). lia.
Qed.

Lemma fixed_length (k : nat) (n : Z) : String.length (Hex.fixed k n) = k.
Proof.
  revert n. induction k as [|k IH]; intros n; [reflexivity|].
  cbn [Hex.fixed]. rewrite length_append, IH. simpl. lia.
Qed.

Lemma fixed_all_hex (k : nat) (n : Z) : all_hex (Hex.fixed k n) = true.
Proof.
  revert n. induction k as [|k IH]; intros n; [reflexivity|].
  cbn [Hex.fixed]. rewrite all_hex_app, IH. cbn [all_hex andb].
  rewrite (digit_is_hex _ (land_15 n)). reflexivity.
Qed.

(** Reading back what [Json.escape_char] wrote gives the character and the
    rest of the text. *)
Lemma unescape_escape_char (c : ascii) (rest : string) :
  unescape_char (Json.escape_char c +:+ rest) = Some (c, rest).
Proof. destruct c as [[] [] [] [] [] [] [] []]; reflexivity. Qed.

Lemma escape_inj_before_quote (s1 s2 rest : string) :
  Json.escape s1 +:+ String Json.DQUOTE rest
  = Json.escape s2 +:+ String Json.DQUOTE rest ->
  s1 = s2.
Proof.
  revert s2. induction s1 as [|c1 s1 IH]; intros [|c2 s2] H.
  - reflexivity.
  - apply (f_equal unescape_char) in H. cbn [Json.escape] in H.
    rewrite PyStrFacts.append_assoc, unescape_escape_char in H. discriminate.
  - apply (f_equal unescape_char) in H. cbn [Json.escape] in H.
    rewrite PyStrFacts.append_assoc, unescape_escape_char in H. discriminate.
  - apply (f_equal unescape_char) in H. cbn [Json.escape] in H.
    rewrite !PyStrFacts.append_assoc, !unescape_escape_char in H.
    injection H as -> H. f_equal. apply IH, H.
Qed.

Lemma append_inj_length (a a' b b' : string) :
  String.length a = String.length a' -> a +:+ b = a' +:+ b' -> a = a' /\ b = b'.
Proof.
  revert a'. induction a as [|x a IH]; intros [|x' a'] Hl H; try discriminate.
  - split; [reflexivity | exact H].
  - simpl in H. injection H as -> H. injection Hl as Hl.
    destruct (IH a' Hl H) as [-> ->]. split; reflexivity.
Qed.

Lemma unhex_digit (n : Z) : (0 <= n < 16)%Z -> unhex (Hex.digit n) = Some n.
Proof.
  intros Hn.
  assert (H : exists i, (i < 16)%nat /\ n = Z.of_nat i).
  { exists (Z.to_nat n). split; lia. }
  destruct H as (i & Hi & ->).
  do 16 (destruct i as [|i]; [reflexivity|]). lia.
Qed.

Lemma fixed_inj (k : nat) (n m : Z) :
  Hex.fixed k n = Hex.fixed k m -> (n mod 16 ^ Z.of_nat k = m mod 16 ^ Z.of_nat k)%Z.
Proof.
  revert n m. induction k as [|k IH]; intros n m H.
  - cbn. rewrite !Z.mod_1_r. reflexivity.
  - cbn [Hex.fixed] in H.
    apply append_inj_length in H as [Hhi Hlo];
      [|rewrite !fixed_length; reflexivity].
    apply IH in Hhi. injection Hlo as Hlo.
    apply (f_equal unhex) in Hlo.
    rewrite !unhex_digit in Hlo by apply land_15.
    injection Hlo as Hlo.
    change 15%Z with (Z.ones 4) in Hlo. rewrite !Z.land_ones in Hlo by lia.
    rewrite !Z.shiftr_div_pow2 in Hhi by lia.
    rewrite Nat2Z.inj_succ, Z.pow_succ_r by lia.
    change (2 ^ 4)%Z with 16%Z in *.
    rewrite !Z.rem_mul_r by lia. lia.
Qed.

Lemma string_tail_inj (c : ascii) (a b : string) :
  String c a = String c b -> a = b.
Proof. intros [= ->]. reflexivity. Qed.

Lemma str_uuid_inj (u1 u2 : N) :
  (u1 < 2 ^ 128)%N -> (u2 < 2 ^ 128)%N -> str_uuid u1 = str_uuid u2 -> u1 = u2.
Proof.
  intros H1 H2 H. unfold str_uuid in H. cbv zeta in H.
  apply append_inj_length in H as [Ha H];
    [|rewrite !fixed_length; reflexivity].
  cbn [String.append] in H. apply string_tail_inj in H.
  apply append_inj_length in H as [Hb H];
    [|rewrite !fixed_length; reflexivity].
  cbn [String.append] in H. apply string_tail_inj in H.
  apply append_inj_length in H as [Hc H];
    [|rewrite !fixed_length; reflexivity].
  cbn [String.append] in H. apply string_tail_inj in H.
  apply append_inj_length in H as [Hd H];
    [|rewrite !fixed_length; reflexivity].
  cbn [String.append] in H. apply string_tail_inj in H. rename H into He.
  apply fixed_inj in Ha, Hb, Hc, Hd, He.
  rewrite !Z.shiftr_div_pow2 in * by lia.
  apply N2Z.inj.
  assert (B1 : (0 <= Z.of_N u1 < 2 ^ 128)%Z).
  { split; [lia|]. change (2 ^ 128)%Z with (Z.of_N (2 ^ 128)). lia. }
  assert (B2 : (0 <= Z.of_N u2 < 2 ^ 128)%Z).
  { split; [lia|]. change (2 ^ 128)%Z with (Z.of_N (2 ^ 128)). lia. }
  revert Ha Hb Hc Hd He B1 B2.
  generalize (Z.of_N u1) (Z.of_N u2). intros n m.
  cbn [Z.of_nat Pos.of_succ_nat Pos.succ].
  change (16 ^ 8)%Z with 4294967296%Z. change (16 ^ 4)%Z with 65536%Z.
  change (16 ^ 12)%Z with 281474976710656%Z.
  change (2 ^ 96)%Z with 79228162514264337593543950336%Z.
  change (2 ^ 80)%Z with 1208925819614629174706176%Z.
  change (2 ^ 64)%Z with 18446744073709551616%Z.
  change (2 ^ 48)%Z with 281474976710656%Z.
  change (2 ^ 128)%Z with 340282366920938463463374607431768211456%Z.
  intros. Z.div_mod_to_equations. lia.
Qed.

Lemma dumps_args_inj (s1 s2 : string) :
  Json.dumps_args s1 = Json.dumps_args s2 -> s1 = s2.
Proof.
  unfold Json.dumps_args, Json.dumps_str. intros H.
  injection H as H. rewrite !PyStrFacts.append_assoc in H.
  exact (escape_inj_before_quote _ _ _ H).
Qed.

End HashFacts.

(** X2.  The identifier [get_hash] returns is forty lower-case hexadecimal
    digits, whatever the task name and the key. *)
Theorem get_hash_hexdigest {PK : Type} (str : PK -> string) (name : string)
  (pk : PK) :
  String.length (get_hash str name pk) = 40%nat
  /\ all_hex (get_hash str name pk) = true.
Proof.
  unfold get_hash, SHA1.hexdigest. split.
  - rewrite !HashFacts.length_append, !HashFacts.fixed_length. reflexivity.
  - rewrite !HashFacts.all_hex_app, !HashFacts.fixed_all_hex. reflexivity.
Qed.

(** X3.  For key texts of characters below U+0100, which are the strings
    of this development and include every [str] of a UUID or of an integer
    key, the serialized parameters that [get_hash] hashes determine the
    text: two keys with different [str] never give the same parameters,
    whatever quotes, backslashes and control characters the texts hold.
    Texts with characters from U+0100 on are not covered. *)
Theorem task_params_injective (s1 s2 : string) :
  Json.dumps_args s1 = Json.dumps_args s2 -> s1 = s2.
Proof. apply HashFacts.dumps_args_inj. Qed.

Lemma task_params_injective_witness :
  str_uuid 5 = "00000000-0000-0000-0000-000000000005".
Proof.
  apply (task_params_injective (str_uuid 5)
           "00000000-0000-0000-0000-000000000005").
  vm_compute. reflexivity.
Defined.

(** X4.  Two primary keys (128-bit UUIDs) with the same serialized task
    parameters are the same key: the text of a UUID and its serialization
    lose nothing, so only the digest can make two rows share an
    identifier. *)
Theorem task_params_of_uuid_injective (u1 u2 : N) :
  (u1 < 2 ^ 128)%N -> (u2 < 2 ^ 128)%N ->
  Json.dumps_args (str_uuid u1) = Json.dumps_args (str_uuid u2) -> u1 = u2.
Proof.
  intros H1 H2 H. apply (HashFacts.str_uuid_inj _ _ H1 H2).
  apply HashFacts.dumps_args_inj, H.
Qed.

Lemma task_params_of_uuid_injective_witness : 5%N = 5%N.
Proof.
  apply (task_params_of_uuid_injective 5 5); reflexivity.
Defined.

(** ** [map_task_to_instance]: what comes back *)

Lemma TASK_MAP_source (name : string) :
  TASK_MAP name = Some SourceModel ->
  name = "sync.tasks.index_source_task"
  \/ name = "sync.tasks.check_source_directory_exists".
Proof.
  unfold TASK_MAP.
  destruct (String.eqb_spec name "sync.tasks.index_source_task");
    [auto|].
  destruct (String.eqb_spec name "sync.tasks.check_source_directory_exists");
    [auto|].
  destruct (String.eqb name "sync.tasks.download_media_thumbnail");
    [discriminate|].
  destruct (String.eqb name "sync.tasks.download_media"); discriminate.
Qed.

Lemma TASK_MAP_media (name : string) :
  TASK_MAP name = Some MediaModel ->
  name = "sync.tasks.download_media_thumbnail"
  \/ name = "sync.tasks.download_media".
Proof.
  unfold TASK_MAP.
  destruct (String.eqb name "sync.tasks.index_source_task");
    [discriminate|].
  destruct (String.eqb name "sync.tasks.check_source_directory_exists");
    [discriminate|].
  destruct (String.eqb_spec name "sync.tasks.download_media_thumbnail");
    [auto|].
  destruct (String.eqb_spec name "sync.tasks.download_media");
    [auto | discriminate].
Qed.

(** X5.  When [map_task_to_instance] returns, it returns either the pair of
    two [None], or a row of the table that goes with the task name, under
    the key it was found at, together with the route of that table: a source
    and ['sync:source'] for the two source tasks, a media item and
    ['sync:media-item'] for the two media tasks.  A task of any other name
    maps to the pair of two [None] whatever its parameters are. *)
Theorem map_task_to_instance_kinds (json_loads : string -> result json)
  (uuid_of_str : string -> option N) (w : World) (task : Task) :
  (forall r,
     map_task_to_instance json_loads uuid_of_str w task = Ok r ->
     r = (None, None)
     \/ (exists pk row,
           r = (Some (SourceInstance pk row), Some "sync:source")
           /\ db_sources w !! pk = Some row
           /\ (task_name task = "sync.tasks.index_source_task"
               \/ task_name task = "sync.tasks.check_source_directory_exists"))
     \/ (exists pk row,
           r = (Some (MediaInstance pk row), Some "sync:media-item")
           /\ db_media w !! pk = Some row
           /\ (task_name task = "sync.tasks.download_media_thumbnail"
               \/ task_name task = "sync.tasks.download_media")))
  /\ (TASK_MAP (task_name task) = None ->
      map_task_to_instance json_loads uuid_of_str w task = Ok (None, None)).
Proof.
  split.
  - intros r. unfold map_task_to_instance.
    destruct (TASK_MAP (task_name task)) as [model|] eqn:Hmodel;
      [|intros [= <-]; auto].
    destruct (MODEL_URL_MAP model) as [url|] eqn:Hurl; [|intros [= <-]; auto].
    destruct (negb (PyStr.truthy url)); [intros [= <-]; auto|].
    destruct (json_loads (task_params task)) as [args|e];
      [|destruct (caught e); [intros [= <-]; auto | discriminate]].
    destruct (py_len args) as [n|]; [|discriminate]. cbn [rbind].
    destruct (negb (n =? 2)%nat); [intros [= <-]; auto|].
    destruct (unpack2 args) as [p|]; [|discriminate]. cbn [rbind].
    destruct (py_len (fst p)) as [m|]; [|discriminate]. cbn [rbind].
    destruct (m =? 0)%nat; [intros [= <-]; auto|].
    destruct (getitem0 (fst p)) as [v|]; [|discriminate]. cbn [rbind].
    destruct (UUID uuid_of_str v) as [pk|e];
      [|destruct (caught e); [intros [= <-]; auto | discriminate]].
    destruct (objects_get w model pk) as [i|] eqn:Hget;
      [|intros [= <-]; auto].
    intros [= <-]. right.
    destruct model; cbn in Hget, Hurl; injection Hurl as <-.
    + left. destruct (db_sources w !! pk) as [row|] eqn:Hrow; [|discriminate].
      injection Hget as <-. exists pk, row. auto using TASK_MAP_source.
    + right. destruct (db_media w !! pk) as [row|] eqn:Hrow; [|discriminate].
      injection Hget as <-. exists pk, row. auto using TASK_MAP_media.
  - intros Hnone. unfold map_task_to_instance. rewrite Hnone. reflexivity.
Qed.

Lemma map_task_to_instance_kinds_witness :
  map_task_to_instance Demo.loads_five (fun _ => None)
    (Demo.world (Demo.source None 0) [])
    (mkTask "sync.tasks.rescan_media_server" "5" "" 0 "" 0 None "")
  = Ok (None, None).
Proof.
  apply (proj2 (map_task_to_instance_kinds Demo.loads_five (fun _ => None)
                  (Demo.world (Demo.source None 0) [])
                  (mkTask "sync.tasks.rescan_media_server" "5" "" 0 "" 0
                     None ""))).
  reflexivity.
Defined.

(** X6.  A task of a known kind whose parameters are the serialization of
    the key of a row, as [get_hash] builds it, maps back to the row under
    that key when it is still there, and to the pair of two [None] when it
    is gone, provided [json.loads] and [uuid.UUID] read that serialization
    and that text back. *)
Theorem map_task_to_instance_round_trip (json_loads : string -> result json)
  (uuid_of_str : string -> option N) (w : World) (task : Task) (pk : N)
  (model : model) :
  TASK_MAP (task_name task) = Some model ->
  task_params task = Json.dumps_args (str_uuid pk) ->
  json_loads (Json.dumps_args (str_uuid pk))
  = Ok (JList [JList [JStr (str_uuid pk)]; JDict []]) ->
  uuid_of_str (str_uuid pk) = Some pk ->
  map_task_to_instance json_loads uuid_of_str w task
  = Ok (match objects_get w model pk with
        | Some i => (Some i, MODEL_URL_MAP model)
        | None => (None, None)
        end).
Proof.
  intros Hmodel Hparams Hloads Huuid. unfold map_task_to_instance.
  rewrite Hmodel, Hparams, Hloads.
  destruct model; cbn [MODEL_URL_MAP PyStr.truthy negb py_len rbind length
                       Nat.eqb unpack2 py_iter fst getitem0];
    rewrite PyStrFacts.py_index_head; cbn [rbind UUID]; rewrite Huuid;
    destruct (objects_get w _ pk); reflexivity.
Qed.

Lemma map_task_to_instance_round_trip_witness :
  map_task_to_instance loads_ten uuid_ten
    (Demo.world (Demo.source None 0) [(10%N, Demo.unfetched_item)])
    (mkTask "sync.tasks.download_media" (Json.dumps_args (str_uuid 10)) "" 0
       "" 0 None "")
  = Ok (Some (MediaInstance 10 Demo.unfetched_item), Some "sync:media-item").
Proof.
  apply (map_task_to_instance_round_trip loads_ten uuid_ten
           (Demo.world (Demo.source None 0) [(10%N, Demo.unfetched_item)])
           (mkTask "sync.tasks.download_media"
              (Json.dumps_args (str_uuid 10)) "" 0 "" 0 None "")
           10%N MediaModel); reflexivity.
Defined.

(** ** What a task function leaves as it was *)

Section Preserves.

Variable P : World -> World -> Prop.
Hypothesis P_refl : forall w, P w w.
Hypothesis P_trans : forall w1 w2 w3, P w1 w2 -> P w2 w3 -> P w1 w3.

Lemma preserves_ret {A : Type} (a : A) : preserves P (ret a).
Proof. intros w. apply P_refl. Qed.

Lemma preserves_raise {A : Type} (e : exn) : preserves P (@raise A e).
Proof. intros w. apply P_refl. Qed.

Lemma preserves_lift {A : Type} (r : result A) : preserves P (lift r).
Proof. intros w. apply P_refl. Qed.

Lemma preserves_get : preserves P get.
Proof. intros w. apply P_refl. Qed.

Lemma preserves_bind {A B : Type} (m : M A) (k : A -> M B) :
  preserves P m -> (forall a, preserves P (k a)) -> preserves P (bind m k).
Proof.
  intros Hm Hk w. unfold bind. specialize (Hm w).
  destruct (m w) as [[a|e] w1]; cbn [snd] in *; [|exact Hm].
  exact (P_trans _ _ _ Hm (Hk a w1)).
Qed.

Lemma preserves_for_each {A : Type} (l : list A) (body : A -> M unit) :
  (forall x, preserves P (body x)) -> preserves P (for_each l body).
Proof.
  intros Hbody. induction l as [|x l IH]; cbn [for_each].
  - apply preserves_ret.
  - apply preserves_bind; [apply Hbody | intros _; exact IH].
Qed.

End Preserves.

Lemma agree_refl {X : Type} (f : World -> X) (w : World) : agree f w w.
Proof. reflexivity. Qed.

Lemma agree_trans {X : Type} (f : World -> X) (w1 w2 w3 : World) :
  agree f w1 w2 -> agree f w2 w3 -> agree f w1 w3.
Proof. unfold agree. congruence. Qed.

Lemma media_within_refl (w : World) : media_within w w.
Proof. intros k m H. exact H. Qed.

Lemma media_within_trans (w1 w2 w3 : World) :
  media_within w1 w2 -> media_within w2 w3 -> media_within w1 w3.
Proof. intros H12 H23 k m H. apply H12, H23, H. Qed.

(** Take a computation apart for a component that its steps do not write. *)
Ltac frame :=
  repeat
    match goal with
    | |- preserves (agree ?f) (bind _ _) =>
        apply (preserves_bind _ (agree_trans f)); [|intros ?]
    | |- preserves (agree ?f) (for_each _ _) =>
        apply (preserves_for_each _ (agree_refl f) (agree_trans f)); intros ?
    | |- preserves media_within (bind _ _) =>
        apply (preserves_bind _ media_within_trans);
        [|intros ?]
    | |- preserves media_within (for_each _ _) =>
        apply (preserves_for_each _ media_within_refl media_within_trans);
        intros ?
    | |- preserves _ (let x := _ in _) => cbv zeta
    | |- preserves _ (if ?b then _ else _) => destruct b
    | |- preserves _ (match ?x with _ => _ end) => destruct x
    | |- preserves (agree _) _ => solve [intros ?; reflexivity]
    | |- preserves media_within _ => solve [intros ? ? ? H; exact H]
    end.

Section SweepFrames.

Variable ext : Externals.

Lemma media_delete_within (pk : N) : preserves media_within (media_delete pk).
Proof.
  intros w k m. cbn. intros H. apply lookup_delete_Some in H as [_ H]. exact H.
Qed.

(** One round of the retention sweep, whatever the clock reads. *)
Lemma old_media_round_any (src : N * Source.t) (w : World) :
  exists w',
    (t0 <- timezone_now ext ;;
     let delta := (t0 - timedelta_days (Source.days_to_keep (snd src)))%Z in
     w0 <- get ;;
     for_each (List.filter (expired (fst src) delta) (map_to_list (db_media w0)))
       (fun media => media_delete (fst media)))%task w = (Ok tt, w')
    /\ db_sources w' = db_sources w
    /\ (forall k m,
          db_media w' !! k = Some m <->
          db_media w !! k = Some m
          /\ expired (fst src)
               (now ext (ticks w)
                - timedelta_days (Source.days_to_keep (snd src))) (k, m)
             = false).
Proof.
  rewrite (bind_ok (timezone_now ext) _ w _ _ eq_refl). cbv zeta.
  rewrite (bind_ok get _ _ _ _ eq_refl).
  set (delta := (now ext (ticks w)
                 - timedelta_days (Source.days_to_keep (snd src)))%Z).
  set (w1 := with_ticks (S (ticks w)) w).
  destruct (delete_rows
              (List.filter (expired (fst src) delta) (map_to_list (db_media w1)))
              w1) as (w' & Hrun & Hsrc & Hin & Hout).
  exists w'. split; [exact Hrun|]. split; [exact Hsrc|].
  intros k m. split.
  - intros Hk.
    destruct (decide (k ∈ (List.filter (expired (fst src) delta)
                             (map_to_list (db_media w1))).*1)) as [Hd|Hd].
    + rewrite (Hin k Hd) in Hk. discriminate.
    + rewrite (Hout k Hd) in Hk. split; [exact Hk|].
      destruct (expired (fst src) delta (k, m)) eqn:He; [|reflexivity].
      exfalso. apply Hd. apply list_elem_of_fmap. exists (k, m).
      split; [reflexivity|]. apply elem_of_filter_table. auto.
  - intros [Hk He]. rewrite Hout; [exact Hk|].
    intros Hd. apply list_elem_of_fmap in Hd as ([k' m'] & -> & Hx).
    apply elem_of_filter_table in Hx as [Hk' He']. cbn in Hk', He'.
    change (db_media w1) with (db_media w) in Hk'.
    cbn in Hk. rewrite Hk in Hk'. injection Hk' as <-.
    cbn in He. congruence.
Qed.

Lemma cleanup_old_media_within : preserves media_within (cleanup_old_media ext).
Proof.
  unfold cleanup_old_media. frame. apply media_delete_within.
Qed.

Lemma cleanup_old_media_agree {X : Type} (f : World -> X) :
  (forall v w, f (with_media v w) = f w) ->
  (forall v w, f (with_ticks v w) = f w) ->
  (forall v w, f (with_effects v w) = f w) ->
  preserves (agree f) (cleanup_old_media ext).
Proof.
  intros Hm Ht He. unfold cleanup_old_media. frame.
  - intros w. unfold agree. cbn. apply Ht.
  - intros w. unfold agree, media_delete, bind, emit, modify. cbn.
    rewrite Hm, He. reflexivity.
Qed.

End SweepFrames.

(** X7.  Whatever the clock reads, the retention sweep returns without
    raising; it writes no table but the media: sources, media servers,
    pending and completed tasks stay as they were; it adds no media row and
    changes none; and it keeps every row that is not marked downloaded, or
    has no download date, or belongs to a source that does not expire its
    media. *)
Theorem cleanup_old_media_frame (ext : Externals) (w : World) :
  exists w',
    cleanup_old_media ext w = (Ok tt, w')
    /\ db_sources w' = db_sources w
    /\ db_mediaservers w' = db_mediaservers w
    /\ db_tasks w' = db_tasks w
    /\ db_completed w' = db_completed w
    /\ (forall k m, db_media w' !! k = Some m -> db_media w !! k = Some m)
    /\ (forall k m,
          db_media w !! k = Some m ->
          Media.downloaded m = false \/ Media.download_date m = None
          \/ not_expiring w m ->
          db_media w' !! k = Some m).
Proof.
  destruct (cleanup_old_media ext w) as [r w'] eqn:Hrun.
  assert (Hr : r = Ok tt).
  { destruct r as [[]|e]; [reflexivity|].
    exfalso. apply (quiet_cleanup_old_media ext e w). rewrite Hrun.
    reflexivity. }
  subst r. exists w'. split; [reflexivity|].
  pose proof (cleanup_old_media_agree ext db_sources
                (fun _ _ => eq_refl) (fun _ _ => eq_refl) (fun _ _ => eq_refl)
                w) as H1.
  pose proof (cleanup_old_media_agree ext db_mediaservers
                (fun _ _ => eq_refl) (fun _ _ => eq_refl) (fun _ _ => eq_refl)
                w) as H2.
  pose proof (cleanup_old_media_agree ext db_tasks
                (fun _ _ => eq_refl) (fun _ _ => eq_refl) (fun _ _ => eq_refl)
                w) as H3.
  pose proof (cleanup_old_media_agree ext db_completed
                (fun _ _ => eq_refl) (fun _ _ => eq_refl) (fun _ _ => eq_refl)
                w) as H4.
  pose proof (cleanup_old_media_within ext w) as H5.
  rewrite Hrun in H1, H2, H3, H4, H5. cbn [snd] in *.
  do 4 (split; [assumption|]). split; [exact H5|].
  intros k m Hk HQ.
  assert (Hloop : forall ls w0,
             (forall src, src ∈ ls ->
                db_sources w !! fst src = Some (snd src)
                /\ expiring src = true) ->
             db_media w0 !! k = Some m ->
             forall w1,
               for_each ls
                 (fun source =>
                    t0 <- timezone_now ext ;;
                    let delta :=
                      (t0 - timedelta_days (Source.days_to_keep (snd source)))%Z
                    in
                    w2 <- get ;;
                    for_each (List.filter (expired (fst source) delta)
                                (map_to_list (db_media w2)))
                      (fun media => media_delete (fst media)))%task w0
               = (Ok tt, w1) ->
               db_media w1 !! k = Some m).
  { induction ls as [|src ls IH]; intros w0 Hls Hk0 w1 Hrun1.
    - injection Hrun1 as <-. exact Hk0.
    - destruct (old_media_round_any ext src w0) as (w2 & Hround & _ & Hiff).
      cbn [for_each] in Hrun1. rewrite (bind_ok _ _ _ _ _ Hround) in Hrun1.
      apply (IH w2); [|apply Hiff|exact Hrun1].
      + intros s Hs. apply Hls. right. exact Hs.
      + split; [exact Hk0|]. unfold expired, date_lt. cbn [fst snd].
        destruct (Hls src (list_elem_of_here _ _)) as [Hsrc Hexp].
        destruct (N.eqb_spec (Media.source m) (fst src)) as [Heq|];
          [|reflexivity].
        destruct HQ as [Hd|[Hd|Hne]].
        * rewrite Hd. reflexivity.
        * rewrite Hd. apply andb_false_r.
        * exfalso. rewrite <- Heq in Hsrc. unfold expiring in Hexp.
          apply andb_true_iff in Hexp as [Hdel Hdays].
          apply Z.ltb_lt in Hdays.
          destruct (Hne _ Hsrc) as [H|H]; [congruence | lia]. }
  unfold cleanup_old_media in Hrun.
  rewrite (bind_ok get _ w _ _ eq_refl) in Hrun.
  refine (Hloop _ w _ Hk w' Hrun).
  intros src Hs. apply elem_of_filter_table in Hs. exact Hs.
Qed.

(** An enumerated item without ['id'] makes the comprehension raise. *)
Lemma matching_source_item_keyless (videos : list video) (key : string) :
  (exists v, v ∈ videos /\ v !! "id" = None) ->
  matching_source_item videos key = Raise KeyError.
Proof.
  induction videos as [|v videos IH]; intros (v0 & Hv0 & Hid).
  - inversion Hv0.
  - cbn [matching_source_item]. destruct (v !! "id") as [i|] eqn:Hi;
      [|reflexivity].
    rewrite IH; [reflexivity|]. exists v0. split; [|exact Hid].
    apply elem_of_cons in Hv0 as [->|Hv0]; [congruence | exact Hv0].
Qed.

(** X8.  When an enumerated item has no ['id'], the cleanup of removed media
    raises [KeyError] before it deletes anything as soon as the source has a
    downloaded row, and leaves the world as it was; when the source has no
    downloaded row it returns and changes nothing. *)
Theorem cleanup_removed_media_keyless (source : N * Source.t)
  (videos : list video) (w : World) :
  (exists v, v ∈ videos /\ v !! "id" = None) ->
  ((exists k m, db_media w !! k = Some m /\ Media.source m = fst source
                /\ Media.downloaded m = true) ->
   cleanup_removed_media source videos w = (Raise KeyError, w))
  /\ ((forall k m, db_media w !! k = Some m -> Media.source m = fst source ->
         Media.downloaded m = false) ->
      cleanup_removed_media source videos w = (Ok tt, w)).
Proof.
  intros Hkeyless. unfold cleanup_removed_media.
  rewrite (bind_ok get _ w _ _ eq_refl). cbv zeta. split.
  - intros (k & m & Hk & Hs & Hd).
    assert (Hin : (k, m) ∈ List.filter (downloaded_of (fst source))
                              (map_to_list (db_media w))).
    { apply elem_of_filter_table. split; [exact Hk|]. unfold downloaded_of.
      cbn [fst snd]. rewrite Hs, N.eqb_refl, Hd. reflexivity. }
    destruct (List.filter _ _) as [|item l]; [inversion Hin|].
    cbn [for_each]. unfold bind at 1 2, lift.
    rewrite (matching_source_item_keyless _ _ Hkeyless). reflexivity.
  - intros Hnone.
    destruct (List.filter (downloaded_of (fst source))
                (map_to_list (db_media w))) as [|[k m] l] eqn:Hl;
      [reflexivity|].
    assert (Hin : (k, m) ∈ List.filter (downloaded_of (fst source))
                              (map_to_list (db_media w)))
      by (rewrite Hl; left).
    apply elem_of_filter_table in Hin as [Hk Hd]. unfold downloaded_of in Hd.
    cbn [fst snd] in Hk, Hd. apply andb_true_iff in Hd as [Hs Hd].
    apply N.eqb_eq in Hs. rewrite (Hnone k m Hk Hs) in Hd. discriminate.
Qed.

Lemma cleanup_removed_media_keyless_witness :
  cleanup_removed_media (1%N, Demo.source None 0) [Demo.vid "kept"; ∅]
    Demo.removal_world
  = (Raise KeyError, Demo.removal_world).
Proof.
  assert (Hkeyless : exists v : video,
             v ∈ [Demo.vid "kept"; ∅] /\ v !! "id" = None).
  { exists ∅. split; [right; left | reflexivity]. }
  apply (proj1 (cleanup_removed_media_keyless (1%N, Demo.source None 0)
                  [Demo.vid "kept"; ∅] Demo.removal_world Hkeyless)).
  exists 12%N, Demo.gone_item. repeat split.
Defined.

(** X9.  With the clock at [t], the sweep of completed tasks keeps, in their
    order, exactly the completed tasks that did not run before [t] minus the
    configured number of days (thirty when no number is configured); it
    writes nothing else, and a second sweep at the same instant removes
    nothing more. *)
Theorem cleanup_completed_tasks_keeps (ext : Externals) (w : World) (t : Z) :
  now ext (ticks w) = t ->
  exists w',
    cleanup_completed_tasks ext w = (Ok tt, w')
    /\ db_completed w'
       = List.filter
           (fun c => (t - timedelta_days
                          (default 30%Z (COMPLETED_TASKS_DAYS_TO_KEEP ext))
                      <=? run_at c)%Z)
           (db_completed w)
    /\ db_sources w' = db_sources w /\ db_media w' = db_media w
    /\ db_mediaservers w' = db_mediaservers w /\ db_tasks w' = db_tasks w
    /\ (now ext (ticks w') = t ->
        db_completed (snd (cleanup_completed_tasks ext w')) = db_completed w').
Proof.
  intros Hnow. unfold cleanup_completed_tasks. mstep. cbv zeta.
  eexists. split; [reflexivity|]. cbn. rewrite Hnow.
  assert (Hf : forall l : list Task,
             List.filter
               (fun c => negb (run_at c <?
                               t - timedelta_days
                                     (default 30%Z
                                        (COMPLETED_TASKS_DAYS_TO_KEEP ext)))%Z)
               l
             = List.filter
                 (fun c => (t - timedelta_days
                                  (default 30%Z
                                     (COMPLETED_TASKS_DAYS_TO_KEEP ext))
                            <=? run_at c)%Z) l).
  { intros l. apply filter_ext. intros c. rewrite Z.leb_antisym.
    reflexivity. }
  split; [apply Hf|]. repeat (split; [reflexivity|]).
  intros Hnow'. rewrite Hnow', !Hf.
  induction (db_completed w) as [|c l IH]; [reflexivity|].
  cbn [List.filter].
  destruct (_ <=? run_at c)%Z eqn:Hc; [|exact IH].
  cbn [List.filter]. rewrite Hc. f_equal. exact IH.
Qed.

Lemma cleanup_completed_tasks_keeps_witness :
  exists w',
    cleanup_completed_tasks (Demo.externals Demo.today None None "22")
      (with_completed
         [Demo.failed_task "" "old";
          mkTask "sync.tasks.download_media" "" "" 0 "" Demo.today None ""]
         Demo.retention_world)
    = (Ok tt, w')
    /\ db_completed w'
       = [mkTask "sync.tasks.download_media" "" "" 0 "" Demo.today None ""].
Proof.
  destruct (cleanup_completed_tasks_keeps
              (Demo.externals Demo.today None None "22")
              (with_completed
                 [Demo.failed_task "" "old";
                  mkTask "sync.tasks.download_media" "" "" 0 "" Demo.today
                    None ""]
                 Demo.retention_world)
              Demo.today eq_refl) as (w' & Hrun & Hkept & _).
  exists w'. split; [exact Hrun|]. rewrite Hkept. reflexivity.
Defined.

(** ** The index loop *)

Section IndexLoop.

Variable ext : Externals.

Lemma filter_one {A : Type} (f : A -> bool) (l : list A) (x : A) :
  List.NoDup l -> In x l -> f x = true ->
  (forall y, In y l -> f y = true -> y = x) ->
  List.filter f l = [x].
Proof.
  induction l as [|a l IH]; intros Hnd Hin Hfx Huniq; [destruct Hin|].
  apply List.NoDup_cons_iff in Hnd as [Hnotin Hnd]. cbn [List.filter].
  destruct (f a) eqn:Hfa.
  - assert (a = x) by (apply Huniq; [left; reflexivity | exact Hfa]).
    subst a. f_equal.
    destruct (List.filter f l) as [|y l'] eqn:Hl; [reflexivity|].
    assert (Hy : In y (List.filter f l)) by (rewrite Hl; left; reflexivity).
    apply filter_In in Hy as [Hy Hfy].
    assert (y = x) by (apply Huniq; [right; exact Hy | exact Hfy]).
    subst y. contradiction.
  - destruct Hin as [->|Hin]; [congruence|].
    apply IH; auto. intros y Hy. apply Huniq. right. exact Hy.
Qed.

(** [Media.objects.get] finds the row of a key and source when the pair is
    unique. *)
Lemma media_get_known (w : World) (k : N) (m : Media.t) :
  unique_keys w -> db_media w !! k = Some m ->
  media_get w (Media.key m) (Media.source m) = Ok (Some (k, m)).
Proof.
  intros Huniq Hk. unfold media_get.
  rewrite (filter_one _ _ (k, m)); [reflexivity| | | |].
  - apply NoDup_ListNoDup, NoDup_map_to_list.
  - apply list_elem_of_In, elem_of_map_to_list, Hk.
  - cbn [fst snd]. rewrite String.eqb_refl, N.eqb_refl. reflexivity.
  - intros [k' m'] Hin Hf. cbn [fst snd] in Hf.
    apply list_elem_of_In, elem_of_map_to_list in Hin.
    apply andb_true_iff in Hf as [Hkey Hsrc].
    apply String.eqb_eq in Hkey. apply N.eqb_eq in Hsrc.
    assert (k' = k) by (apply (Huniq k' m' k m); auto). subst k'.
    rewrite Hk in Hin. injection Hin as ->. reflexivity.
Qed.

(** What [Media.objects.get] answers when the pairs are unique: a row of
    that key and source, or that there is none. *)
Lemma media_get_unique (w : World) (key : string) (source_id : N) :
  unique_keys w ->
  (exists k m, media_get w key source_id = Ok (Some (k, m))
               /\ db_media w !! k = Some m
               /\ Media.key m = key /\ Media.source m = source_id)
  \/ (media_get w key source_id = Ok None
      /\ forall k m, db_media w !! k = Some m -> Media.key m = key ->
                     Media.source m <> source_id).
Proof.
  intros Huniq.
  destruct (List.filter
              (fun m => String.eqb (Media.key (snd m)) key
                        && (Media.source (snd m) =? source_id)%N)
              (map_to_list (db_media w))) as [|[k m] l] eqn:Hl.
  - right. split; [unfold media_get; rewrite Hl; reflexivity|].
    intros k m Hk Hkey Hsrc.
    assert (Hin : In (k, m) []).
    { rewrite <- Hl. apply filter_In. split.
      - apply list_elem_of_In, elem_of_map_to_list, Hk.
      - cbn [fst snd]. rewrite Hkey, Hsrc, String.eqb_refl, N.eqb_refl.
        reflexivity. }
    destruct Hin.
  - left. exists k, m.
    assert (Hin : In (k, m) (List.filter
              (fun m => String.eqb (Media.key (snd m)) key
                        && (Media.source (snd m) =? source_id)%N)
              (map_to_list (db_media w)))) by (rewrite Hl; left; reflexivity).
    apply filter_In in Hin as [Hk Hf]. cbn [fst snd] in Hf.
    apply list_elem_of_In, elem_of_map_to_list in Hk.
    apply andb_true_iff in Hf as [Hkey Hsrc].
    apply String.eqb_eq in Hkey. apply N.eqb_eq in Hsrc. subst key source_id.
    split; [apply media_get_known; assumption | auto].
Qed.

Lemma set_source_same (m : Media.t) : Media.set_source (Media.source m) m = m.
Proof. destruct m. reflexivity. Qed.

Lemma index_video_keyless (source : N * Source.t) (v : video) (w : World) :
  keyless source v -> index_video ext source v w = (Ok tt, w).
Proof.
  intros [H|H]; unfold index_video; rewrite H; reflexivity.
Qed.

Lemma index_video_known (source : N * Source.t) (v : video) (w : World)
  (k : N) (m : Media.t) :
  unique_keys w -> db_media w !! k = Some m ->
  v !! Source.key_field (snd source) = Some (Media.key m) ->
  Media.key m <> "" -> Media.source m = fst source ->
  index_video ext source v w
  = (Ok tt, with_effects (effects w ++ [SaveMedia k m]) w).
Proof.
  intros Huniq Hk Hv Hkey Hsrc. unfold index_video. rewrite Hv.
  destruct (Media.key m) as [|c key'] eqn:Hkeym; [contradiction|].
  cbn [PyStr.truthy negb]. rewrite (bind_ok get _ w _ _ eq_refl).
  rewrite <- Hkeym, <- Hsrc.
  rewrite (bind_ok (lift _) _ w w (Some (k, m)));
    [|unfold lift; rewrite (media_get_known w k m Huniq Hk); reflexivity].
  cbn [fst snd]. rewrite set_source_same. unfold media_save. mstep.
  cbn [db_media with_effects]. rewrite (insert_id _ _ _ Hk).
  destruct w. reflexivity.
Qed.

Lemma index_video_new (source : N * Source.t) (v : video) (w : World)
  (key : string) :
  v !! Source.key_field (snd source) = Some key -> key <> "" ->
  media_get w key (fst source) = Ok None ->
  index_video ext source v w
  = (Ok tt,
     match db_media w !! uuid4 ext (drawn w) with
     | Some _ => with_drawn (S (drawn w)) w
     | None =>
         with_media
           (<[uuid4 ext (drawn w) := new_media (fst source) key]> (db_media w))
           (with_effects
              (effects w
               ++ [SaveMedia (uuid4 ext (drawn w)) (new_media (fst source) key)])
              (with_drawn (S (drawn w)) w))
     end).
Proof.
  intros Hv Hkey Hget. unfold index_video. rewrite Hv.
  destruct key as [|c key']; [contradiction|].
  cbn [PyStr.truthy negb]. rewrite (bind_ok get _ w _ _ eq_refl).
  rewrite (bind_ok (lift _) _ w w None);
    [|unfold lift; rewrite Hget; reflexivity].
  cbv zeta. rewrite (bind_ok (modify _) _ w _ tt eq_refl).
  destruct (db_media w !! uuid4 ext (drawn w)); reflexivity.
Qed.

(** One item of the enumeration, on a table with unique pairs: the step
    returns, keeps the pairs unique and every row as it was, and adds at
    most the row of a new key of this source, under the key drawn for it. *)
Lemma index_video_step (source : N * Source.t) (v : video) (w : World) :
  unique_keys w ->
  exists w',
    index_video ext source v w = (Ok tt, w')
    /\ unique_keys w'
    /\ db_sources w' = db_sources w
    /\ (forall k m, db_media w !! k = Some m -> db_media w' !! k = Some m)
    /\ (forall k m,
          db_media w' !! k = Some m ->
          db_media w !! k = Some m
          \/ (db_media w !! k = None
              /\ m = new_media (fst source) (Media.key m)
              /\ v !! Source.key_field (snd source) = Some (Media.key m)))
    /\ (keyless source v \/ indexed w source v ->
        db_media w' = db_media w /\ drawn w' = drawn w).
Proof.
  intros Huniq.
  destruct (v !! Source.key_field (snd source)) as [key|] eqn:Hv.
  2:{ exists w. rewrite index_video_keyless by (left; exact Hv).
      repeat split; auto. }
  destruct (String.eqb_spec key "") as [->|Hkey].
  { exists w. rewrite index_video_keyless by (right; exact Hv).
    repeat split; auto. }
  destruct (media_get_unique w key (fst source) Huniq)
    as [(k & m & Hget & Hk & Hkm & Hsm)|[Hget Hnone]].
  - subst key. eexists.
    split; [apply (index_video_known source v w k m); auto|].
    cbn [db_media db_sources with_effects drawn].
    repeat split; auto.
  - rewrite (index_video_new source v w key Hv Hkey Hget).
    assert (Hfresh : ~ indexed w source v).
    { intros (k & m & Hk & Hvm & Hsm). rewrite Hv in Hvm.
      injection Hvm as ->. exact (Hnone k m Hk eq_refl Hsm). }
    assert (Hkeyed : ~ keyless source v).
    { intros [H|H]; rewrite Hv in H; congruence. }
    destruct (db_media w !! uuid4 ext (drawn w)) as [taken|] eqn:Hpk.
    + eexists. split; [reflexivity|].
      cbn [db_media db_sources with_drawn].
      split; [exact Huniq|]. split; [reflexivity|]. split; [auto|].
      split; [auto|]. intros [H|H]; contradiction.
    + eexists. split; [reflexivity|].
      cbn [db_media db_sources with_media with_effects with_drawn].
      split; [|split; [reflexivity|split; [|split]]].
      * intros k1 m1 k2 m2 H1 H2 Hkeys Hsrcs.
        cbn [db_media with_media] in H1, H2.
        apply lookup_insert_Some in H1 as [[<- <-]|[Hne1 H1]];
          apply lookup_insert_Some in H2 as [[<- <-]|[Hne2 H2]].
        -- reflexivity.
        -- exfalso. apply (Hnone k2 m2 H2); [symmetry; exact Hkeys|].
           symmetry. exact Hsrcs.
        -- exfalso. apply (Hnone k1 m1 H1); [exact Hkeys | exact Hsrcs].
        -- exact (Huniq k1 m1 k2 m2 H1 H2 Hkeys Hsrcs).
      * intros k m Hk. rewrite lookup_insert_ne; [exact Hk|].
        intros <-. rewrite Hpk in Hk. discriminate.
      * intros k m Hk. apply lookup_insert_Some in Hk as [[<- <-]|[_ Hk]].
        -- right. split; [exact Hpk|]. split; reflexivity.
        -- left. exact Hk.
      * intros [H|H]; contradiction.
Qed.

End IndexLoop.

(** A table of one row has unique pairs. *)
Lemma demo_single_unique (s : Source.t) (k0 : N) (m0 : Media.t) :
  unique_keys (Demo.world s [(k0, m0)]).
Proof.
  intros k1 m1 k2 m2 H1 H2 _ _.
  apply elem_of_list_to_map_2, list_elem_of_singleton in H1.
  apply elem_of_list_to_map_2, list_elem_of_singleton in H2.
  congruence.
Qed.

(** X10.  On a media table whose (source, key) pairs are unique, the index
    loop returns without raising; the pairs are still unique after it; no
    row that was there is deleted or changed, and the sources are not
    written; every row it adds is a fresh row of the indexed source, nothing
    fetched or downloaded, whose key is the key of an enumerated item. *)
Theorem index_loop_keeps_unique (ext : Externals) (source : N * Source.t)
  (videos : list video) (w : World) :
  unique_keys w ->
  exists w',
    for_each videos (index_video ext source) w = (Ok tt, w')
    /\ unique_keys w'
    /\ db_sources w' = db_sources w
    /\ (forall k m, db_media w !! k = Some m -> db_media w' !! k = Some m)
    /\ (forall k m,
          db_media w' !! k = Some m ->
          db_media w !! k = Some m
          \/ (db_media w !! k = None
              /\ m = new_media (fst source) (Media.key m)
              /\ exists v, v ∈ videos
                           /\ v !! Source.key_field (snd source)
                              = Some (Media.key m))).
Proof.
  revert w. induction videos as [|v videos IH]; intros w Huniq.
  - exists w. repeat split; auto.
  - destruct (index_video_step ext source v w Huniq)
      as (w1 & Hrun1 & Huniq1 & Hsrc1 & Hkeep1 & Hnew1 & _).
    destruct (IH w1 Huniq1) as (w' & Hrun & Huniq' & Hsrc & Hkeep & Hnew).
    exists w'. split.
    { cbn [for_each]. rewrite (bind_ok _ _ _ _ _ Hrun1). exact Hrun. }
    split; [exact Huniq'|]. split; [congruence|]. split; [auto|].
    intros k m Hk. destruct (Hnew k m Hk) as [Hk1|(Hk1 & Hm & v' & Hv' & Hkey)].
    + destruct (Hnew1 k m Hk1) as [H|(Hnone & Hm & Hkey)]; [left; exact H|].
      right. split; [exact Hnone|]. split; [exact Hm|].
      exists v. split; [left | exact Hkey].
    + right. split.
      * destruct (db_media w !! k) as [m0|] eqn:Hk0; [|reflexivity].
        rewrite (Hkeep1 k m0 Hk0) in Hk1. discriminate.
      * split; [exact Hm|]. exists v'. split; [right; exact Hv' | exact Hkey].
Qed.

Lemma index_loop_keeps_unique_witness :
  exists w',
    for_each [Demo.vid "abc"; Demo.vid "new"]
      (index_video (Demo.externals Demo.today None None "22")
         (1%N, Demo.source None 0))
      (Demo.world (Demo.source None 0) [(10%N, Demo.unfetched_item)])
    = (Ok tt, w')
    /\ unique_keys w'
    /\ db_media w' !! 10%N = Some Demo.unfetched_item.
Proof.
  pose proof (demo_single_unique (Demo.source None 0) 10%N
                Demo.unfetched_item) as Huniq.
  destruct (index_loop_keeps_unique (Demo.externals Demo.today None None "22")
              (1%N, Demo.source None 0) [Demo.vid "abc"; Demo.vid "new"]
              (Demo.world (Demo.source None 0) [(10%N, Demo.unfetched_item)])
              Huniq) as (w' & Hrun & Huniq' & _ & Hkeep & _).
  exists w'. split; [exact Hrun|]. split; [exact Huniq'|].
  apply Hkeep. reflexivity.
Defined.

(** X11.  Indexing is idempotent on what is known: when the (source, key)
    pairs are unique and every enumerated item either has no key or has the
    key of a row of the source, the index loop leaves the media table and
    the sources exactly as they were and draws no new primary key. *)
Theorem index_loop_idempotent (ext : Externals) (source : N * Source.t)
  (videos : list video) (w : World) :
  unique_keys w ->
  (forall v, v ∈ videos -> keyless source v \/ indexed w source v) ->
  exists w',
    for_each videos (index_video ext source) w = (Ok tt, w')
    /\ db_media w' = db_media w
    /\ db_sources w' = db_sources w
    /\ drawn w' = drawn w.
Proof.
  intros Huniq Hknown.
  destruct (for_each_invariant
              (fun w0 => db_media w0 = db_media w
                         /\ db_sources w0 = db_sources w
                         /\ drawn w0 = drawn w)
              (index_video ext source) videos) with (w := w)
    as (w' & Hrun & Hinv); [|auto|exists w'; auto].
  intros v w0 Hv (Hm & Hs & Hd).
  assert (Huniq0 : unique_keys w0).
  { intros k1 m1 k2 m2. rewrite Hm. apply Huniq. }
  destruct (index_video_step ext source v w0 Huniq0)
    as (w1 & Hrun1 & _ & Hsrc1 & _ & _ & Hsame).
  exists w1. split; [exact Hrun1|].
  destruct Hsame as [Hm1 Hd1].
  { destruct (Hknown v Hv) as [H|(k & m & Hk & Hkey & Hsm)]; [left; exact H|].
    right. exists k, m. rewrite Hm. auto. }
  repeat split; congruence.
Qed.

Lemma index_loop_idempotent_witness :
  exists w',
    for_each [Demo.vid "abc"; ∅]
      (index_video (Demo.externals Demo.today None None "22")
         (1%N, Demo.source None 0))
      (Demo.world (Demo.source None 0) [(10%N, Demo.unfetched_item)])
    = (Ok tt, w')
    /\ db_media w'
       = db_media (Demo.world (Demo.source None 0)
                     [(10%N, Demo.unfetched_item)]).
Proof.
  pose proof (demo_single_unique (Demo.source None 0) 10%N
                Demo.unfetched_item) as Huniq.
  destruct (index_loop_idempotent (Demo.externals Demo.today None None "22")
              (1%N, Demo.source None 0) [Demo.vid "abc"; ∅]
              (Demo.world (Demo.source None 0) [(10%N, Demo.unfetched_item)])
              Huniq) as (w' & Hrun & Hmedia & _).
  { intros v Hv. apply elem_of_cons in Hv as [->|Hv].
    - right. exists 10%N, Demo.unfetched_item. repeat split.
    - apply list_elem_of_singleton in Hv as ->. left. left. reflexivity. }
  exists w'. split; [exact Hrun | exact Hmedia].
Defined.

Section IndexTaskFrames.

Variable ext : Externals.

Lemma index_video_sources (source : N * Source.t) (v : video) :
  preserves (agree db_sources) (index_video ext source v).
Proof. unfold index_video. frame. Qed.

Lemma cleanup_completed_tasks_sources :
  preserves (agree db_sources) (cleanup_completed_tasks ext).
Proof. unfold cleanup_completed_tasks. frame. Qed.

Lemma cleanup_removed_media_sources (source : N * Source.t)
  (videos : list video) :
  preserves (agree db_sources) (cleanup_removed_media source videos).
Proof. unfold cleanup_removed_media. frame. Qed.

End IndexTaskFrames.

(** X12.  An item with a new key is indexed under the primary key drawn for
    it: the row is a fresh one of the source, [Media.objects.get] finds it
    from then on, and indexing the item again only saves that row.  But when
    the drawn primary key is already taken, the error of the insert is
    swallowed: the item gets no row, nothing is written but the draw, and
    the loop goes on. *)
Theorem index_video_new_item (ext : Externals) (source : N * Source.t)
  (v : video) (w : World) (key : string) :
  unique_keys w ->
  v !! Source.key_field (snd source) = Some key -> key <> "" ->
  (forall k m, db_media w !! k = Some m -> Media.key m = key ->
               Media.source m <> fst source) ->
  (db_media w !! uuid4 ext (drawn w) = None ->
   exists w',
     index_video ext source v w = (Ok tt, w')
     /\ drawn w' = S (drawn w)
     /\ db_media w' !! uuid4 ext (drawn w) = Some (new_media (fst source) key)
     /\ media_get w' key (fst source)
        = Ok (Some (uuid4 ext (drawn w), new_media (fst source) key))
     /\ index_video ext source v w'
        = (Ok tt,
           with_effects
             (effects w'
              ++ [SaveMedia (uuid4 ext (drawn w)) (new_media (fst source) key)])
             w'))
  /\ (is_Some (db_media w !! uuid4 ext (drawn w)) ->
      index_video ext source v w = (Ok tt, with_drawn (S (drawn w)) w)).
Proof.
  intros Huniq Hv Hkey Hnone.
  assert (Hget : media_get w key (fst source) = Ok None).
  { destruct (media_get_unique w key (fst source) Huniq)
      as [(k & m & _ & Hk & Hkm & Hsm)|[Hget _]]; [|exact Hget].
    exfalso. exact (Hnone k m Hk Hkm Hsm). }
  pose proof (index_video_new ext source v w key Hv Hkey Hget) as Hrun.
  split.
  - intros Hfree. rewrite Hfree in Hrun.
    destruct (index_video_step ext source v w Huniq)
      as (w' & Hrun' & Huniq' & _).
    rewrite Hrun in Hrun'. injection Hrun' as Hw'.
    exists w'. rewrite Hrun, Hw'. split; [reflexivity|].
    assert (Hrow : db_media w' !! uuid4 ext (drawn w)
                   = Some (new_media (fst source) key)).
    { rewrite <- Hw'. cbn. apply lookup_insert_eq. }
    split; [rewrite <- Hw'; reflexivity|]. split; [exact Hrow|].
    split.
    + exact (media_get_known w' _ _ Huniq' Hrow).
    + apply (index_video_known ext source v w' _ _ Huniq' Hrow);
        [exact Hv | exact Hkey | reflexivity].
  - intros [taken Htaken]. rewrite Htaken in Hrun. exact Hrun.
Qed.

Lemma index_video_new_item_witness :
  index_video (Demo.externals Demo.today None None "22")
    (1%N, Demo.source None 0) (Demo.vid "new")
    (Demo.world (Demo.source None 0) [(1000%N, Demo.unfetched_item)])
  = (Ok tt,
     with_drawn 1
       (Demo.world (Demo.source None 0) [(1000%N, Demo.unfetched_item)])).
Proof.
  apply (proj2 (index_video_new_item
                  (Demo.externals Demo.today None None "22")
                  (1%N, Demo.source None 0) (Demo.vid "new")
                  (Demo.world (Demo.source None 0)
                     [(1000%N, Demo.unfetched_item)])
                  "new"
                  (demo_single_unique _ _ _) eq_refl
                  ltac:(discriminate)
                  ltac:(intros k m Hk Hkey;
                        apply elem_of_list_to_map_2,
                          list_elem_of_singleton in Hk;
                        injection Hk as -> ->; discriminate Hkey))).
  exists Demo.unfetched_item. reflexivity.
Defined.

(** X13.  On a source that exists, once the enumeration has returned items
    the source is saved with [last_crawl] at the instant the clock read then
    and [has_failed] false, and nothing that follows (the index loop, the
    three sweeps, an exception in any of them) writes a source: that is the
    sources table at the end of the run. *)
Theorem index_source_task_crawl_stamp (ext : Externals) (w : World)
  (source_id : N) (row : Source.t) (v : video) (l : list video) :
  db_sources w !! source_id = Some row ->
  index_media ext source_id (Source.set_has_failed false row)
  = Ok (Some (v :: l)) ->
  db_sources (snd (index_source_task ext source_id w))
  = <[source_id := Source.set_last_crawl (Some (now ext (ticks w)))
                     (Source.set_has_failed false row)]> (db_sources w).
Proof.
  intros Hrow Hidx. unfold index_source_task.
  rewrite (bind_ok get _ w _ _ eq_refl). rewrite Hrow. cbv zeta.
  rewrite (bind_ok (source_save _ _) _ w _ _ eq_refl).
  rewrite (bind_ok (emit _) _ _ _ _ eq_refl).
  erewrite (bind_ok (lift _) _ _ _ (Some (v :: l)));
    [|unfold lift; rewrite Hidx; reflexivity].
  rewrite (bind_ok (timezone_now ext) _ _ _ _ eq_refl).
  rewrite (bind_ok (source_save _ _) _ _ _ _ eq_refl).
  match goal with |- db_sources (snd (?m ?w2)) = _ =>
    assert (Hframe : preserves (agree db_sources) m)
  end.
  { frame;
      first [ apply index_video_sources
            | apply cleanup_completed_tasks_sources
            | apply (cleanup_old_media_agree ext db_sources); reflexivity
            | apply cleanup_removed_media_sources ]. }
  rewrite Hframe. cbn. apply insert_insert_eq.
Qed.

Lemma index_source_task_crawl_stamp_witness :
  db_sources
    (snd (index_source_task
            (Demo.externals Demo.today (Some [Demo.vid "abc"]) None "22") 1%N
            (Demo.world (Demo.source None 0) [])))
  !! 1%N
  = Some (Source.set_last_crawl (Some Demo.today)
            (Source.set_has_failed false (Demo.source None 0))).
Proof.
  rewrite (index_source_task_crawl_stamp
             (Demo.externals Demo.today (Some [Demo.vid "abc"]) None "22")
             (Demo.world (Demo.source None 0) []) 1%N (Demo.source None 0)
             (Demo.vid "abc") [] eq_refl eq_refl).
  apply lookup_insert_eq.
Defined.

(** ** [download_media_metadata]: what is saved *)

Section MetadataFacts.

Variable ext : Externals.

Lemma set_skip_or (b : bool) (x : Media.t) :
  (if b then Media.set_skip true x else x)
  = Media.set_skip (Media.skip x || b) x.
Proof. destruct x as [? ? [] ?], b; reflexivity. Qed.

(** The retention check of [download_media_metadata], as one step: the row
    goes on marked by the check, and the clock is read when the check has a
    publish date to compare. *)
Lemma retention_step (source : Source.t) (x : Media.t) (k : Media.t -> M unit)
  (w : World) :
  exists w1,
    bind
      (if Source.delete_old_media source && (0 <? Source.days_to_keep source)%Z
       then
         match Media.published x with
         | None => ret (Media.set_skip true x)
         | Some published =>
             (t <- timezone_now ext ;;
              ret (if (published
                       <? t - timedelta_days (Source.days_to_keep source))%Z
                   then Media.set_skip true x else x))%task
         end
       else ret x) k w
    = k (Media.set_skip
           (Media.skip x
            || (Source.delete_old_media source
                && (0 <? Source.days_to_keep source)%Z
                && match Media.published x with
                   | Some p =>
                       (p <? now ext (ticks w)
                             - timedelta_days (Source.days_to_keep source))%Z
                   | None => true
                   end)) x) w1
    /\ db_media w1 = db_media w /\ db_sources w1 = db_sources w
    /\ effects w1 = effects w.
Proof.
  destruct (Source.delete_old_media source && (0 <? Source.days_to_keep source)%Z).
  - destruct (Media.published x) as [p|].
    + exists (with_ticks (S (ticks w)) w). split; [|auto].
      unfold bind, timezone_now, ret. cbn [andb].
      rewrite set_skip_or. reflexivity.
    + exists w. split; [|auto]. unfold bind, ret. cbn [andb].
      rewrite <- (set_skip_or true x). reflexivity.
  - exists w. split; [|auto]. unfold bind, ret. cbn [andb].
    rewrite <- (set_skip_or false x). reflexivity.
Qed.

End MetadataFacts.

(** X14.  When the row is there and not manually skipped, its source is
    there and the extractor returns, [download_media_metadata] saves the row
    with the new metadata; with the publish date of the upload date, or the
    old one when there is no upload date; marked [skip] exactly by
    [metadata_skip], so never unmarked; with [can_download] untouched when
    it is marked [skip] and otherwise telling whether a format was found.
    The key, the source and the download state of the row, the other rows
    and the sources stay as they were. *)
Theorem download_media_metadata_saves (ext : Externals) (w : World)
  (media_id : N) (media : Media.t) (source : Source.t) (metadata : string) :
  db_media w !! media_id = Some media ->
  Media.manual_skip media = false ->
  db_sources w !! Media.source media = Some source ->
  index_metadata ext media_id media = Ok metadata ->
  exists w' row,
    download_media_metadata ext media_id w = (Ok tt, w')
    /\ db_media w' = <[media_id := row]> (db_media w)
    /\ db_sources w' = db_sources w
    /\ Media.metadata row = Some metadata
    /\ Media.published row
       = match upload_date ext (Media.set_metadata (Some metadata) media) with
         | Some d => Some (make_aware ext d)
         | None => Media.published media
         end
    /\ Media.skip row
       = metadata_skip ext (now ext (ticks w)) source media
           (upload_date ext (Media.set_metadata (Some metadata) media))
    /\ (Media.skip row = true -> Media.can_download row = Media.can_download media)
    /\ (Media.skip row = false ->
        Media.can_download row
        = PyStr.truthy_opt
            (get_format_str ext source
               (Media.set_can_download (Media.can_download media) row)))
    /\ Media.key row = Media.key media
    /\ Media.source row = Media.source media
    /\ Media.downloaded row = Media.downloaded media
    /\ Media.media_file row = Media.media_file media.
Proof.
  intros Hmedia Hmanual Hsource Hmeta.
  unfold download_media_metadata, metadata_skip.
  rewrite (bind_ok get _ w _ _ eq_refl). rewrite Hmedia, Hmanual.
  rewrite (bind_ok (media_source media) _ w w source).
  2:{ unfold media_source. rewrite (bind_ok get _ w _ _ eq_refl).
      rewrite Hsource. reflexivity. }
  rewrite (bind_ok (emit _) _ _ _ _ eq_refl).
  erewrite (bind_ok (lift (index_metadata ext media_id media)) _ _ _ metadata);
    [|unfold lift; rewrite Hmeta; reflexivity].
  cbv zeta.
  match goal with
  | |- context [bind (if _ then match Media.published ?x with
                                | Some _ => _ | None => _ end
                      else _) ?k ?w0] =>
      destruct (retention_step ext source x k w0)
        as (w1 & Hstep & Hm1 & Hs1 & _)
  end.
  rewrite Hstep. clear Hstep.
  eexists. eexists. split; [reflexivity|].
  cbn [db_media db_sources with_media with_effects snd].
  rewrite Hm1, Hs1. cbn [db_media db_sources with_effects ticks].
  split; [reflexivity|]. split; [reflexivity|].
  destruct media as [src key skip manual can dl file thumb meta pub date size
                     cont fmt hgt wid ac vc fps hdr].
  destruct (upload_date ext _) as [d|];
    destruct (Source.download_cap_date source) as [cap|];
    destruct pub as [p|]; destruct skip;
    destruct (Source.delete_old_media source);
    destruct (0 <? Source.days_to_keep source)%Z;
    cbn;
    repeat (match goal with
            | |- context [(?a <? ?b)%Z] => destruct (a <? b)%Z
            end; cbn);
    repeat split; try reflexivity; try discriminate.
Qed.

Lemma download_media_metadata_saves_witness :
  exists w' row,
    download_media_metadata
      (Demo.externals Demo.today None (Some Demo.jun_2023) "22") 10%N
      (Demo.world (Demo.source None 7) [(10%N, Demo.unfetched_item)])
    = (Ok tt, w')
    /\ db_media w' !! 10%N = Some row
    /\ Media.published row = Some Demo.jun_2023
    /\ Media.skip row = true
    /\ Media.can_download row = false.
Proof.
  destruct (download_media_metadata_saves
              (Demo.externals Demo.today None (Some Demo.jun_2023) "22")
              (Demo.world (Demo.source None 7) [(10%N, Demo.unfetched_item)])
              10%N Demo.unfetched_item (Demo.source None 7) "{}"
              eq_refl eq_refl eq_refl eq_refl)
    as (w' & row & Hrun & Hmedia & _ & _ & Hpub & Hskip & Hcan & _).
  exists w', row. split; [exact Hrun|]. split.
  - rewrite Hmedia. apply lookup_insert_eq.
  - split; [exact Hpub|]. split; [exact Hskip|]. apply Hcan. exact Hskip.
Defined.

(** ** [download_media]: failure, success and running again *)

Section DownloadRun.

Variable ext : Externals.

(** The parsing of the format string writes the format fields only. *)
Lemma set_downloaded_formats_frame (format_str container : string)
  (x row : Media.t) :
  set_downloaded_formats ext format_str container x = Ok row ->
  Media.key row = Media.key x /\ Media.source row = Media.source x
  /\ Media.skip row = Media.skip x
  /\ Media.manual_skip row = Media.manual_skip x
  /\ Media.can_download row = Media.can_download x
  /\ Media.downloaded row = Media.downloaded x
  /\ Media.media_file row = Media.media_file x
  /\ Media.thumb row = Media.thumb x
  /\ Media.metadata row = Media.metadata x
  /\ Media.published row = Media.published x
  /\ Media.download_date row = Media.download_date x
  /\ Media.downloaded_filesize row = Media.downloaded_filesize x.
Proof.
  unfold set_downloaded_formats. destruct (PyStr.contains "+" format_str).
  - destruct (PyStr.split "+" format_str) as [|v [|a [|? ?]]];
      try discriminate.
    destruct (get_format_by_code ext x v) as [vf|]; [|discriminate].
    destruct (get_format_by_code ext x a) as [af|]; [|discriminate].
    cbn [subscript rbind]. intros [= <-]. destruct x. repeat split.
  - cbv zeta. destruct (get_format_by_code ext x format_str) as [cf|];
      [|discriminate].
    cbn [subscript rbind]. destruct (PyStr.truthy_opt (vcodec cf));
      intros [= <-]; destruct x; repeat split.
Qed.

(** Queueing the rescans writes the pending tasks, the clock and the trace
    only. *)
Lemma schedule_rescans_frame (l : list (N * string)) (queue : string)
  (w : World) :
  exists w',
    for_each l (fun mediaserver => schedule_rescan ext mediaserver queue) w
    = (Ok tt, w')
    /\ db_media w' = db_media w /\ db_sources w' = db_sources w
    /\ db_mediaservers w' = db_mediaservers w
    /\ db_completed w' = db_completed w.
Proof.
  apply (for_each_invariant
           (fun w0 => db_media w0 = db_media w /\ db_sources w0 = db_sources w
                      /\ db_mediaservers w0 = db_mediaservers w
                      /\ db_completed w0 = db_completed w));
    [|auto].
  intros x w0 _ Hw0. eexists. split; [reflexivity|]. exact Hw0.
Qed.

(** [download_media] up to the format string, with the row it holds and the
    world at that point; and from the parsed row on, where it saves the row
    and queues the rescans. *)
Lemma download_media_reaches (w : World) (media_id : N) (media : Media.t)
  (source : Source.t) (format_str container : string) :
  download_runs ext w media_id media source format_str container ->
  exists k,
    download_media ext media_id w
    = bind (lift (set_downloaded_formats ext format_str container
                    (staged_download ext (now ext (ticks w)) source media
                       container)))
        k
        (with_ticks (S (ticks w))
           (with_effects (effects w ++ [CallDownloadMedia media_id]) w))
    /\ (forall row w0,
          exists w',
            k row w0 = (Ok tt, w')
            /\ db_media w' = <[media_id := row]> (db_media w0)
            /\ db_sources w' = db_sources w0
            /\ db_mediaservers w' = db_mediaservers w0
            /\ db_completed w' = db_completed w0).
Proof.
  intros (Hmedia & Hskip & Hdone & Hsource & Hon & Hcap & Hrun & Hfile).
  eexists. split.
  - unfold download_media.
    rewrite (bind_ok get _ w _ _ eq_refl). rewrite Hmedia, Hskip, Hdone.
    rewrite (bind_ok (media_source media) _ w w source).
    2:{ unfold media_source. rewrite (bind_ok get _ w _ _ eq_refl).
        rewrite Hsource. reflexivity. }
    rewrite Hon. cbn [negb]. cbv zeta. rewrite Hcap.
    rewrite (bind_ok (emit _) _ _ _ _ eq_refl).
    erewrite (bind_ok (lift (run_download ext media_id source media)) _ _ _
                (format_str, container));
      [|unfold lift; rewrite Hrun; reflexivity].
    rewrite Hfile.
    rewrite (bind_ok (timezone_now ext) _ _ _ _ eq_refl).
    cbn [fst snd ticks with_effects]. reflexivity.
  - intros row w0. cbv beta.
    rewrite (bind_ok (media_save media_id row) _ w0 _ _ eq_refl).
    match goal with |- context [bind (if ?c then _ else _) _ ?w1] =>
      rewrite (bind_ok (if c then _ else _) _ w1
                 (if c then with_effects
                              (effects w1
                               ++ [CopyFile (thumb_path ext row)
                                     (thumbpath ext source row)]) w1
                  else w1) tt) by (destruct c; reflexivity)
    end.
    match goal with |- context [bind (if ?c then _ else _) _ ?w1] =>
      rewrite (bind_ok (if c then _ else _) _ w1
                 (if c then with_effects
                              (effects w1
                               ++ [WriteTextFile (nfopath ext source row)
                                     (nfoxml ext source row)]) w1
                  else w1) tt) by (destruct c; reflexivity)
    end.
    rewrite (bind_ok get _ _ _ _ eq_refl).
    match goal with |- context [for_each ?l _ ?w1] =>
      destruct (schedule_rescans_frame l (str_uuid (Media.source row)) w1)
        as (w' & Hloop & Hm & Hs & Hms & Hc)
    end.
    exists w'. split; [exact Hloop|]. rewrite Hm, Hs, Hms, Hc.
    destruct (Source.copy_thumbnails source && PyStr.truthy (Media.thumb row)),
      (Source.write_nfo source); cbn; auto.
Qed.

(** A row marked downloaded, with a file, and not skipped is left alone. *)
Lemma download_media_done (w : World) (media_id : N) (row : Media.t) :
  db_media w !! media_id = Some row ->
  Media.downloaded row = true -> Media.media_file row <> "" ->
  download_media ext media_id w = (Ok tt, w).
Proof.
  intros Hrow Hd Hfile. unfold download_media.
  rewrite (bind_ok get _ w _ _ eq_refl). rewrite Hrow, Hd.
  destruct (Media.skip row); [reflexivity|].
  destruct (Media.media_file row); [contradiction | reflexivity].
Qed.

End DownloadRun.

(** X15.  When [download_media] gets past its early returns and the
    downloader returns, each of these makes the stage raise before anything
    is saved: a missing file ([DownloadFailedException]); a format string
    with a ['+'] that does not split into two codes ([ValueError]); two
    codes of which one names no format of the row in hand, and a single
    code that names none ([TypeError]).  Every table is as it was, the row
    is not marked downloaded, and the trace holds the call of the downloader
    only. *)
Theorem download_media_failure_saves_nothing (ext : Externals) (w : World)
  (media_id : N) (media : Media.t) (source : Source.t)
  (format_str container : string) :
  db_media w !! media_id = Some media ->
  Media.skip media = false ->
  Media.downloaded media && PyStr.truthy (Media.media_file media) = false ->
  db_sources w !! Media.source media = Some source ->
  Source.download_media source = true ->
  capped (Source.download_cap_date source) (Media.published media) = false ->
  run_download ext media_id source media = Ok (format_str, container) ->
  forall e,
    (path_exists ext (filepath ext source media) = false
     /\ e = DownloadFailedException)
    \/ (path_exists ext (filepath ext source media) = true
        /\ PyStr.contains "+" format_str = true
        /\ length (PyStr.split "+" format_str) <> 2%nat
        /\ e = ValueError)
    \/ (path_exists ext (filepath ext source media) = true
        /\ PyStr.contains "+" format_str = true
        /\ (exists vcode acode,
              PyStr.split "+" format_str = [vcode; acode]
              /\ (get_format_by_code ext
                    (staged_download ext (now ext (ticks w)) source media
                       container) vcode = None
                  \/ get_format_by_code ext
                       (staged_download ext (now ext (ticks w)) source media
                          container) acode = None))
        /\ e = TypeError)
    \/ (path_exists ext (filepath ext source media) = true
        /\ PyStr.contains "+" format_str = false
        /\ get_format_by_code ext
             (staged_download ext (now ext (ticks w)) source media container)
             format_str = None
        /\ e = TypeError) ->
    fst (download_media ext media_id w) = Raise e
    /\ db_media (snd (download_media ext media_id w)) = db_media w
    /\ db_sources (snd (download_media ext media_id w)) = db_sources w
    /\ db_tasks (snd (download_media ext media_id w)) = db_tasks w
    /\ effects (snd (download_media ext media_id w))
       = effects w ++ [CallDownloadMedia media_id].
Proof.
  intros Hmedia Hskip Hdone Hsource Hon Hcap Hrun e Hfail.
  destruct (path_exists ext (filepath ext source media)) eqn:Hfile.
  - assert (Hruns : download_runs ext w media_id media source format_str
                      container) by (repeat split; assumption).
    destruct (download_media_reaches ext w media_id media source format_str
                container Hruns) as (k & Hstart & _).
    rewrite Hstart. unfold bind, lift.
    assert (Hparse : set_downloaded_formats ext format_str container
                       (staged_download ext (now ext (ticks w)) source media
                          container) = Raise e).
    { unfold set_downloaded_formats.
      destruct Hfail
        as [[Hno _]|[(_ & Hplus & Hlen & ->)
                    |[(_ & Hplus & (v & a & Hsplit & Hnone) & ->)
                     |(_ & Hplus & Hnone & ->)]]];
        [discriminate| | |].
      - rewrite Hplus.
        destruct (PyStr.split "+" format_str) as [|v [|a [|? ?]]];
          try reflexivity. contradiction.
      - rewrite Hplus, Hsplit. cbv zeta.
        destruct Hnone as [Hnone|Hnone]; rewrite Hnone; [reflexivity|].
        destruct (get_format_by_code ext _ v); reflexivity.
      - rewrite Hplus. cbv zeta. rewrite Hnone. reflexivity. }
    rewrite Hparse. repeat split.
  - destruct Hfail as [[_ ->]|[(Hno & _)|[(Hno & _)|(Hno & _)]]];
      try discriminate.
    unfold download_media.
    rewrite (bind_ok get _ w _ _ eq_refl). rewrite Hmedia, Hskip, Hdone.
    rewrite (bind_ok (media_source media) _ w w source).
    2:{ unfold media_source. rewrite (bind_ok get _ w _ _ eq_refl).
        rewrite Hsource. reflexivity. }
    rewrite Hon. cbn [negb]. cbv zeta. rewrite Hcap.
    rewrite (bind_ok (emit _) _ _ _ _ eq_refl).
    erewrite (bind_ok (lift (run_download ext media_id source media)) _ _ _
                (format_str, container));
      [|unfold lift; rewrite Hrun; reflexivity].
    rewrite Hfile. repeat split.
Qed.

Lemma download_media_failure_saves_nothing_witness :
  fst (download_media (reading_externals "22") 10%N
         (Demo.world (Demo.source None 0) [(10%N, listed_item)]))
  = Raise TypeError
  /\ db_media
       (snd (download_media (reading_externals "22") 10%N
               (Demo.world (Demo.source None 0) [(10%N, listed_item)])))
     !! 10%N
     = Some listed_item.
Proof.
  destruct (download_media_failure_saves_nothing
              (reading_externals "22")
              (Demo.world (Demo.source None 0) [(10%N, listed_item)])
              10%N listed_item (Demo.source None 0) "22" "mp4"
              eq_refl eq_refl eq_refl eq_refl eq_refl eq_refl eq_refl
              TypeError)
    as (Hraise & Hmedia & _).
  { right. right. right. split; [reflexivity|]. split; [reflexivity|].
    split; reflexivity. }
  split; [exact Hraise|]. rewrite Hmedia. reflexivity.
Defined.

(** X16.  When [download_media] gets past its early returns and ends
    without raising, the row it saves is the row it read with the file
    attached, marked downloaded, dated with the instant the clock read,
    sized, and with the container the downloader named; the key, the source,
    the skip flags, [can_download], the metadata and the publish date are
    those of the row it read; no other row and no source is written. *)
Theorem download_media_marks_downloaded (ext : Externals) (w : World)
  (media_id : N) (media : Media.t) (source : Source.t)
  (format_str container : string) :
  download_runs ext w media_id media source format_str container ->
  fst (download_media ext media_id w) = Ok tt ->
  exists row,
    db_media (snd (download_media ext media_id w))
    = <[media_id := row]> (db_media w)
    /\ db_sources (snd (download_media ext media_id w)) = db_sources w
    /\ Media.downloaded row = true
    /\ Media.download_date row = Some (now ext (ticks w))
    /\ Media.downloaded_filesize row
       = Some (getsize ext (filepath ext source media))
    /\ Media.media_file row = media_file_name ext source media
    /\ Media.downloaded_container row = Some container
    /\ Media.key row = Media.key media
    /\ Media.source row = Media.source media
    /\ Media.skip row = false
    /\ Media.manual_skip row = Media.manual_skip media
    /\ Media.can_download row = Media.can_download media
    /\ Media.metadata row = Media.metadata media
    /\ Media.published row = Media.published media.
Proof.
  intros Hruns Hok.
  destruct (download_media_reaches ext w media_id media source format_str
              container Hruns) as (k & Hstart & Hk).
  rewrite Hstart in *. unfold bind, lift in *.
  destruct (set_downloaded_formats ext format_str container
              (staged_download ext (now ext (ticks w)) source media container))
    as [row|e] eqn:Hparse; [|discriminate].
  match goal with |- context [k row ?w1] =>
    destruct (Hk row w1) as (w' & Hrun & Hm & Hs & _) end.
  rewrite Hrun. cbn [snd]. exists row. rewrite Hm, Hs.
  split; [reflexivity|]. split; [reflexivity|].
  destruct (set_downloaded_formats_frame ext _ _ _ _ Hparse)
    as (Hkey & Hsource & Hskip & Hmanual & Hcan & Hd & Hfile & _ & Hmeta
        & Hpub & Hdate & Hsize).
  destruct Hruns as (_ & Hskip0 & _).
  assert (Hcont : Media.downloaded_container row = Some container).
  { revert Hparse. unfold set_downloaded_formats.
    destruct (PyStr.contains "+" format_str).
    - destruct (PyStr.split "+" format_str) as [|v [|a [|? ?]]];
        try discriminate.
      destruct (get_format_by_code ext _ v) as [vf|]; [|discriminate].
      destruct (get_format_by_code ext _ a) as [af|]; [|discriminate].
      cbn [subscript rbind]. intros [= <-]. reflexivity.
    - cbv zeta. destruct (get_format_by_code ext _ format_str) as [cf|];
        [|discriminate].
      cbn [subscript rbind]. destruct (PyStr.truthy_opt (vcodec cf));
        intros [= <-]; destruct media; reflexivity. }
  rewrite Hd, Hdate, Hsize, Hfile, Hkey, Hsource, Hskip, Hmanual, Hcan, Hmeta,
    Hpub, Hcont.
  destruct media; cbn in *. rewrite Hskip0. repeat split.
Qed.

(** X17.  Downloading is idempotent: after a run of [download_media] that
    got past its early returns and ended without raising, on a media file
    with a name, running the stage again does nothing at all. *)
Theorem download_media_twice (ext : Externals) (w : World) (media_id : N)
  (media : Media.t) (source : Source.t) (format_str container : string) :
  download_runs ext w media_id media source format_str container ->
  fst (download_media ext media_id w) = Ok tt ->
  media_file_name ext source media <> "" ->
  download_media ext media_id (snd (download_media ext media_id w))
  = (Ok tt, snd (download_media ext media_id w)).
Proof.
  intros Hruns Hok Hname.
  destruct (download_media_reaches ext w media_id media source format_str
              container Hruns) as (k & Hstart & Hk).
  rewrite Hstart in *. unfold bind, lift in *.
  destruct (set_downloaded_formats ext format_str container
              (staged_download ext (now ext (ticks w)) source media container))
    as [row|e] eqn:Hparse; [|discriminate].
  match goal with |- context [k row ?w1] =>
    destruct (Hk row w1) as (w' & Hrun & Hm & _) end.
  rewrite Hrun. cbn [snd].
  destruct (set_downloaded_formats_frame ext _ _ _ _ Hparse)
    as (_ & _ & _ & _ & _ & Hd & Hfile & _).
  apply (download_media_done ext w' media_id row).
  - rewrite Hm. apply lookup_insert_eq.
  - rewrite Hd. destruct media; reflexivity.
  - rewrite Hfile. destruct media; exact Hname.
Qed.

Lemma download_media_marks_downloaded_witness :
  exists row,
    db_media
      (snd (download_media (Demo.externals Demo.today None None "22") 10%N
              (Demo.world (Demo.source None 0) [(10%N, Demo.unfetched_item)])))
    !! 10%N = Some row
    /\ Media.downloaded row = true
    /\ Media.download_date row = Some Demo.today
    /\ Media.media_file row = "video/abc.mp4".
Proof.
  destruct (download_media_marks_downloaded
              (Demo.externals Demo.today None None "22")
              (Demo.world (Demo.source None 0) [(10%N, Demo.unfetched_item)])
              10%N Demo.unfetched_item (Demo.source None 0) "22" "mp4"
              ltac:(repeat split) eq_refl)
    as (row & Hm & _ & Hd & Hdate & _ & Hfile & _).
  exists row. rewrite Hm. split; [apply lookup_insert_eq|]. auto.
Defined.

Lemma download_media_twice_witness :
  download_media (Demo.externals Demo.today None None "22") 10%N
    (snd (download_media (Demo.externals Demo.today None None "22") 10%N
            (Demo.world (Demo.source None 0) [(10%N, Demo.unfetched_item)])))
  = (Ok tt,
     snd (download_media (Demo.externals Demo.today None None "22") 10%N
            (Demo.world (Demo.source None 0) [(10%N, Demo.unfetched_item)]))).
Proof.
  apply (download_media_twice
           (Demo.externals Demo.today None None "22")
           (Demo.world (Demo.source None 0) [(10%N, Demo.unfetched_item)])
           10%N Demo.unfetched_item (Demo.source None 0) "22" "mp4"
           ltac:(repeat split) eq_refl).
  discriminate.
Defined.

(** ** The rescans that [download_media] queues *)

Section Rescans.

Variable ext : Externals.

Lemma is_rescan_for_inj (pk1 pk2 : N) (k : Task) :
  (pk1 < 2 ^ 128)%N -> (pk2 < 2 ^ 128)%N ->
  is_rescan_for pk1 k = true -> is_rescan_for pk2 k = true -> pk1 = pk2.
Proof.
  intros H1 H2 Hk1 Hk2. unfold is_rescan_for in *.
  apply andb_true_iff in Hk1 as [_ Hp1]. apply andb_true_iff in Hk2 as [_ Hp2].
  apply String.eqb_eq in Hp1, Hp2.
  apply (HashFacts.str_uuid_inj _ _ H1 H2), HashFacts.dumps_args_inj.
  congruence.
Qed.

Lemma filter_filter_out {A : Type} (f : A -> bool) (l : list A) :
  List.filter f (List.filter (fun x => negb (f x)) l) = [].
Proof.
  induction l as [|x l IH]; [reflexivity|]. cbn [List.filter].
  destruct (f x) eqn:Hx; cbn [negb List.filter]; [exact IH|].
  rewrite Hx. exact IH.
Qed.

Lemma filter_filter_other {A : Type} (f g : A -> bool) (l : list A) :
  (forall x, f x = true -> g x = false) ->
  List.filter f (List.filter (fun x => negb (g x)) l) = List.filter f l.
Proof.
  intros Hfg. induction l as [|x l IH]; [reflexivity|]. cbn [List.filter].
  destruct (g x) eqn:Hg; cbn [negb List.filter].
  - destruct (f x) eqn:Hf; [|exact IH].
    rewrite (Hfg x Hf) in Hg. discriminate.
  - destruct (f x); [f_equal|]; exact IH.
Qed.

(** The pending tasks after one rescan is queued. *)
Lemma schedule_rescan_tasks (mediaserver : N * string) (queue : string)
  (w : World) :
  exists w',
    schedule_rescan ext mediaserver queue w = (Ok tt, w')
    /\ db_mediaservers w' = db_mediaservers w
    /\ db_tasks w'
       = List.filter (fun k => negb (is_rescan_for (fst mediaserver) k))
           (db_tasks w)
         ++ [mkTask "sync.tasks.rescan_media_server"
               (Json.dumps_args (str_uuid (fst mediaserver))) queue 0
               (rescan_verbose_name (snd mediaserver)) (now ext (ticks w))
               None ""].
Proof. eexists. split; [reflexivity|]. split; reflexivity. Qed.

(** Queueing a rescan for each of the media servers [l]. *)
Lemma schedule_rescans_tasks (l : list (N * string)) (queue : string) :
  List.NoDup (map fst l) ->
  (forall x, In x l -> (fst x < 2 ^ 128)%N) ->
  forall w,
  exists w',
    for_each l (fun mediaserver => schedule_rescan ext mediaserver queue) w
    = (Ok tt, w')
    /\ (forall x, In x l ->
          exists t,
            List.filter (is_rescan_for (fst x)) (db_tasks w')
            = [mkTask "sync.tasks.rescan_media_server"
                 (Json.dumps_args (str_uuid (fst x))) queue 0
                 (rescan_verbose_name (snd x)) t None ""])
    /\ (forall pk, (pk < 2 ^ 128)%N -> ~ In pk (map fst l) ->
          List.filter (is_rescan_for pk) (db_tasks w')
          = List.filter (is_rescan_for pk) (db_tasks w))
    /\ (forall k, task_name k <> "sync.tasks.rescan_media_server" ->
          In k (db_tasks w') <-> In k (db_tasks w)).
Proof.
  induction l as [|x l IH]; intros Hnd Hbound w.
  - exists w. split; [reflexivity|]. split; [intros x []|].
    split; [reflexivity|]. reflexivity.
  - cbn [map] in Hnd. apply List.NoDup_cons_iff in Hnd as [Hx Hnd].
    destruct (schedule_rescan_tasks x queue w) as (w1 & Hrun1 & _ & Htasks1).
    destruct (IH Hnd (fun y Hy => Hbound y (or_intror Hy)) w1)
      as (w' & Hrun & Hin & Hout & Hother).
    assert (Hbx : (fst x < 2 ^ 128)%N) by (apply Hbound; left; reflexivity).
    assert (Hself : is_rescan_for (fst x)
                      (mkTask "sync.tasks.rescan_media_server"
                         (Json.dumps_args (str_uuid (fst x))) queue 0
                         (rescan_verbose_name (snd x)) (now ext (ticks w))
                         None "") = true).
    { unfold is_rescan_for. cbn [task_name task_params].
      rewrite !String.eqb_refl. reflexivity. }
    exists w'. split.
    { cbn [for_each]. rewrite (bind_ok _ _ _ _ _ Hrun1). exact Hrun. }
    split; [|split].
    + intros y [<-|Hy]; [|exact (Hin y Hy)].
      exists (now ext (ticks w)).
      rewrite (Hout (fst x) Hbx Hx), Htasks1, List.filter_app, filter_filter_out.
      cbn [List.filter app]. rewrite Hself. reflexivity.
    + intros pk Hpk Hnot. cbn [map] in Hnot.
      rewrite (Hout pk Hpk (fun H => Hnot (or_intror H))), Htasks1, List.filter_app.
      assert (Hne : forall k, is_rescan_for pk k = true ->
                              is_rescan_for (fst x) k = false).
      { intros k Hk. destruct (is_rescan_for (fst x) k) eqn:Hkx; [|reflexivity].
        exfalso. apply Hnot. left.
        exact (is_rescan_for_inj _ _ k Hbx Hpk Hkx Hk). }
      rewrite (filter_filter_other _ _ _ Hne). cbn [List.filter].
      destruct (is_rescan_for pk _) eqn:Hk; [|apply app_nil_r].
      rewrite (Hne _ Hk) in Hself. discriminate.
    + intros k Hk. rewrite (Hother k Hk), Htasks1, in_app_iff, List.filter_In.
      split.
      * intros [[H _]|[<-|[]]]; [exact H|]. contradiction Hk. reflexivity.
      * intros H. left. split; [exact H|]. unfold is_rescan_for.
        destruct (String.eqb_spec (task_name k)
                    "sync.tasks.rescan_media_server"); [contradiction|].
        reflexivity.
Qed.

(** [download_media] from the parsed row on, as the loop that queues the
    rescans. *)
Lemma download_media_reaches_rescans (w : World) (media_id : N)
  (media : Media.t) (source : Source.t) (format_str container : string) :
  download_runs ext w media_id media source format_str container ->
  exists k,
    download_media ext media_id w
    = bind (lift (set_downloaded_formats ext format_str container
                    (staged_download ext (now ext (ticks w)) source media
                       container)))
        k
        (with_ticks (S (ticks w))
           (with_effects (effects w ++ [CallDownloadMedia media_id]) w))
    /\ (forall row w0,
          exists w1,
            k row w0
            = for_each (map_to_list (db_mediaservers w1))
                (fun mediaserver =>
                   schedule_rescan ext mediaserver
                     (str_uuid (Media.source row))) w1
            /\ db_tasks w1 = db_tasks w0
            /\ db_mediaservers w1 = db_mediaservers w0).
Proof.
  intros (Hmedia & Hskip & Hdone & Hsource & Hon & Hcap & Hrun & Hfile).
  eexists. split.
  - unfold download_media.
    rewrite (bind_ok get _ w _ _ eq_refl). rewrite Hmedia, Hskip, Hdone.
    rewrite (bind_ok (media_source media) _ w w source).
    2:{ unfold media_source. rewrite (bind_ok get _ w _ _ eq_refl).
        rewrite Hsource. reflexivity. }
    rewrite Hon. cbn [negb]. cbv zeta. rewrite Hcap.
    rewrite (bind_ok (emit _) _ _ _ _ eq_refl).
    erewrite (bind_ok (lift (run_download ext media_id source media)) _ _ _
                (format_str, container));
      [|unfold lift; rewrite Hrun; reflexivity].
    rewrite Hfile.
    rewrite (bind_ok (timezone_now ext) _ _ _ _ eq_refl).
    cbn [fst snd ticks with_effects]. reflexivity.
  - intros row w0. cbv beta.
    rewrite (bind_ok (media_save media_id row) _ w0 _ _ eq_refl).
    match goal with |- context [bind (if ?c then _ else _) _ ?w1] =>
      rewrite (bind_ok (if c then _ else _) _ w1
                 (if c then with_effects
                              (effects w1
                               ++ [CopyFile (thumb_path ext row)
                                     (thumbpath ext source row)]) w1
                  else w1) tt) by (destruct c; reflexivity)
    end.
    match goal with |- context [bind (if ?c then _ else _) _ ?w1] =>
      rewrite (bind_ok (if c then _ else _) _ w1
                 (if c then with_effects
                              (effects w1
                               ++ [WriteTextFile (nfopath ext source row)
                                     (nfoxml ext source row)]) w1
                  else w1) tt) by (destruct c; reflexivity)
    end.
    rewrite (bind_ok get _ _ _ _ eq_refl).
    eexists. split; [reflexivity|].
    destruct (Source.copy_thumbnails source && PyStr.truthy (Media.thumb row)),
      (Source.write_nfo source); split; reflexivity.
Qed.

End Rescans.

(** X18.  A download that succeeds leaves, for every media server, a
    request for its rescan among the pending tasks: named
    [sync.tasks.rescan_media_server], with the server's key as its only
    argument, in the queue of the media item's source, at priority 0 and
    under the verbose name made from the server.  The requests for
    different servers do not displace one another, and the pending tasks of
    every other name are the ones there were. *)
Theorem download_media_queues_rescans (ext : Externals) (w : World)
  (media_id : N) (media : Media.t) (source : Source.t)
  (format_str container : string) :
  download_runs ext w media_id media source format_str container ->
  fst (download_media ext media_id w) = Ok tt ->
  (forall pk name, db_mediaservers w !! pk = Some name -> (pk < 2 ^ 128)%N) ->
  (forall pk name,
     db_mediaservers w !! pk = Some name ->
     exists t,
       In (mkTask "sync.tasks.rescan_media_server"
             (Json.dumps_args (str_uuid pk)) (str_uuid (Media.source media))
             0 (rescan_verbose_name name) t None "")
          (db_tasks (snd (download_media ext media_id w))))
  /\ (forall k,
        task_name k <> "sync.tasks.rescan_media_server" ->
        In k (db_tasks (snd (download_media ext media_id w)))
        <-> In k (db_tasks w)).
Proof.
  intros Hruns Hok Hbound.
  destruct (download_media_reaches_rescans ext w media_id media source
              format_str container Hruns) as (k & Hstart & Hk).
  rewrite Hstart in Hok |- *. unfold bind, lift in Hok |- *.
  destruct (set_downloaded_formats ext format_str container
              (staged_download ext (now ext (ticks w)) source media container))
    as [row|e] eqn:Hparse; [|discriminate].
  apply set_downloaded_formats_frame in Hparse as (_ & Hsrc & _).
  assert (Hsame : Media.source row = Media.source media).
  { rewrite Hsrc. destruct media. reflexivity. }
  cbn [fst snd] in Hok |- *.
  match goal with |- context [k row ?w0] =>
    destruct (Hk row w0) as (w1 & Hloop & Htasks & Hservers)
  end.
  rewrite Hloop, Hsame. cbn [db_tasks with_ticks with_effects] in Htasks.
  cbn [db_mediaservers with_ticks with_effects] in Hservers.
  rewrite Hservers.
  destruct (schedule_rescans_tasks ext (map_to_list (db_mediaservers w))
              (str_uuid (Media.source media))) with (w := w1)
    as (w' & Hrun & Hin & _ & Hother).
  { apply NoDup_ListNoDup. exact (NoDup_fst_map_to_list (db_mediaservers w)). }
  { intros [pk name] Hx. apply (Hbound pk name).
    apply elem_of_map_to_list, list_elem_of_In. exact Hx. }
  rewrite Hrun. cbn [snd]. split.
  - intros pk name Hpk.
    destruct (Hin (pk, name)) as (t & Ht).
    { apply list_elem_of_In, elem_of_map_to_list. exact Hpk. }
    exists t. cbn [fst snd] in Ht.
    apply (proj1 (List.filter_In (is_rescan_for pk) _ _)).
    rewrite Ht. left. reflexivity.
  - intros task Htask. rewrite (Hother task Htask), Htasks. reflexivity.
Qed.

Lemma download_media_queues_rescans_witness :
  exists t,
    In (mkTask "sync.tasks.rescan_media_server"
          (Json.dumps_args (str_uuid 7)) (str_uuid 1) 0
          (rescan_verbose_name "plex") t None "")
       (db_tasks
          (snd (download_media (Demo.externals Demo.today None None "22")
                  10%N servers_world))).
Proof.
  refine (proj1 (download_media_queues_rescans
                   (Demo.externals Demo.today None None "22") servers_world
                   10%N Demo.unfetched_item (Demo.source None 0) "22" "mp4"
                   ltac:(repeat split) eq_refl _) 7%N "plex" eq_refl).
  intros pk name H. cbn [db_mediaservers servers_world] in H.
  apply lookup_singleton_Some in H as [<- _]. reflexivity.
Defined.
